(** * LLMPostGeneration: a shallow embedding of the orchestration core

    The development follows the Python sources:
    - [PyStr]            Python [str] values and the string methods the code uses;
    - [Py]               dynamically typed JSON values, exceptions, the effect monad;
    - [LinkedInScraper]  [scrapers/linkedin_scraper.py];
    - [XScraper]         [scrapers/x_scraper.py];
    - [Orchestrator]     [agents/linkedin_agent.py], [agents/x_agent.py],
                         [agents/orchestrator_agent.py] and the prompt of [config.py];
    - [App]              [app.py]: [filter_summary_from_output], [start_workflow].

    Console output ([print]) is not part of the model. *)

From Stdlib Require Import List NArith ZArith Bool Lia Ascii String.
From Stdlib Require Import Numbers.DecimalString.
Import ListNotations.

Set Implicit Arguments.

(* ================================================================== *)
(** * Python strings *)
(* ================================================================== *)

Module PyStr.

(** A Python [str] is a sequence of Unicode code points; [len], slicing and
    [in] all count code points, so the model is a list of code points. *)
Definition char := N.
Definition str := list char.

(** An ASCII literal of the source. *)
Definition lit (s : string) : str := map N_of_ascii (list_ascii_of_string s).

Definition NL : char := 10%N.
Definition QUOTE : char := 34%N.

Definition len (s : str) : Z := Z.of_nat (List.length s).

Fixpoint eqb (s t : str) : bool :=
  match s, t with
  | [], [] => true
  | c :: s', d :: t' => N.eqb c d && eqb s' t'
  | _, _ => false
  end.

(** [s.startswith(p)] *)
Fixpoint startswith (p s : str) : bool :=
  match p, s with
  | [], _ => true
  | _ :: _, [] => false
  | c :: p', d :: s' => N.eqb c d && startswith p' s'
  end.

(** [p in s] *)
Fixpoint contains (p s : str) : bool :=
  startswith p s ||
  match s with
  | [] => false
  | _ :: s' => contains p s'
  end.

(** [s.split(sep)] for a one-character separator: never the empty list. *)
Fixpoint split (sep : char) (s : str) : list str :=
  match s with
  | [] => [[]]
  | c :: s' =>
      if N.eqb c sep then [] :: split sep s'
      else match split sep s' with
           | l :: ls => (c :: l) :: ls
           | [] => [[c]]
           end
  end.

(** [sep.join(ls)] *)
Fixpoint join (sep : str) (ls : list str) : str :=
  match ls with
  | [] => []
  | l :: ls' =>
      match ls' with
      | [] => l
      | _ :: _ => l ++ sep ++ join sep ls'
      end
  end.

(** [c * n] for a one-character string [c]. *)
Definition times (c : char) (n : nat) : str := repeat c n.

(** [s[:n]] for [n >= 0]. *)
Definition prefix (n : nat) (s : str) : str := firstn n s.

(** Code points for which [str.isspace] holds; [str.strip()] removes them
    from both ends. *)
Definition isspace (c : char) : bool :=
  ((9 <=? c) && (c <=? 13) || (28 <=? c) && (c <=? 32) ||
   (c =? 133) || (c =? 160) || (c =? 5760) ||
   (8192 <=? c) && (c <=? 8202) ||
   (c =? 8232) || (c =? 8233) || (c =? 8239) || (c =? 8287) || (c =? 12288))%N.

Fixpoint lstrip (s : str) : str :=
  match s with
  | [] => []
  | c :: s' => if isspace c then lstrip s' else s
  end.

Definition rstrip (s : str) : str := rev (lstrip (rev s)).

Definition strip (s : str) : str := rstrip (lstrip s).

(** [s.replace(old, new)] for a non-empty [old]: occurrences are replaced
    from the left and do not overlap; [skip] counts the code points of a
    replaced occurrence still to be dropped. *)
Fixpoint replace_from (old new : str) (skip : nat) (s : str) : str :=
  match s with
  | [] => []
  | c :: s' =>
      match skip with
      | S k => replace_from old new k s'
      | O =>
          if startswith old s
          then new ++ replace_from old new (Nat.pred (List.length old)) s'
          else c :: replace_from old new O s'
      end
  end.

Definition replace (old new s : str) : str := replace_from old new O s.

(** [str(n)] and [f"{n}"] for an [int]. *)
Definition of_int (n : Z) : str := lit (NilEmpty.string_of_int (Z.to_int n)).

End PyStr.

(* ================================================================== *)
(** * Python values, exceptions and effects *)
(* ================================================================== *)

Module Py.
Import PyStr.

(** Exceptions the modelled code raises or lets through. [RemoteError] is
    whatever an external service call (LLM run, scraping actor, dataset
    read) raises. *)
Inductive exn :=
| ValueError (msg : str)
| AttributeError (msg : str)
| RemoteError (msg : str).

(** [str(e)] *)
Definition exn_str (e : exn) : str :=
  match e with
  | ValueError m => m
  | AttributeError m => m
  | RemoteError m => m
  end.

Inductive result (A : Type) : Type :=
| Ok (a : A)
| Raise (e : exn).
Arguments Ok {A} a.
Arguments Raise {A} e.

(** A value of type [Any] found in a scraped record or a request body.
    The code tells strings and dicts apart from everything else; of any
    other object ([None], numbers, booleans, lists, ...) it only observes
    the truth value and [str(...)], and its type name shows in the
    [AttributeError] raised when a string or dict method is called on it. *)
#[warnings="-register-all"]
Inductive value :=
| PyStr (s : str)
| PyDict (d : list (str * value))
| PyOther (tyname : str) (truthy : bool) (repr : str).

Definition dict := list (str * value).

Definition PyNone : value := PyOther (lit "NoneType") false (lit "None").

Fixpoint lookup (k : str) (d : dict) : option value :=
  match d with
  | [] => None
  | (k', v) :: d' => if PyStr.eqb k k' then Some v else lookup k d'
  end.

(** [d.get(k, dflt)] on a dict *)
Definition dict_get (d : dict) (k : str) (dflt : value) : value :=
  match lookup k d with
  | Some v => v
  | None => dflt
  end.

Definition type_name (v : value) : str :=
  match v with
  | PyStr _ => lit "str"
  | PyDict _ => lit "dict"
  | PyOther t _ _ => t
  end.

Definition no_attribute (v : value) (attr : str) : exn :=
  AttributeError (lit "'" ++ type_name v ++ lit "' object has no attribute '"
                  ++ attr ++ lit "'").

(** [v.get(k, dflt)] on an arbitrary object *)
Definition get (v : value) (k : str) (dflt : value) : result value :=
  match v with
  | PyDict d => Ok (dict_get d k dflt)
  | _ => Raise (no_attribute v (lit "get"))
  end.

(** [v.strip()] on an arbitrary object *)
Definition strip (v : value) : result str :=
  match v with
  | PyStr s => Ok (PyStr.strip s)
  | _ => Raise (no_attribute v (lit "strip"))
  end.

(** [bool(v)] *)
Definition truthy (v : value) : bool :=
  match v with
  | PyStr s => match s with [] => false | _ :: _ => true end
  | PyDict d => match d with [] => false | _ :: _ => true end
  | PyOther _ t _ => t
  end.

(** [isinstance(v, dict)] *)
Definition is_dict (v : value) : bool :=
  match v with
  | PyDict _ => true
  | _ => false
  end.

(** [str(v)], which is also how an f-string renders [{v}]. The rendering
    of a dict is Python's own and is taken as a parameter. *)
Definition to_str (repr_dict : dict -> str) (v : value) : str :=
  match v with
  | PyStr s => s
  | PyDict d => repr_dict d
  | PyOther _ _ r => r
  end.

(** Truth value of an [Optional[List[str]]] argument. *)
Definition some_nonempty (l : option (list str)) : bool :=
  match l with
  | Some (_ :: _) => true
  | _ => false
  end.

(** Effectful code: the events issued so far, in order, and the outcome. *)
Definition M (E A : Type) : Type := (list E * result A)%type.

Definition ret {E A : Type} (a : A) : M E A := ([], Ok a).

Definition raise {E A : Type} (e : exn) : M E A := ([], Raise e).

Definition emit {E : Type} (e : E) : M E unit := ([e], Ok tt).

Definition lift {E A : Type} (r : result A) : M E A := ([], r).

Definition bind {E A B : Type} (m : M E A) (k : A -> M E B) : M E B :=
  match m with
  | (t, Ok a) => let (t', r) := k a in (t ++ t', r)
  | (t, Raise e) => (t, Raise e)
  end.

Definition events {E A : Type} (m : M E A) : list E := fst m.

Definition outcome {E A : Type} (m : M E A) : result A := snd m.

(** The same for code without events. *)
Definition rbind {A B : Type} (r : result A) (k : A -> result B) : result B :=
  match r with
  | Ok a => k a
  | Raise e => Raise e
  end.

(** What the scrapers do to the outside world: the two calls to the
    remote scraping service, and the files they write (writing is taken
    to succeed). *)
Inductive io_event (I : Type) : Type :=
| ActorCall (actor : str) (run_input : I)
| DatasetRead (dataset_id : str)
| FileWrite (path : str) (content : str).
Arguments ActorCall {I} actor run_input.
Arguments DatasetRead {I} dataset_id.
Arguments FileWrite {I} path content.

Definition is_remote_call {I : Type} (e : io_event I) : bool :=
  match e with
  | ActorCall _ _ => true
  | DatasetRead _ => true
  | FileWrite _ _ => false
  end.

End Py.

Declare Scope py_scope.
Delimit Scope py_scope with py.
Notation "x <- m ;; k" := (Py.bind m (fun x => k))
  (at level 61, m at next level, right associativity) : py_scope.
Notation "m ;;; k" := (Py.bind m (fun _ => k))
  (at level 61, right associativity) : py_scope.
Notation "x <~ r ;; k" := (Py.rbind r (fun x => k))
  (at level 61, r at next level, right associativity) : py_scope.

Local Open Scope py_scope.

(* ================================================================== *)
(** * scrapers/linkedin_scraper.py *)
(* ================================================================== *)

Module LinkedInScraper.
Import PyStr Py.

(** The actor input built by [scrape_linkedin_posts]. *)
Record run_input := {
  urls : list str;
  limitPerSource : Z
}.

Definition event := io_event run_input.

Definition PLACEHOLDER_TOKEN : str := lit "your_apify_api_token_here".

Definition TOKEN_ERROR : exn :=
  ValueError (lit "APIFY_API_TOKEN not configured. " ++
              lit "Please set your Apify API token in the .env file").

Definition NO_EXAMPLES : str :=
  lit "No valid examples found from scraped content.".

Definition SEPARATOR : str := [NL] ++ lit "---" ++ [NL; NL].

(** [not token or token == "your_apify_api_token_here"], the token being
    what [os.getenv] returned. *)
Definition token_missing (token : option str) : bool :=
  match token with
  | None => true
  | Some [] => true
  | Some t => PyStr.eqb t PLACEHOLDER_TOKEN
  end.

Section Formatting.

Variable repr_dict : dict -> str.

(** The f-string of the loop body. *)
Definition example (idx : Z) (text author : value) : str :=
  lit "LinkedIn Example " ++ of_int idx ++ lit ":" ++ [NL] ++
  [QUOTE] ++ to_str repr_dict text ++ [QUOTE] ++ [NL] ++
  lit "(Author: " ++ to_str repr_dict author ++ lit ")" ++ [NL].

(** One iteration of the loop of [_format_as_examples]: [None] stands for
    [continue], [Some e] for [examples.append(e)]. *)
Definition format_item (idx : Z) (item : dict) : result (option str) :=
  let text := dict_get item (lit "text") (PyStr []) in
  author <~ get (dict_get item (lit "author") (PyDict [])) (lit "name")
                (PyStr (lit "Unknown Author")) ;;
  if negb (truthy text) then Ok None
  else
    stripped <~ strip text ;;
    if (len stripped <? 20)%Z then Ok None
    else Ok (Some (example idx text author)).

(** [for idx, item in enumerate(items, idx): ...], with the list
    [examples] built so far. *)
Fixpoint format_loop (idx : Z) (items : list dict) (examples : list str)
  : result (list str) :=
  match items with
  | [] => Ok examples
  | item :: rest =>
      r <~ format_item idx item ;;
      match r with
      | None => format_loop (idx + 1) rest examples
      | Some e => format_loop (idx + 1) rest (examples ++ [e])
      end
  end.

Definition _format_as_examples (items : list dict) : result str :=
  examples <~ format_loop 1 items [] ;;
  match examples with
  | [] => Ok NO_EXAMPLES
  | _ :: _ => Ok (join SEPARATOR examples)
  end.

End Formatting.

Section Scraping.

(** [config.APIFY_API_TOKEN] *)
Variable APIFY_API_TOKEN : option str.
(** [client.actor(name).call(run_input=...)], giving [run["defaultDatasetId"]] *)
Variable actor_call : str -> run_input -> result str.
(** [client.dataset(id).iterate_items()] *)
Variable dataset_items : str -> result (list dict).
(** [json.dumps(item, indent=2)] and [json.dumps(items, indent=2)] *)
Variable json_dumps : dict -> str.
Variable json_dumps_all : list dict -> str.
Variable repr_dict : dict -> str.

Definition raw_output (items : list dict) : str :=
  List.concat (map (fun item => json_dumps item ++ [NL; NL] ++ lit "---" ++ [NL; NL])
              items).

Definition scrape_linkedin_posts (urls : list str) (limit_per_source : Z)
  (output_file : str) (format_as_examples : bool) : M event str :=
  if token_missing APIFY_API_TOKEN then raise TOKEN_ERROR
  else
    let run_input := {| urls := urls; limitPerSource := limit_per_source |} in
    emit (ActorCall (lit "supreme_coder/linkedin-post") run_input) ;;;
    dataset_id <- lift (actor_call (lit "supreme_coder/linkedin-post") run_input) ;;
    emit (DatasetRead dataset_id) ;;;
    items <- lift (dataset_items dataset_id) ;;
    emit (FileWrite output_file (raw_output items)) ;;;
    if format_as_examples then
      formatted_examples <- lift (_format_as_examples repr_dict items) ;;
      emit (FileWrite (replace (lit ".txt") (lit "_examples.txt") output_file)
                      formatted_examples) ;;;
      ret formatted_examples
    else ret (json_dumps_all items).

Definition scrape_and_format_for_workflow (urls : list str)
  (limit_per_source : Z) : M event str :=
  scrape_linkedin_posts urls limit_per_source (lit "linkedin_scraped.txt") true.

End Scraping.

End LinkedInScraper.

(* ================================================================== *)
(** * scrapers/x_scraper.py *)
(* ================================================================== *)

Module XScraper.
Import PyStr Py.

(** The actor input built by [scrape_x_posts]; an optional key is present
    only when its argument is a non-empty list. *)
Record run_input := {
  maxItems : Z;
  sort : str;
  tweetLanguage : str;
  customMapFunction : str;
  startUrls : option (list str);
  searchTerms : option (list str);
  twitterHandles : option (list str)
}.

Definition event := io_event run_input.

Definition PLACEHOLDER_TOKEN : str := lit "your_apify_api_token_here".

Definition TOKEN_ERROR : exn :=
  ValueError (lit "APIFY_API_TOKEN not configured. " ++
              lit "Please set your Apify API token in the .env file").

Definition NO_INPUT_ERROR : exn :=
  ValueError (lit "Must provide at least one of: start_urls, search_terms, or twitter_handles").

Definition NO_EXAMPLES : str :=
  lit "No valid examples found from scraped content.".

Definition SEPARATOR : str := [NL] ++ lit "---" ++ [NL; NL].

Definition token_missing (token : option str) : bool :=
  match token with
  | None => true
  | Some [] => true
  | Some t => PyStr.eqb t PLACEHOLDER_TOKEN
  end.

(** [if l: run_input[key] = l] *)
Definition when_given (l : option (list str)) : option (list str) :=
  if some_nonempty l then l else None.

Section Formatting.

Variable repr_dict : dict -> str.

Definition example (idx : Z) (text author_name : value) : str :=
  lit "X Example " ++ of_int idx ++ lit ":" ++ [NL] ++
  [QUOTE] ++ to_str repr_dict text ++ [QUOTE] ++ [NL] ++
  lit "(Author: @" ++ to_str repr_dict author_name ++ lit ")" ++ [NL].

(** The author handling: a dict is asked for [userName], then [name]; any
    other object is rendered with [str] when truthy. *)
Definition author_name_of (author : value) : value :=
  match author with
  | PyDict d =>
      dict_get d (lit "userName")
               (dict_get d (lit "name") (PyStr (lit "Unknown Author")))
  | _ =>
      if truthy author then PyStr (to_str repr_dict author)
      else PyStr (lit "Unknown Author")
  end.

(** [text.startswith('RT @')] and [len(text)], reached only once
    [text.strip()] has succeeded, that is, on a string. *)
Definition text_of (text : value) : str :=
  match text with
  | PyStr s => s
  | _ => []
  end.

Definition format_item (idx : Z) (item : dict) : result (option str) :=
  let text := dict_get item (lit "text")
                       (dict_get item (lit "full_text") (PyStr [])) in
  let author := dict_get item (lit "author") (PyDict []) in
  let author_name := author_name_of author in
  if negb (truthy text) then Ok None
  else
    stripped <~ strip text ;;
    if (len stripped <? 10)%Z then Ok None
    else if startswith (lit "RT @") (text_of text) then Ok None
    else if (len (text_of text) >? 400)%Z then Ok None
    else Ok (Some (example idx text author_name)).

Fixpoint format_loop (idx : Z) (items : list dict) (examples : list str)
  : result (list str) :=
  match items with
  | [] => Ok examples
  | item :: rest =>
      r <~ format_item idx item ;;
      match r with
      | None => format_loop (idx + 1) rest examples
      | Some e => format_loop (idx + 1) rest (examples ++ [e])
      end
  end.

Definition _format_as_examples (items : list dict) : result str :=
  examples <~ format_loop 1 items [] ;;
  match examples with
  | [] => Ok NO_EXAMPLES
  | _ :: _ => Ok (join SEPARATOR examples)
  end.

End Formatting.

Section Scraping.

Variable APIFY_API_TOKEN : option str.
Variable actor_call : str -> run_input -> result str.
Variable dataset_items : str -> result (list dict).
Variable json_dumps : dict -> str.
Variable json_dumps_all : list dict -> str.
Variable repr_dict : dict -> str.

Definition raw_output (items : list dict) : str :=
  List.concat (map (fun item => json_dumps item ++ [NL; NL] ++ lit "---" ++ [NL; NL])
                   items).

Definition scrape_x_posts
  (start_urls search_terms twitter_handles : option (list str))
  (max_items : Z) (sort tweet_language output_file : str)
  (format_as_examples : bool) : M event str :=
  if token_missing APIFY_API_TOKEN then raise TOKEN_ERROR
  else if negb (some_nonempty start_urls || some_nonempty search_terms
                || some_nonempty twitter_handles)
  then raise NO_INPUT_ERROR
  else
    let run_input :=
      {| maxItems := max_items;
         sort := sort;
         tweetLanguage := tweet_language;
         customMapFunction := lit "(object) => { return {...object} }";
         startUrls := when_given start_urls;
         searchTerms := when_given search_terms;
         twitterHandles := when_given twitter_handles |} in
    emit (ActorCall (lit "apidojo/tweet-scraper") run_input) ;;;
    dataset_id <- lift (actor_call (lit "apidojo/tweet-scraper") run_input) ;;
    emit (DatasetRead dataset_id) ;;;
    items <- lift (dataset_items dataset_id) ;;
    emit (FileWrite output_file (raw_output items)) ;;;
    if format_as_examples then
      formatted_examples <- lift (_format_as_examples repr_dict items) ;;
      emit (FileWrite (replace (lit ".txt") (lit "_examples.txt") output_file)
                      formatted_examples) ;;;
      ret formatted_examples
    else ret (json_dumps_all items).

Definition scrape_and_format_for_workflow
  (start_urls search_terms twitter_handles : option (list str))
  (max_items : Z) : M event str :=
  scrape_x_posts start_urls search_terms twitter_handles max_items
                 (lit "Latest") (lit "en") (lit "x_scraped.txt") true.

End Scraping.

End XScraper.

(* ================================================================== *)
(** * agents/linkedin_agent.py, agents/x_agent.py,
      agents/orchestrator_agent.py *)
(* ================================================================== *)

Module Orchestrator.
Import PyStr Py.

(** The three [Agent] objects; each has its own [run]. *)
Inductive agent_id := LinkedInAgent | XAgent | OrchestratorAgent.

(** [self.name] *)
Definition name (a : agent_id) : str :=
  match a with
  | LinkedInAgent => lit "LinkedIn Content Creator"
  | XAgent => lit "X Content Creator"
  | OrchestratorAgent => lit "Master Orchestrator"
  end.

(** What [Agent.run] gives back: an object with a [content] attribute, or
    one without, of which the code takes [str(...)]. *)
Inductive RunResponse :=
| WithContent (content : str)
| WithoutContent (repr : str).

(** [response.content if hasattr(response, 'content') else str(response)] *)
Definition content_of (response : RunResponse) : str :=
  match response with
  | WithContent c => c
  | WithoutContent r => r
  end.

(** A remote text-generation call being issued, and its return. *)
Inductive event :=
| RunCall (a : agent_id) (prompt : str)
| RunReturn (a : agent_id) (r : result RunResponse).

(** [e1] occurs in the trace [t] before [e2] does. *)
Definition precedes (e1 e2 : event) (t : list event) : Prop :=
  exists a b c, t = a ++ e1 :: b ++ e2 :: c.

(** The dict returned by [generate_posts]. *)
Record GenOutput := {
  platform : str;
  num_posts : Z;
  posts : str;
  agent : str
}.

(** The dict returned by [_validate_and_compile]. *)
Record Metadata := {
  context_provided : str;
  total_linkedin_posts : Z;
  total_x_posts : Z;
  agents_used : list str
}.

Record PlatformPosts := {
  posts_platform : str;
  count : Z;
  content : str
}.

Record FinalOutput := {
  workflow_status : str;
  metadata : Metadata;
  validation_summary : str;
  linkedin_posts : PlatformPosts;
  x_posts : PlatformPosts
}.

Definition linkedin_prompt (context examples : str) (num_posts : Z) : str :=
  lit "Generate " ++
  of_int num_posts ++
  lit " unique LinkedIn posts based on the following:

CONTEXT:
" ++
  context ++
  lit "

EXAMPLE POSTS (for style reference):
" ++
  examples ++
  lit "

REQUIREMENTS:
- Create " ++
  of_int num_posts ++
  lit " distinct, unique LinkedIn posts
- Each post should be between 150-300 words
- Follow the style and tone of the example posts
- Incorporate insights from the context
- Each post should be self-contained and valuable
- Number each post clearly (Post 1, Post 2, etc.)
- Include 3-5 relevant hashtags for each post

Format each post clearly with:
---
Post [Number]
[Post content here]
---
".

Definition x_prompt (context examples : str) (num_posts : Z) : str :=
  lit "Generate " ++
  of_int num_posts ++
  lit " unique X (Twitter) posts based on the following:

CONTEXT:
" ++
  context ++
  lit "

EXAMPLE POSTS (for style reference):
" ++
  examples ++
  lit "

REQUIREMENTS:
- Create " ++
  of_int num_posts ++
  lit " distinct, unique X posts
- Each post MUST be under 280 characters (including hashtags)
- Follow the style and tone of the example posts
- Incorporate insights from the context
- Each post should be impactful and shareable
- Number each post clearly (Post 1, Post 2, etc.)
- Include 1-3 relevant hashtags for each post

Format each post clearly with:
---
Post [Number]
[Post content here - UNDER 280 characters]
---
".

(** [config.VALIDATION_PROMPT_TEMPLATE.format(...)] *)
Definition validation_prompt (context examples linkedin_posts x_posts : str) : str :=
  lit "Review the following generated posts and validate them based on these criteria:

Original Context:
" ++
  context ++
  lit "

Example Posts:
" ++
  examples ++
  lit "

LinkedIn Posts Generated:
" ++
  linkedin_posts ++
  lit "

X Posts Generated:
" ++
  x_posts ++
  lit "

Validation Criteria:
1. Do all posts align with the provided context?
2. Do posts match the style and tone of example posts?
3. Are there any duplicate or very similar posts?
4. Are LinkedIn posts appropriate length (150-300 words)?
5. Are X posts under 280 characters?
6. Is the content valuable and engaging?
7. Are posts unique and varied?

Provide a brief validation summary and confirm if the posts meet quality standards.
If any posts need improvement, specify which ones and why.
".

(** How the two pool threads and [as_completed] happen to run: [steps]
    picks, event by event, which of the two tasks advances ([true] for
    the LinkedIn task); [linkedin_first] tells which future
    [as_completed] yields first. *)
Record schedule := {
  steps : list bool;
  linkedin_first : bool
}.

Fixpoint interleave (steps : list bool) (l x : list event) : list event :=
  match steps with
  | [] => l ++ x
  | b :: steps' =>
      match l, x with
      | [], _ => x
      | _, [] => l
      | e :: l', f :: x' =>
          if b then e :: interleave steps' l' x
          else f :: interleave steps' l x'
      end
  end.

Section Workflow.

(** [Agent.run] of each agent: the remote text-generation service. *)
Variable run : agent_id -> str -> result RunResponse.

Definition agent_run (a : agent_id) (prompt : str) : M event RunResponse :=
  emit (RunCall a prompt) ;;;
  emit (RunReturn a (run a prompt)) ;;;
  lift (run a prompt).

(** [LinkedInAgent.generate_posts] *)
Definition linkedin_generate_posts (context examples : str) (num_posts : Z)
  : M event GenOutput :=
  response <- agent_run LinkedInAgent (linkedin_prompt context examples num_posts) ;;
  ret {| platform := lit "LinkedIn";
         num_posts := num_posts;
         posts := content_of response;
         agent := name LinkedInAgent |}.

(** [XAgent.generate_posts] *)
Definition x_generate_posts (context examples : str) (num_posts : Z)
  : M event GenOutput :=
  response <- agent_run XAgent (x_prompt context examples num_posts) ;;
  ret {| platform := lit "X (Twitter)";
         num_posts := num_posts;
         posts := content_of response;
         agent := name XAgent |}.

(** Both tasks are submitted to a pool of two workers and run to their
    end, also when one of them raises: leaving the [with] block waits for
    the pool. The loop over [as_completed] takes the futures in the order
    they are yielded and re-raises the first exception it meets. *)
Definition _execute_agents_parallel (sched : schedule)
  (context examples : str) (num_posts : Z) : M event (GenOutput * GenOutput) :=
  let linkedin_task := linkedin_generate_posts context examples num_posts in
  let x_task := x_generate_posts context examples num_posts in
  (interleave (steps sched) (events linkedin_task) (events x_task),
   if linkedin_first sched then
     linkedin_output <~ outcome linkedin_task ;;
     x_output <~ outcome x_task ;;
     Ok (linkedin_output, x_output)
   else
     x_output <~ outcome x_task ;;
     linkedin_output <~ outcome linkedin_task ;;
     Ok (linkedin_output, x_output)).

Definition _validate_and_compile (context examples : str)
  (linkedin_output x_output : GenOutput) : M event FinalOutput :=
  let prompt := validation_prompt context examples
                                  (posts linkedin_output) (posts x_output) in
  validation_response <- agent_run OrchestratorAgent prompt ;;
  let validation_summary := content_of validation_response in
  ret {| workflow_status := lit "completed";
         metadata :=
           {| context_provided :=
                if (len context >? 100)%Z
                then prefix 100 context ++ lit "..."
                else context;
              total_linkedin_posts := num_posts linkedin_output;
              total_x_posts := num_posts x_output;
              agents_used := [agent linkedin_output; agent x_output;
                              name OrchestratorAgent] |};
         validation_summary := validation_summary;
         linkedin_posts :=
           {| posts_platform := platform linkedin_output;
              count := num_posts linkedin_output;
              content := posts linkedin_output |};
         x_posts :=
           {| posts_platform := platform x_output;
              count := num_posts x_output;
              content := posts x_output |} |}.

Definition execute_workflow (sched : schedule)
  (context examples : str) (num_posts : Z) : M event FinalOutput :=
  outputs <- _execute_agents_parallel sched context examples num_posts ;;
  _validate_and_compile context examples (fst outputs) (snd outputs).

End Workflow.

Definition EQUALS : char := 61%N.
Definition DASH : char := 45%N.

Definition FINAL_HEADER : str :=
  128202%N :: lit " FINAL OUTPUT - THOUGHT LEADERSHIP CONTENT".
Definition METADATA_HEADER : str := 128203%N :: lit " WORKFLOW METADATA".
Definition VALIDATION_HEADER : str := 128269%N :: lit " VALIDATION SUMMARY".
Definition LINKEDIN_HEADER : str := 128188%N :: lit " LINKEDIN POSTS".
Definition X_HEADER : str := 128038%N :: lit " X (TWITTER) POSTS".
Definition COMPLETED_FOOTER : str :=
  9989%N :: lit " WORKFLOW COMPLETED SUCCESSFULLY".

Section Formatting.

(** [str.upper], Python's own. *)
Variable upper : str -> str.

(** The list [output] of [format_output], before it is joined. *)
Definition output_lines (final_output : FinalOutput) : list str :=
  [ [NL] ++ times EQUALS 70;
    FINAL_HEADER;
    times EQUALS 70 ++ [NL];
    METADATA_HEADER;
    times DASH 70;
    lit "Status: " ++ upper (workflow_status final_output);
    lit "Context: " ++ context_provided (metadata final_output);
    lit "Agents Involved: " ++
      join (lit ", ") (agents_used (metadata final_output));
    lit "Total LinkedIn Posts: " ++
      of_int (total_linkedin_posts (metadata final_output));
    lit "Total X Posts: " ++ of_int (total_x_posts (metadata final_output));
    [NL];
    VALIDATION_HEADER;
    times DASH 70;
    validation_summary final_output;
    [NL];
    LINKEDIN_HEADER;
    times DASH 70;
    lit "Platform: " ++ posts_platform (linkedin_posts final_output);
    lit "Count: " ++ of_int (count (linkedin_posts final_output));
    [NL];
    content (linkedin_posts final_output);
    [NL];
    X_HEADER;
    times DASH 70;
    lit "Platform: " ++ posts_platform (x_posts final_output);
    lit "Count: " ++ of_int (count (x_posts final_output));
    [NL];
    content (x_posts final_output);
    [NL];
    times EQUALS 70;
    COMPLETED_FOOTER;
    times EQUALS 70 ].

Definition format_output (final_output : FinalOutput) : str :=
  join [NL] (output_lines final_output).

End Formatting.

End Orchestrator.

(* ================================================================== *)
(** * app.py *)
(* ================================================================== *)

Module App.
Import PyStr Py.

Definition VALIDATION_MARKER : str := 128269%N :: lit " VALIDATION SUMMARY".
Definition LINKEDIN_MARKER : str := 128188%N :: lit " LINKEDIN POSTS".
Definition X_MARKER : str := 128038%N :: lit " X (TWITTER) POSTS".

(** The loop of [filter_summary_from_output] over the remaining lines,
    [skip_section] being the flag on entry; the result is what the loop
    appends to [filtered_lines]. *)
Fixpoint filter_lines (skip_section : bool) (lines : list str) : list str :=
  match lines with
  | [] => []
  | line :: rest =>
      if contains VALIDATION_MARKER line then filter_lines true rest
      else
        let skip_section :=
          if skip_section &&
             (contains LINKEDIN_MARKER line || contains X_MARKER line)
          then false else skip_section in
        if negb skip_section then line :: filter_lines skip_section rest
        else filter_lines skip_section rest
  end.

Definition filter_summary_from_output (output_text : str) : str :=
  join [NL] (filter_lines false (split NL output_text)).

(** The global [workflow_status] dict. *)
Record WorkflowStatus := {
  running : bool;
  progress : str;
  output : str;
  full_output : str;
  error : option str
}.

(** What a handler returns: the [jsonify] body and the HTTP status. *)
Inductive body :=
| ErrorBody (error : str)
| SuccessBody (message : str).

Record Response := {
  json : body;
  status_code : Z
}.

(** The arguments of the background thread [run_workflow_async]. *)
Record ThreadArgs := {
  context : value;
  num_posts : value;
  linkedin_urls : value;
  x_urls : value;
  x_search_terms : value
}.

(** The [try] block of [start_workflow]: the response and the thread it
    started, if any. [request_json] is what reading [request.json] gives. *)
Definition start_workflow_try (workflow_status : WorkflowStatus)
  (request_json : result value) : result (Response * option ThreadArgs) :=
  if running workflow_status then
    Ok ({| json := ErrorBody (lit "Workflow is already running");
           status_code := 400 |}, None)
  else
    data <~ request_json ;;
    context <~ get data (lit "context") (PyStr []) ;;
    num_posts <~ get data (lit "num_posts") (PyOther (lit "int") true (lit "3")) ;;
    linkedin_urls <~ get data (lit "linkedin_urls") PyNone ;;
    x_urls <~ get data (lit "x_urls") PyNone ;;
    x_search_terms <~ get data (lit "x_search_terms") PyNone ;;
    let empty_context :=
      Ok ({| json := ErrorBody (lit "Context cannot be empty");
             status_code := 400 |}, None) in
    if negb (truthy context) then empty_context
    else
      stripped <~ strip context ;;
      match stripped with
      | [] => empty_context
      | _ :: _ =>
          Ok ({| json := SuccessBody (lit "Workflow started successfully");
                 status_code := 200 |},
              Some {| context := context;
                      num_posts := num_posts;
                      linkedin_urls := linkedin_urls;
                      x_urls := x_urls;
                      x_search_terms := x_search_terms |})
      end.

(** [start_workflow]: the response, the status record after the handler
    has returned, and the background thread it started, if any. The
    handler itself never assigns to [workflow_status]; a started thread
    does, later. *)
Definition start_workflow (workflow_status : WorkflowStatus)
  (request_json : result value)
  : Response * WorkflowStatus * option ThreadArgs :=
  match start_workflow_try workflow_status request_json with
  | Ok (response, thread) => (response, workflow_status, thread)
  | Raise e =>
      ({| json := ErrorBody (exn_str e); status_code := 500 |},
       workflow_status, None)
  end.

End App.

(* ================================================================== *)
(** * The formatting step as the specification words it *)
(* ================================================================== *)

(** "Filters out records with empty or too-short text (and, for the X
    variant, retweet-prefixed or excessively long text), formats
    surviving records into a fixed textual template (quoted text +
    attributed author), and concatenates them with a separator."
    These definitions follow that sentence; the theorems compare them
    with the loops of the two scrapers. *)
Module FetcherSpec.
Import PyStr Py.

(** [enumerate(items, start)] *)
Fixpoint enumerate (start : Z) (items : list dict) : list (Z * dict) :=
  match items with
  | [] => []
  | item :: rest => (start, item) :: enumerate (start + 1) rest
  end.

(** A text-like field: a string, or a falsy stand-in for a missing one
    (such as [None]). *)
Definition text_like (v : value) : bool :=
  match v with
  | PyStr _ => true
  | _ => negb (truthy v)
  end.

Definition quoted (text : str) : str := [QUOTE] ++ text ++ [QUOTE].

Definition separator : str := [NL] ++ lit "---" ++ [NL; NL].

Definition placeholder : str :=
  lit "No valid examples found from scraped content.".

(** The records that pass a filter, each with its position. *)
Definition survivors (passes : dict -> bool) (items : list dict)
  : list (Z * dict) :=
  filter (fun entry => passes (snd entry)) (enumerate 1 items).

(** The surviving records rendered and joined, or the placeholder. *)
Definition formatted (passes : dict -> bool) (rendered : Z * dict -> str)
  (items : list dict) : str :=
  match survivors passes items with
  | [] => placeholder
  | _ :: _ => join separator (map rendered (survivors passes items))
  end.

(** ** LinkedIn *)

Definition li_text (item : dict) : value :=
  dict_get item (lit "text") (PyStr []).

Definition li_author (item : dict) : value :=
  dict_get item (lit "author") (PyDict []).

(** Non-empty text of stripped length at least 20. *)
Definition li_passes (item : dict) : bool :=
  match li_text item with
  | PyStr ((_ :: _) as s) => (20 <=? len (PyStr.strip s))%Z
  | _ => false
  end.

(** A record of the shape the LinkedIn loop expects: text-like text,
    and an author that is an object when present. *)
Definition li_well_shaped (item : dict) : bool :=
  text_like (li_text item) && is_dict (li_author item).

Definition li_author_name (item : dict) : value :=
  match li_author item with
  | PyDict d => dict_get d (lit "name") (PyStr (lit "Unknown Author"))
  | _ => PyStr (lit "Unknown Author")
  end.

Definition li_rendered (repr_dict : dict -> str) (entry : Z * dict) : str :=
  lit "LinkedIn Example " ++ of_int (fst entry) ++ lit ":" ++ [NL] ++
  quoted (to_str repr_dict (li_text (snd entry))) ++ [NL] ++
  (lit "(Author: " ++ to_str repr_dict (li_author_name (snd entry)) ++ lit ")")
  ++ [NL].

(** ** X *)

Definition x_text (item : dict) : value :=
  dict_get item (lit "text") (dict_get item (lit "full_text") (PyStr [])).

Definition x_author (item : dict) : value :=
  dict_get item (lit "author") (PyDict []).

(** Non-empty text of stripped length at least 10 that does not start
    with "RT @" and has at most 400 characters. *)
Definition x_passes (item : dict) : bool :=
  match x_text item with
  | PyStr ((_ :: _) as s) =>
      (10 <=? len (PyStr.strip s))%Z && negb (startswith (lit "RT @") s)
      && (len s <=? 400)%Z
  | _ => false
  end.

Definition x_well_shaped (item : dict) : bool := text_like (x_text item).

Definition x_rendered (repr_dict : dict -> str) (entry : Z * dict) : str :=
  lit "X Example " ++ of_int (fst entry) ++ lit ":" ++ [NL] ++
  quoted (to_str repr_dict (x_text (snd entry))) ++ [NL] ++
  (lit "(Author: @" ++
   to_str repr_dict (XScraper.author_name_of repr_dict (x_author (snd entry)))
   ++ lit ")")
  ++ [NL].

End FetcherSpec.

(* ================================================================== *)
(** * Sample inputs *)
(* ================================================================== *)

Module Samples.
Import PyStr Py.

(** [str.upper] on ASCII text. *)
Definition ascii_upper (s : str) : str :=
  map (fun c => if ((97 <=? c) && (c <=? 122))%N then (c - 32)%N else c) s.

(** [str(d)] of a dict is not observed by the samples. *)
Definition no_repr (d : dict) : str := lit "{...}".

Definition sample_context : str := lit "We sell AI customer service tools.".
Definition sample_examples : str := lit "(none)".

(** A text-generation service that always answers. *)
Definition sample_run (a : Orchestrator.agent_id) (prompt : str)
  : result Orchestrator.RunResponse :=
  Ok (Orchestrator.WithContent (lit "Post 1")).

(** A service whose LinkedIn call times out. *)
Definition failing_run (a : Orchestrator.agent_id) (prompt : str)
  : result Orchestrator.RunResponse :=
  match a with
  | Orchestrator.LinkedInAgent => Raise (RemoteError (lit "timeout"))
  | _ => Ok (Orchestrator.WithContent (lit "Post 1"))
  end.

(** The X task runs first, the LinkedIn future is yielded first. *)
Definition sample_schedule : Orchestrator.schedule :=
  {| Orchestrator.steps := [false; true; false];
     Orchestrator.linkedin_first := true |}.

(** A finished report. *)
Definition sample_report : Orchestrator.FinalOutput :=
  {| Orchestrator.workflow_status := lit "completed";
     Orchestrator.metadata :=
       {| Orchestrator.context_provided := sample_context;
          Orchestrator.total_linkedin_posts := 2;
          Orchestrator.total_x_posts := 2;
          Orchestrator.agents_used :=
            [lit "LinkedIn Content Creator"; lit "X Content Creator";
             lit "Master Orchestrator"] |};
     Orchestrator.validation_summary := lit "All posts meet the criteria.";
     Orchestrator.linkedin_posts :=
       {| Orchestrator.posts_platform := lit "LinkedIn";
          Orchestrator.count := 2;
          Orchestrator.content := lit "Post 1" |};
     Orchestrator.x_posts :=
       {| Orchestrator.posts_platform := lit "X (Twitter)";
          Orchestrator.count := 2;
          Orchestrator.content := lit "Post 1" |} |}.

(** The status record while a workflow runs. *)
Definition running_status : App.WorkflowStatus :=
  {| App.running := true;
     App.progress := lit "Scraping X posts...";
     App.output := [];
     App.full_output := [];
     App.error := None |}.

Definition sample_request : result value :=
  Ok (PyDict [(lit "context", PyStr sample_context)]).

(** A scraping service that answers with an empty dataset. *)
Definition sample_token : option str := Some (lit "apify_api_token").
Definition sample_actor {I : Type} (actor : str) (run_input : I) : result str :=
  Ok (lit "dataset-1").
Definition empty_dataset (dataset_id : str) : result (list dict) := Ok [].
Definition sample_dumps (item : dict) : str := lit "{}".
Definition sample_dumps_all (items : list dict) : str := lit "[]".

(** Scraped records. *)
Definition long_post : dict :=
  [(lit "text", PyStr (lit "Customer expectations have never been higher."));
   (lit "author", PyDict [(lit "name", PyStr (lit "Ada"))])].

Definition short_post : dict :=
  [(lit "text", PyStr (lit "Too short"));
   (lit "author", PyDict [(lit "name", PyStr (lit "Bob"))])].

(** [{"text": "Too short", "author": null}] *)
Definition short_post_null_author : dict :=
  [(lit "text", PyStr (lit "Too short")); (lit "author", PyNone)].

(** A text that passes both filters, with [author] set to [null]. *)
Definition long_post_null_author : dict :=
  [(lit "text", PyStr (lit "Customer expectations have never been higher."));
   (lit "author", PyNone)].


End Samples.

(* ================================================================== *)
(** * Reading a coordinator trace *)
(* ================================================================== *)

Module OrchestratorTrace.
Import PyStr Py Orchestrator.

Definition agent_eqb (a b : agent_id) : bool :=
  match a, b with
  | LinkedInAgent, LinkedInAgent => true
  | XAgent, XAgent => true
  | OrchestratorAgent, OrchestratorAgent => true
  | _, _ => false
  end.

(** The prompt of a call issued to agent [a], if the event is one. *)
Definition call_to (a : agent_id) (e : event) : list str :=
  match e with
  | RunCall b prompt => if agent_eqb a b then [prompt] else []
  | RunReturn _ _ => []
  end.

(** The prompts agent [a] was run with in a trace, in order. *)
Definition calls_of (a : agent_id) (t : list event) : list str :=
  flat_map (call_to a) t.

End OrchestratorTrace.

(* ================================================================== *)
(** * Lines of a text *)
(* ================================================================== *)

Module Lines.
Import PyStr.

(** [kept] is what remains of [lines] after deleting some of them. *)
Inductive remains : list str -> list str -> Prop :=
| remains_nil : remains [] []
| remains_keep (l : str) (kept lines : list str) :
    remains kept lines -> remains (l :: kept) (l :: lines)
| remains_drop (l : str) (kept lines : list str) :
    remains kept lines -> remains kept (l :: lines).

(** The report without the four elements of its validation block. *)
Definition without_validation_block (output : list str) : list str :=
  firstn 11 output ++ skipn 15 output.

End Lines.

(* ================================================================== *)
(** * [extract_post_text_only] of the two scrapers *)
(* ================================================================== *)

(** scrapers/linkedin_scraper.py *)
Module LinkedInPosts.
Import PyStr Py.

(** The loop body: the stripped text, and whether it is appended. *)
Definition keeps (text : str) : bool :=
  match text with
  | [] => false
  | _ :: _ => (len text >=? 20)%Z
  end.

(** [for item in items: ...], with the list [posts] built so far. *)
Fixpoint extract_loop (items : list dict) (posts : list str)
  : result (list str) :=
  match items with
  | [] => Ok posts
  | item :: rest =>
      text <~ strip (dict_get item (lit "text") (PyStr [])) ;;
      if keeps text then extract_loop rest (posts ++ [text])
      else extract_loop rest posts
  end.

Definition extract_post_text_only (items : list dict) : result (list str) :=
  extract_loop items [].

End LinkedInPosts.

(** scrapers/x_scraper.py *)
Module XPosts.
Import PyStr Py.

Definition keeps (text : str) : bool :=
  match text with
  | [] => false
  | _ :: _ => (len text >=? 10)%Z && negb (startswith (lit "RT @") text)
  end.

Fixpoint extract_loop (items : list dict) (posts : list str)
  : result (list str) :=
  match items with
  | [] => Ok posts
  | item :: rest =>
      text <~ strip (dict_get item (lit "text")
                              (dict_get item (lit "full_text") (PyStr []))) ;;
      if keeps text then extract_loop rest (posts ++ [text])
      else extract_loop rest posts
  end.

Definition extract_post_text_only (items : list dict) : result (list str) :=
  extract_loop items [].

End XPosts.

(** What the theorems about [extract_post_text_only] speak of. *)
Module PostsSpec.
Import PyStr Py.

Definition is_str (v : value) : bool :=
  match v with
  | PyStr _ => true
  | _ => false
  end.

(** The stripped text of a string field. *)
Definition stripped (v : value) : str :=
  match v with
  | PyStr s => PyStr.strip s
  | _ => []
  end.

End PostsSpec.

(* ================================================================== *)
(** * app.py: the background run *)
(* ================================================================== *)

Module AppRun.
Import PyStr Py App.

(** What a run depends on: the two credentials of [config.py], the
    scraping service, the text-generation service with the schedule of
    its two pool tasks, Python's [json.dumps], [str] of a dict and
    [str.upper], and the clock reading
    [datetime.now().strftime("%Y%m%d_%H%M%S")]. *)
Record Env := {
  OPENAI_API_KEY : option str;
  APIFY_API_TOKEN : option str;
  linkedin_actor_call : str -> LinkedInScraper.run_input -> result str;
  x_actor_call : str -> XScraper.run_input -> result str;
  dataset_items : str -> result (list dict);
  json_dumps : dict -> str;
  json_dumps_all : list dict -> str;
  repr_dict : dict -> str;
  run : Orchestrator.agent_id -> str -> result Orchestrator.RunResponse;
  sched : Orchestrator.schedule;
  upper : str -> str;
  timestamp : str
}.

(** An assignment to a key of the global [workflow_status]. *)
Inductive status_write :=
| SetRunning (b : bool)
| SetError (e : option str)
| SetOutput (s : str)
| SetFullOutput (s : str)
| SetProgress (s : str).

(** What the run does, in order: status assignments (a polling client
    sees the record between any two events), the scrapers' and the
    agents' events, and the report file it saves (writing is taken to
    succeed). *)
Inductive event :=
| Write (w : status_write)
| LinkedInIO (e : LinkedInScraper.event)
| XIO (e : XScraper.event)
| AgentIO (e : Orchestrator.event)
| OutputFile (path : str) (content : str).

Definition apply_write (s : WorkflowStatus) (w : status_write) : WorkflowStatus :=
  match w with
  | SetRunning b =>
      {| running := b; progress := progress s; output := output s;
         full_output := full_output s; error := error s |}
  | SetError e =>
      {| running := running s; progress := progress s; output := output s;
         full_output := full_output s; error := e |}
  | SetOutput o =>
      {| running := running s; progress := progress s; output := o;
         full_output := full_output s; error := error s |}
  | SetFullOutput o =>
      {| running := running s; progress := progress s; output := output s;
         full_output := o; error := error s |}
  | SetProgress p =>
      {| running := running s; progress := p; output := output s;
         full_output := full_output s; error := error s |}
  end.

(** The status record once the events of [trace] have happened. *)
Definition status_after (s : WorkflowStatus) (trace : list event) : WorkflowStatus :=
  fold_left (fun s e => match e with Write w => apply_write s w | _ => s end)
            trace s.

(** The [try] block either finishes or is left by an exception, of
    which the handler only takes [str(e)]. *)
Inductive ending (A : Type) : Type :=
| Done (a : A)
| Failed (message : str).
Arguments Done {A} a.
Arguments Failed {A} message.

Definition T (A : Type) : Type := (list event * ending A)%type.

Definition done {A : Type} (a : A) : T A := ([], Done a).

Definition fail {A : Type} (message : str) : T A := ([], Failed message).

Definition set (w : status_write) : T unit := ([Write w], Done tt).

Definition log (e : event) : T unit := ([e], Done tt).

Definition andthen {A B : Type} (m : T A) (k : A -> T B) : T B :=
  match m with
  | (t, Done a) => let (t', r) := k a in (t ++ t', r)
  | (t, Failed message) => (t, Failed message)
  end.

(** A call into the scrapers or the coordinator. *)
Definition call {E A : Type} (inject : E -> event) (m : M E A) : T A :=
  (map inject (events m),
   match outcome m with
   | Ok a => Done a
   | Raise e => Failed (exn_str e)
   end).

(** [try: x = m  except Exception: x = fallback] *)
Definition or_else {A : Type} (m : T A) (fallback : A) : T A :=
  (fst m,
   match snd m with
   | Done a => Done a
   | Failed _ => Done fallback
   end).

Notation "x <== m ;; k" := (andthen m (fun x => k))
  (at level 61, m at next level, right associativity).
Notation "m ;;> k" := (andthen m (fun _ => k))
  (at level 61, right associativity).

(** [not key or key == placeholder] *)
Definition not_configured (key : option str) (placeholder : str) : bool :=
  match key with
  | None => true
  | Some [] => true
  | Some k => PyStr.eqb k placeholder
  end.

(** The examples used when LinkedIn scraping raised. *)
Definition LINKEDIN_FALLBACK_AFTER_FAILURE : str :=
  lit "
                LinkedIn Example:
                " ++
  [QUOTE] ++
  lit "Customer expectations have never been higher. 
                In 2024, 73% of customers expect immediate responses.
                This is where AI-powered automation becomes essential.
                #CustomerService #AI" ++
  [QUOTE] ++
  lit "
                ".

(** The examples used when no LinkedIn URL was given (the same text, indented differently). *)
Definition LINKEDIN_FALLBACK_WITHOUT_URLS : str :=
  lit "
            LinkedIn Example:
            " ++
  [QUOTE] ++
  lit "Customer expectations have never been higher. 
            In 2024, 73% of customers expect immediate responses.
            This is where AI-powered automation becomes essential.
            #CustomerService #AI" ++
  [QUOTE] ++
  lit "
            ".

(** The examples used when X scraping raised. *)
Definition X_FALLBACK_AFTER_FAILURE : str :=
  lit "
                X Example:
                " ++
  [QUOTE] ++
  lit "AI won't replace customer service agents.
                But agents using AI will replace those who don't.
                #CX #AI" ++
  [QUOTE] ++
  lit "
                ".

(** The examples used when neither X URLs nor search terms were given. *)
Definition X_FALLBACK_WITHOUT_SELECTORS : str :=
  lit "
            X Example:
            " ++
  [QUOTE] ++
  lit "AI won't replace customer service agents.
            But agents using AI will replace those who don't.
            #CX #AI" ++
  [QUOTE] ++
  lit "
            ".

Section Run.

Variable env : Env.

(** [scrape_linkedin(urls=..., limit_per_source=5)] *)
Definition scrape_linkedin (urls : list str) : T str :=
  call LinkedInIO
    (LinkedInScraper.scrape_and_format_for_workflow (APIFY_API_TOKEN env)
       (linkedin_actor_call env) (dataset_items env) (json_dumps env)
       (json_dumps_all env) (repr_dict env) urls 5).

(** [scrape_x(start_urls=..., search_terms=..., max_items=20)] *)
Definition scrape_x (start_urls search_terms : option (list str)) : T str :=
  call XIO
    (XScraper.scrape_and_format_for_workflow (APIFY_API_TOKEN env)
       (x_actor_call env) (dataset_items env) (json_dumps env)
       (json_dumps_all env) (repr_dict env) start_urls search_terms None 20).

(** The [try] block of [run_workflow_async]. The arguments are typed as
    the web page sends them: a text, an integer and lists of texts (or
    null); the answers of the agents are texts, and the report file is
    taken to be writable. What the block does on other arguments, on an
    answer that is no text or when the file cannot be written is not
    modelled: it is left by an exception there too, and the handler
    below runs. *)
Definition workflow_try (context : str) (num_posts : Z)
  (linkedin_urls x_urls x_search_terms : option (list str)) : T unit :=
  set (SetRunning true) ;;>
  set (SetError None) ;;>
  set (SetOutput []) ;;>
  set (SetFullOutput []) ;;>
  set (SetProgress (lit "Validating API keys...")) ;;>
  (if not_configured (OPENAI_API_KEY env) (lit "your_openai_api_key_here")
   then fail (lit "OPENAI_API_KEY not configured!") else done tt) ;;>
  (if not_configured (APIFY_API_TOKEN env) (lit "your_apify_api_token_here")
   then fail (lit "APIFY_API_TOKEN not configured!") else done tt) ;;>
  set (SetProgress (lit "Scraping LinkedIn posts...")) ;;>
  linkedin_examples <==
    match linkedin_urls with
    | Some ((_ :: _) as urls) =>
        or_else (scrape_linkedin urls) LINKEDIN_FALLBACK_AFTER_FAILURE
    | _ => done LINKEDIN_FALLBACK_WITHOUT_URLS
    end ;;
  set (SetProgress (lit "Scraping X posts...")) ;;>
  x_examples <==
    (if some_nonempty x_urls || some_nonempty x_search_terms
     then or_else (scrape_x (XScraper.when_given x_urls)
                            (XScraper.when_given x_search_terms))
                  X_FALLBACK_AFTER_FAILURE
     else done X_FALLBACK_WITHOUT_SELECTORS) ;;
  set (SetProgress (lit "Preparing content generation...")) ;;>
  let examples := linkedin_examples ++ [NL; NL] ++ lit "---" ++ [NL; NL]
                  ++ x_examples in
  set (SetProgress (lit "Generating content with AI agents...")) ;;>
  final_output <==
    call AgentIO
      (Orchestrator.execute_workflow (run env) (sched env)
         (PyStr.strip context) (PyStr.strip examples) num_posts) ;;
  let formatted_output := Orchestrator.format_output (upper env) final_output in
  log (OutputFile (lit "output_" ++ timestamp env ++ lit ".txt")
                  formatted_output) ;;>
  let ui_output := filter_summary_from_output formatted_output in
  set (SetProgress (lit "Complete!")) ;;>
  set (SetOutput ui_output) ;;>
  set (SetFullOutput formatted_output) ;;>
  set (SetRunning false).

(** [run_workflow_async]: the [try] block, then the handler if it was
    left by an exception. *)
Definition run_workflow_async (context : str) (num_posts : Z)
  (linkedin_urls x_urls x_search_terms : option (list str)) : list event :=
  match workflow_try context num_posts linkedin_urls x_urls x_search_terms with
  | (t, Done _) => t
  | (t, Failed message) =>
      t ++ [Write (SetError (Some message));
            Write (SetRunning false);
            Write (SetProgress (lit "Error occurred"))]
  end.

End Run.

(** [download_pdf] up to the point where it starts to build the PDF:
    the refusal when there is nothing to download. *)
Definition download_refused (workflow_status : WorkflowStatus) : option Response :=
  match full_output workflow_status with
  | [] => Some {| json := ErrorBody (lit "No output available to download");
                  status_code := 400 |}
  | _ :: _ => None
  end.

(** The JSON object [get_status] answers with; [full_output] is not
    part of it. *)
Record StatusView := {
  view_running : bool;
  view_progress : str;
  view_output : str;
  view_error : option str
}.

Definition get_status (workflow_status : WorkflowStatus) : StatusView :=
  {| view_running := running workflow_status;
     view_progress := progress workflow_status;
     view_output := output workflow_status;
     view_error := error workflow_status |}.

End AppRun.
(** What a run's scraping steps contribute: the examples they end up
    with and the events they issue. *)
Module AppRunSpec.
Import PyStr Py App AppRun.

Section Steps.

Variable env : Env.

Definition linkedin_fetch (urls : list str) : M LinkedInScraper.event str :=
  LinkedInScraper.scrape_and_format_for_workflow (APIFY_API_TOKEN env)
    (linkedin_actor_call env) (dataset_items env) (json_dumps env)
    (json_dumps_all env) (repr_dict env) urls 5.

Definition x_fetch (x_urls x_search_terms : option (list str))
  : M XScraper.event str :=
  XScraper.scrape_and_format_for_workflow (APIFY_API_TOKEN env)
    (x_actor_call env) (dataset_items env) (json_dumps env)
    (json_dumps_all env) (repr_dict env) (XScraper.when_given x_urls)
    (XScraper.when_given x_search_terms) None 20.

Definition linkedin_examples (linkedin_urls : option (list str)) : str :=
  match linkedin_urls with
  | Some ((_ :: _) as urls) =>
      match outcome (linkedin_fetch urls) with
      | Ok text => text
      | Raise _ => LINKEDIN_FALLBACK_AFTER_FAILURE
      end
  | _ => LINKEDIN_FALLBACK_WITHOUT_URLS
  end.

Definition linkedin_events (linkedin_urls : option (list str)) : list event :=
  match linkedin_urls with
  | Some ((_ :: _) as urls) => map LinkedInIO (events (linkedin_fetch urls))
  | _ => []
  end.

Definition x_examples (x_urls x_search_terms : option (list str)) : str :=
  if some_nonempty x_urls || some_nonempty x_search_terms then
    match outcome (x_fetch x_urls x_search_terms) with
    | Ok text => text
    | Raise _ => X_FALLBACK_AFTER_FAILURE
    end
  else X_FALLBACK_WITHOUT_SELECTORS.

Definition x_events (x_urls x_search_terms : option (list str)) : list event :=
  if some_nonempty x_urls || some_nonempty x_search_terms
  then map XIO (events (x_fetch x_urls x_search_terms))
  else [].

(** The coordinator call of a run. *)
Definition coordinator (context : str) (num_posts : Z)
  (linkedin_urls x_urls x_search_terms : option (list str))
  : M Orchestrator.event Orchestrator.FinalOutput :=
  Orchestrator.execute_workflow (run env) (sched env) (PyStr.strip context)
    (PyStr.strip (linkedin_examples linkedin_urls ++ [NL; NL] ++ lit "---"
                  ++ [NL; NL] ++ x_examples x_urls x_search_terms))
    num_posts.

End Steps.

(** The status record after a run that was left by an exception. *)
Definition failed_status (message : str) : WorkflowStatus :=
  {| running := false; progress := lit "Error occurred"; output := [];
     full_output := []; error := Some message |}.

Definition is_write (e : event) : bool :=
  match e with
  | Write _ => true
  | _ => false
  end.

Definition sets_running (e : event) : bool :=
  match e with
  | Write (SetRunning _) => true
  | _ => false
  end.

Definition is_linkedin_io (e : event) : bool :=
  match e with
  | LinkedInIO _ => true
  | _ => false
  end.

Definition is_x_io (e : event) : bool :=
  match e with
  | XIO _ => true
  | _ => false
  end.

Definition saves_report (e : event) : bool :=
  match e with
  | OutputFile _ _ => true
  | _ => false
  end.

(** The agents' calls and returns among the events of a run. *)
Definition agent_events (t : list event) : list Orchestrator.event :=
  flat_map (fun e => match e with AgentIO ev => [ev] | _ => [] end) t.

End AppRunSpec.
(** Sample environments of a run. *)
Module RunSamples.
Import PyStr Py App AppRun.

(** Both credentials set, a scraping service with an empty dataset and
    a text-generation service that always answers. *)
Definition sample_env : Env :=
  {| OPENAI_API_KEY := Some (lit "sk-test");
     APIFY_API_TOKEN := Samples.sample_token;
     linkedin_actor_call := Samples.sample_actor;
     x_actor_call := Samples.sample_actor;
     dataset_items := Samples.empty_dataset;
     json_dumps := Samples.sample_dumps;
     json_dumps_all := Samples.sample_dumps_all;
     repr_dict := Samples.no_repr;
     run := Samples.sample_run;
     sched := Samples.sample_schedule;
     upper := Samples.ascii_upper;
     timestamp := lit "20240101_120000" |}.

(** The same, with no OpenAI key. *)
Definition keyless_env : Env :=
  {| OPENAI_API_KEY := None;
     APIFY_API_TOKEN := Samples.sample_token;
     linkedin_actor_call := Samples.sample_actor;
     x_actor_call := Samples.sample_actor;
     dataset_items := Samples.empty_dataset;
     json_dumps := Samples.sample_dumps;
     json_dumps_all := Samples.sample_dumps_all;
     repr_dict := Samples.no_repr;
     run := Samples.sample_run;
     sched := Samples.sample_schedule;
     upper := Samples.ascii_upper;
     timestamp := lit "20240101_120000" |}.

(** The status record an earlier, successful run left behind. *)
Definition earlier_status : WorkflowStatus :=
  {| running := false;
     progress := lit "Complete!";
     output := lit "Post 1";
     full_output := lit "Post 1";
     error := None |}.

End RunSamples.

(** More sample inputs. *)
Module MoreSamples.
Import PyStr Py.

(** A text-generation service whose validation call is refused. *)
Definition validation_failing_run (a : Orchestrator.agent_id) (prompt : str)
  : result Orchestrator.RunResponse :=
  match a with
  | Orchestrator.OrchestratorAgent => Raise (RemoteError (lit "rate limit"))
  | _ => Ok (Orchestrator.WithContent (lit "Post 1"))
  end.

(** Both credentials set and a text-generation service whose LinkedIn
    call times out. *)
Definition generation_failing_env : AppRun.Env :=
  {| AppRun.OPENAI_API_KEY := Some (lit "sk-test");
     AppRun.APIFY_API_TOKEN := Samples.sample_token;
     AppRun.linkedin_actor_call := Samples.sample_actor;
     AppRun.x_actor_call := Samples.sample_actor;
     AppRun.dataset_items := Samples.empty_dataset;
     AppRun.json_dumps := Samples.sample_dumps;
     AppRun.json_dumps_all := Samples.sample_dumps_all;
     AppRun.repr_dict := Samples.no_repr;
     AppRun.run := Samples.failing_run;
     AppRun.sched := Samples.sample_schedule;
     AppRun.upper := Samples.ascii_upper;
     AppRun.timestamp := lit "20240101_120000" |}.

End MoreSamples.

(* ================================================================== *)
(** * app.py: the PDF upload *)
(* ================================================================== *)

Module AppUpload.
Import PyStr Py App AppRun.

(** [s.split()]: the maximal runs of non-whitespace characters; [word]
    is the run being read. *)
Fixpoint words_from (word : str) (s : str) : list str :=
  match s with
  | [] => match word with [] => [] | _ :: _ => [word] end
  | c :: s' =>
      if isspace c then
        match word with
        | [] => words_from [] s'
        | _ :: _ => word :: words_from [] s'
        end
      else words_from (word ++ [c]) s'
  end.

Definition split_whitespace (s : str) : list str := words_from [] s.


(** What the PDF library makes of an uploaded file: [PdfReader(...)]
    with its [pages] either raises or gives the pages, and each page's
    [extract_text()] either raises or gives a text or [None]. A raised
    exception is kept as its [str(e)], all the code looks at. *)
Definition page := ending (option str).
Definition reader := ending (list page).

(** A page that holds nothing but whitespace. *)
Definition blank (p : page) : bool :=
  match p with
  | Done None => true
  | Done (Some t) => forallb isspace t
  | Failed _ => false
  end.

(** The two lines that clean a page. *)
Definition cleaned (page_text : str) : str :=
  join (lit " ") (split_whitespace (replace [NL] (lit " ") page_text)).

(** [for page_num, page in enumerate(pdf_reader.pages): ...], with the
    [text] built so far. *)
Fixpoint pages_loop (pages : list page) (text : str) : ending str :=
  match pages with
  | [] => Done text
  | p :: rest =>
      match p with
      | Failed message => Failed message
      | Done (Some ((_ :: _) as page_text)) =>
          let text := match text with
                      | [] => text
                      | _ :: _ => text ++ [NL; NL]
                      end in
          pages_loop rest (text ++ cleaned page_text)
      | Done _ => pages_loop rest text
      end
  end.

(** The [try] block of [extract_text_from_pdf]. *)
Definition extract_try (pdf : reader) : ending str :=
  match pdf with
  | Failed message => Failed message
  | Done pages =>
      match pages_loop pages [] with
      | Failed message => Failed message
      | Done text =>
          match PyStr.strip text with
          | [] => Failed (lit "No text could be extracted from the PDF")
          | _ :: _ => Done (PyStr.strip text)
          end
      end
  end.

Definition extract_text_from_pdf (pdf : reader) : ending str :=
  match extract_try pdf with
  | Done text => Done text
  | Failed message => Failed (lit "Failed to extract text from PDF: " ++ message)
  end.



Section Handler.

(** [str.lower] and werkzeug's [secure_filename]. *)
Variable lower : str -> str.
Variable secure_filename : str -> str.



End Handler.

End AppUpload.

(** Sample uploads. *)
Module UploadSamples.
Import PyStr Py AppRun AppUpload.

(** Two pages of text around an empty one. *)
Definition two_pages : reader :=
  Done [Done (Some (lit "Hello
world   again "));
        Done None;
        Done (Some (lit "Page two"))].

(** A scanned document: pages without text. *)
Definition scanned : reader := Done [Done (Some (lit " ")); Done None].

(** [str.lower] on ASCII text. *)
Definition ascii_lower (s : str) : str :=
  map (fun c => if ((65 <=? c) && (c <=? 90))%N then (c + 32)%N else c) s.

End UploadSamples.

(* ================================================================== *)
(** * verify_setup.py *)
(* ================================================================== *)

Module VerifySetup.
Import PyStr Py AppRun.

(** What the script looks at: the interpreter's version, which modules
    can be imported, which paths exist, the two environment variables
    (after [load_dotenv]), and what the OpenAI API does with a minimal
    completion request made with a given key: it answers, or an
    exception is raised, kept as its text. *)
Record Machine := {
  version_major : Z;
  version_minor : Z;
  importable : str -> bool;
  path_exists : str -> bool;
  OPENAI_API_KEY : option str;
  APIFY_API_TOKEN : option str;
  completion : str -> ending unit
}.

Section Checks.

Variable m : Machine.

Definition check_python_version : bool :=
  (version_major m >=? 3)%Z && (version_minor m >=? 8)%Z.

(** The keys of [required_packages], in order. *)
Definition required_modules : list str :=
  [lit "agno"; lit "openai"; lit "dotenv"; lit "pydantic"].

(** The loop goes through every module, also after a missing one. *)
Definition check_dependencies : bool :=
  fold_left (fun all_installed module =>
               if importable m module then all_installed else false)
            required_modules true.

(** [from dotenv import load_dotenv], outside any [try]. *)
Definition import_dotenv : ending unit :=
  if importable m (lit "dotenv") then Done tt
  else Failed (lit "No module named 'dotenv'").

Definition check_env_file : ending bool :=
  if negb (path_exists m (lit ".env")) then Done false
  else
    match import_dotenv with
    | Failed message => Failed message
    | Done _ =>
        Done
          match OPENAI_API_KEY m with
          | None => false
          | Some [] => false
          | Some api_key =>
              if PyStr.eqb api_key (lit "your_openai_api_key_here") then false
              else startswith (lit "sk-") api_key
          end
    end.

Definition required_files : list str :=
  [lit "config.py"; lit "main.py"; lit "requirements.txt";
   lit "agents/__init__.py"; lit "agents/orchestrator_agent.py";
   lit "agents/linkedin_agent.py"; lit "agents/x_agent.py"].

Definition check_project_structure : bool :=
  fold_left (fun all_exist file => if path_exists m file then all_exist else false)
            required_files true.

(** [test_openai_connection]: the keys of the completion requests it
    made, and its answer ([None] when the test is skipped). *)
Definition test_openai_connection : list str * option bool :=
  if negb (importable m (lit "dotenv") && importable m (lit "openai"))
  then ([], Some false)
  else
    match OPENAI_API_KEY m with
    | None => ([], None)
    | Some [] => ([], None)
    | Some api_key =>
        if PyStr.eqb api_key (lit "your_openai_api_key_here") then ([], None)
        else
          ([api_key],
           match completion m api_key with
           | Done _ => Some true
           | Failed _ => Some false
           end)
    end.

(** [main]: the completion requests made and the exit status, or the
    exception that ended the script. *)
Definition main : list str * ending Z :=
  let python_version := check_python_version in
  let dependencies := check_dependencies in
  match check_env_file with
  | Failed message => ([], Failed message)
  | Done environment_file =>
      let project_structure := check_project_structure in
      let all_passed :=
        python_version && dependencies && environment_file && project_structure in
      if dependencies && environment_file then
        let (requests, api_test) := test_openai_connection in
        match api_test with
        | Some passed => (requests, Done (if all_passed && passed then 0 else 1)%Z)
        | None => (requests, Done (if all_passed then 0 else 1)%Z)
        end
      else ([], Done (if all_passed then 0 else 1)%Z)
  end.

End Checks.

(** The same machine with another Apify token. *)
Definition with_apify_token (m : Machine) (token : option str) : Machine :=
  {| version_major := version_major m;
     version_minor := version_minor m;
     importable := importable m;
     path_exists := path_exists m;
     OPENAI_API_KEY := OPENAI_API_KEY m;
     APIFY_API_TOKEN := token;
     completion := completion m |}.

(** A machine on which everything is in place. *)
Definition ready_machine : Machine :=
  {| version_major := 3;
     version_minor := 11;
     importable := fun _ => true;
     path_exists := fun _ => true;
     OPENAI_API_KEY := Some (lit "sk-test");
     APIFY_API_TOKEN := None;
     completion := fun _ => Done tt |}.

(** The same without python-dotenv. *)
Definition machine_without_dotenv : Machine :=
  {| version_major := 3;
     version_minor := 11;
     importable := fun module => negb (PyStr.eqb module (lit "dotenv"));
     path_exists := fun _ => true;
     OPENAI_API_KEY := Some (lit "sk-test");
     APIFY_API_TOKEN := None;
     completion := fun _ => Done tt |}.

End VerifySetup.

Module SetupSamples.
Import PyStr AppRun.

(** The run environment of a machine whose [.env] holds an OpenAI key
    and no Apify token. *)
Definition tokenless_env : Env :=
  {| OPENAI_API_KEY := Some (lit "sk-test");
     APIFY_API_TOKEN := None;
     linkedin_actor_call := linkedin_actor_call RunSamples.sample_env;
     x_actor_call := x_actor_call RunSamples.sample_env;
     dataset_items := dataset_items RunSamples.sample_env;
     json_dumps := json_dumps RunSamples.sample_env;
     json_dumps_all := json_dumps_all RunSamples.sample_env;
     repr_dict := repr_dict RunSamples.sample_env;
     run := run RunSamples.sample_env;
     sched := sched RunSamples.sample_env;
     upper := upper RunSamples.sample_env;
     timestamp := timestamp RunSamples.sample_env |}.

End SetupSamples.
(* ================================================================== *)
(** * app.py: the PDF download *)
(* ================================================================== *)

Module AppDownload.
Import PyStr Py App AppRun.

(** The three paragraph styles the handler uses. *)
Inductive style := Heading1 | Heading2 | CustomNormal.

(** reportlab's flowables: [Paragraph(markup, style)] and
    [Spacer(1, height*inch)], the height kept in hundredths of an inch. *)
Inductive flowable :=
| Paragraph (markup : str) (s : style)
| Spacer (height : Z).

(** The characters that make a line a heading: the bar chart, the
    clipboard, the magnifying glass, the briefcase, the bird and the
    check mark. *)
Definition HEADING_EMOJI : list str :=
  [[128202%N]; [128203%N]; [128269%N]; [128188%N]; [128038%N]; [9989%N]].

(** [any(emoji in line for emoji in [...])] *)
Definition is_heading (line : str) : bool :=
  existsb (fun emoji => contains emoji line) HEADING_EMOJI.

(** The three chained [replace] calls. *)
Definition escape (line : str) : str :=
  replace (lit ">") (lit "&gt;")
    (replace (lit "<") (lit "&lt;")
       (replace (lit "&") (lit "&amp;") line)).

Definition TITLE : str := lit "Thought Leadership Content".

(** A flowable is the paragraph the loop makes of a line: a heading of
    the stripped line, or a regular paragraph of its escaped text. *)
Definition made_from (line : str) (f : flowable) : Prop :=
  let l := PyStr.strip line in
  l <> []
  /\ ((f = Paragraph l Heading2 /\ is_heading l = true)
      \/ (f = Paragraph (escape l) CustomNormal
          /\ is_heading l = false
          /\ startswith (lit "=") l = false
          /\ startswith (lit "-") l = false)).

Section Download.

(** reportlab: whether [Paragraph(markup, style)] can be made of a
    markup text, or the text of the exception it raises; and what
    [doc.build] writes to the buffer, or the text of its exception. The
    style sheet and the document template, made from constants, are
    taken to be available. *)
Variable paragraph : str -> style -> ending unit.
Variable build : list flowable -> ending (list Init.Byte.byte).

(** One turn of the loop over the lines. *)
Definition add_line (elements : list flowable) (line : str) : list flowable :=
  let line := PyStr.strip line in
  match line with
  | [] => elements ++ [Spacer 10]
  | _ :: _ =>
      if is_heading line then
        match paragraph line Heading2 with
        | Done _ => elements ++ [Paragraph line Heading2] ++ [Spacer 20]
        | Failed _ => elements ++ [Spacer 10]
        end
      else if startswith (lit "=") line || startswith (lit "-") line then
        elements ++ [Spacer 5]
      else
        let line := escape line in
        match paragraph line CustomNormal with
        | Done _ => elements ++ [Paragraph line CustomNormal] ++ [Spacer 5]
        | Failed _ => elements
        end
  end.

(** The flowables handed to [doc.build]: the title, a spacer, and what
    the loop adds for the lines of the report. *)
Definition pdf_elements (output_text : str) : list flowable :=
  fold_left add_line (split NL output_text) [Paragraph TITLE Heading1; Spacer 30].

(** What [download_pdf] answers: an error, or the PDF as an attachment. *)
Inductive download_response :=
| Refused (r : Response)
| Attachment (data : list Init.Byte.byte) (mimetype download_name : str).

Definition download_pdf_try (workflow_status : WorkflowStatus)
  : ending download_response :=
  match download_refused workflow_status with
  | Some r => Done (Refused r)
  | None =>
      match paragraph TITLE Heading1 with
      | Failed message => Failed message
      | Done _ =>
          match build (pdf_elements (full_output workflow_status)) with
          | Failed message => Failed message
          | Done data =>
              Done (Attachment data (lit "application/pdf")
                      (lit "thought_leadership_posts.pdf"))
          end
      end
  end.

Definition download_pdf (workflow_status : WorkflowStatus) : download_response :=
  match download_pdf_try workflow_status with
  | Done response => response
  | Failed message =>
      Refused {| json := ErrorBody (lit "Failed to generate PDF: " ++ message);
                 status_code := 500 |}
  end.

End Download.

End AppDownload.

Module DownloadSamples.
Import PyStr AppRun AppDownload.

(** A markup parser that accepts everything. *)
Definition lenient (markup : str) (s : style) : ending unit := Done tt.

(** A report with a heading, a separator and a line with markup
    characters. *)
Definition small_report : str :=
  [128188%N] ++ lit " LINKEDIN POSTS" ++ [NL] ++ lit "-----" ++ [NL]
  ++ lit "a < b & c".

End DownloadSamples.

(* ================================================================== *)
(** * Facts about strings *)
(* ================================================================== *)

Section StringFacts.
Import PyStr.

Variable sep : char.

Lemma eqb_eq (s t : str) : PyStr.eqb s t = true <-> s = t.
Proof.
  revert t; induction s as [|c s IH]; intros [|d t]; simpl;
    try (split; (discriminate || reflexivity)).
  rewrite andb_true_iff, N.eqb_eq, IH.
  split; [intros [-> ->]; reflexivity | intros [= -> ->]; auto].
Qed.

Lemma split_not_nil (s : str) : split sep s <> [].
Proof.
  destruct s as [|c s]; simpl; [discriminate|].
  destruct (N.eqb c sep); [discriminate|].
  destruct (split sep s); discriminate.
Qed.

Lemma join_cons (d l : str) (ls : list str) :
  ls <> [] -> join d (l :: ls) = l ++ d ++ join d ls.
Proof. destruct ls; [congruence | reflexivity]. Qed.

Lemma join_split (s : str) : join [sep] (split sep s) = s.
Proof.
  induction s as [|c s IH]; [reflexivity|].
  simpl. destruct (N.eqb c sep) eqn:E.
  - apply N.eqb_eq in E; subst c.
    rewrite join_cons by apply split_not_nil.
    simpl. now rewrite IH.
  - destruct (split sep s) as [|l ls] eqn:S.
    + now apply split_not_nil in S.
    + destruct ls as [|l' ls]; simpl in *; now rewrite <- IH.
Qed.

Lemma split_lines_no_sep (s : str) :
  Forall (fun l => ~ In sep l) (split sep s).
Proof.
  induction s as [|c s IH]; simpl.
  - constructor; auto.
  - destruct (N.eqb c sep) eqn:E.
    + constructor; auto.
    + destruct (split sep s) as [|l ls].
      * constructor; auto. intros [->|[]]. now rewrite N.eqb_refl in E.
      * inversion IH; subst. constructor; auto.
        intros [->|H]; [now rewrite N.eqb_refl in E | auto].
Qed.

Lemma split_app_sep (l r : str) :
  ~ In sep l -> split sep (l ++ sep :: r) = l :: split sep r.
Proof.
  induction l as [|c l IH]; intros H; simpl.
  - now rewrite N.eqb_refl.
  - destruct (N.eqb c sep) eqn:E.
    + apply N.eqb_eq in E. exfalso; apply H; now left.
    + rewrite IH; [reflexivity|]. intros H'; apply H; now right.
Qed.

Lemma split_without_sep (l : str) : ~ In sep l -> split sep l = [l].
Proof.
  induction l as [|c l IH]; intros H; simpl; [reflexivity|].
  destruct (N.eqb c sep) eqn:E.
  - apply N.eqb_eq in E. exfalso; apply H; now left.
  - rewrite IH; [reflexivity|]. intros H'; apply H; now right.
Qed.

Lemma split_join (ls : list str) :
  ls <> [] -> Forall (fun l => ~ In sep l) ls ->
  split sep (join [sep] ls) = ls.
Proof.
  induction ls as [|l ls IH]; [congruence|].
  intros _ H. inversion H as [|? ? Hl Hls]; subst.
  destruct ls as [|l' ls].
  - simpl. now apply split_without_sep.
  - rewrite join_cons by discriminate.
    simpl app. rewrite split_app_sep by assumption.
    f_equal. apply IH; [discriminate | assumption].
Qed.

Lemma startswith_app (p l r : str) :
  startswith p l = true -> startswith p (l ++ r) = true.
Proof.
  revert l; induction p as [|c p IH]; intros [|d l]; simpl; auto;
    try discriminate.
  rewrite !andb_true_iff. intros [? ?]; auto.
Qed.

Lemma contains_app_l (p l r : str) :
  contains p l = true -> contains p (l ++ r) = true.
Proof.
  induction l as [|d l IH]; simpl.
  - rewrite orb_false_r. intros H.
    destruct p; [destruct r; reflexivity | discriminate].
  - rewrite !orb_true_iff. intros [H|H]; [left | right; auto].
    now apply (startswith_app p (d :: l) r).
Qed.

Lemma contains_app_r (p l r : str) :
  contains p r = true -> contains p (l ++ r) = true.
Proof.
  induction l as [|d l IH]; simpl; auto.
  intros H. rewrite IH by assumption. apply orb_true_r.
Qed.

Lemma startswith_before_sep (p l r : str) :
  ~ In sep p -> startswith p (l ++ sep :: r) = true -> startswith p l = true.
Proof.
  revert l; induction p as [|c p IH]; intros l Hp; [reflexivity|].
  destruct l as [|d l]; simpl.
  - rewrite andb_true_iff, N.eqb_eq. intros [-> _]. exfalso; apply Hp; now left.
  - rewrite !andb_true_iff. intros [? ?]; split; auto.
    apply IH; auto. intros H'; apply Hp; now right.
Qed.

Lemma contains_across_sep (p l r : str) :
  ~ In sep p -> contains p (l ++ sep :: r) = true ->
  contains p l = true \/ contains p r = true.
Proof.
  intros Hp. induction l as [|d l IH].
  - change ([] ++ sep :: r) with (sep :: r).
    cbn [contains]. rewrite orb_true_iff. intros [H|H]; auto.
    left. apply (startswith_before_sep p [] r Hp) in H.
    simpl. now rewrite H.
  - change ((d :: l) ++ sep :: r) with (d :: (l ++ sep :: r)).
    cbn [contains]. rewrite !orb_true_iff. intros [H|H].
    + left; left. now apply (startswith_before_sep p (d :: l) r Hp).
    + destruct (IH H); auto.
Qed.

Lemma contains_join (p : str) (ls : list str) :
  p <> [] -> ~ In sep p -> contains p (join [sep] ls) = true ->
  Exists (fun l => contains p l = true) ls.
Proof.
  intros Hne Hp. induction ls as [|l ls IH].
  - simpl. destruct p; [congruence | discriminate].
  - destruct ls as [|l' ls].
    + simpl. intros H. now constructor.
    + rewrite join_cons by discriminate. simpl app. intros H.
      destruct (contains_across_sep _ _ _ Hp H) as [H1|H1].
      * now constructor.
      * apply Exists_cons_tl. now apply IH.
Qed.

Lemma join_contains (p d : str) (ls : list str) :
  Exists (fun l => contains p l = true) ls -> contains p (join d ls) = true.
Proof.
  induction 1 as [l ls H | l ls H IH].
  - destruct ls; [exact H|].
    rewrite join_cons by discriminate. now apply contains_app_l.
  - destruct ls as [|l' ls]; [inversion H|].
    rewrite join_cons by discriminate.
    apply contains_app_r. now apply contains_app_r.
Qed.

Lemma lstrip_no_longer (s : str) : (List.length (lstrip s) <= List.length s)%nat.
Proof.
  induction s as [|c s IH]; simpl; [lia|].
  destruct (isspace c); simpl; lia.
Qed.

Lemma strip_no_longer (s : str) : (len (strip s) <= len s)%Z.
Proof.
  unfold len, strip, rstrip. rewrite length_rev.
  pose proof (lstrip_no_longer (rev (lstrip s))) as H1.
  rewrite length_rev in H1.
  pose proof (lstrip_no_longer s). lia.
Qed.

End StringFacts.

(* ================================================================== *)
(** * The UI filter of app.py *)
(* ================================================================== *)

Section FilterFacts.
Import PyStr App.

Lemma marker_not_empty : VALIDATION_MARKER <> [].
Proof. discriminate. Qed.

Lemma marker_one_line : ~ In NL VALIDATION_MARKER.
Proof.
  intros H. vm_compute in H.
  repeat (destruct H as [H|H]; [discriminate H|]). exact H.
Qed.

Lemma markers_agree : VALIDATION_MARKER = Orchestrator.VALIDATION_HEADER.
Proof. reflexivity. Qed.

(** No line that mentions the marker is ever appended. *)
Lemma filter_lines_drop_marker (skip : bool) (lines : list str) :
  Forall (fun l => contains VALIDATION_MARKER l = false)
         (filter_lines skip lines).
Proof.
  revert skip; induction lines as [|line rest IH]; intros skip; simpl.
  - constructor.
  - destruct (contains VALIDATION_MARKER line) eqn:E; [apply IH|].
    destruct (negb _); [constructor; auto | apply IH].
Qed.

(** The loop only ever drops lines. *)
Lemma filter_lines_keeps (P : str -> Prop) (skip : bool) (lines : list str) :
  Forall P lines -> Forall P (filter_lines skip lines).
Proof.
  revert skip; induction lines as [|line rest IH]; intros skip H; simpl.
  - constructor.
  - inversion H; subst.
    destruct (contains VALIDATION_MARKER line); [apply IH; assumption|].
    destruct (negb _); [constructor; auto | apply IH; assumption].
Qed.

(** Without a marker line the flag stays off and every line is kept. *)
Lemma filter_lines_unmarked (lines : list str) :
  Forall (fun l => contains VALIDATION_MARKER l = false) lines ->
  filter_lines false lines = lines.
Proof.
  induction 1 as [|line rest Hl _ IH]; simpl; [reflexivity|].
  rewrite Hl. simpl. now rewrite IH.
Qed.

Lemma filtered_has_no_marker (output_text : str) :
  contains VALIDATION_MARKER (filter_summary_from_output output_text) = false.
Proof.
  unfold filter_summary_from_output.
  destruct (contains _ (join _ _)) eqn:E; [|reflexivity].
  apply (@contains_join NL _ _ marker_not_empty marker_one_line) in E.
  apply Exists_exists in E. destruct E as [l [Hin Hl]].
  pose proof (filter_lines_drop_marker false (split NL output_text)) as F.
  rewrite Forall_forall in F. rewrite (F l Hin) in Hl. discriminate.
Qed.

(** Filtering again what the filter produced changes nothing. *)
Lemma filter_fixes_filtered (output_text : str) :
  filter_summary_from_output (filter_summary_from_output output_text)
  = filter_summary_from_output output_text.
Proof.
  pose proof (filter_lines_drop_marker false (split NL output_text)) as Hm.
  pose proof (@filter_lines_keeps (fun l => ~ In NL l) false _
                (split_lines_no_sep NL output_text)) as Hn.
  unfold filter_summary_from_output at 2 3.
  destruct (filter_lines false (split NL output_text)) as [|l ls].
  - reflexivity.
  - unfold filter_summary_from_output.
    rewrite split_join by (assumption || discriminate).
    now rewrite filter_lines_unmarked.
Qed.

End FilterFacts.

(** C9. [filter_summary_from_output] is idempotent, and a text none of
    whose lines mentions the validation section header is returned
    unchanged. *)
Theorem filter_summary_idempotent (output_text : PyStr.str) :
  App.filter_summary_from_output (App.filter_summary_from_output output_text)
  = App.filter_summary_from_output output_text
  /\ (forallb (fun line => negb (PyStr.contains App.VALIDATION_MARKER line))
              (PyStr.split PyStr.NL output_text) = true ->
      App.filter_summary_from_output output_text = output_text).
Proof.
  split.
  - apply filter_fixes_filtered.
  - intros H. unfold App.filter_summary_from_output.
    rewrite filter_lines_unmarked; [apply join_split|].
    rewrite forallb_forall in H. apply Forall_forall.
    intros l Hl. apply H in Hl. now apply negb_true_iff in Hl.
Qed.

Lemma filter_summary_idempotent_witness :
  App.filter_summary_from_output (PyStr.lit "Post 1
Post 2") = PyStr.lit "Post 1
Post 2".
Proof.
  apply (proj2 (filter_summary_idempotent (PyStr.lit "Post 1
Post 2"))).
  reflexivity.
Defined.

(* ================================================================== *)
(** * The effect monad *)
(* ================================================================== *)

Section MonadFacts.
Import Py.

Context {E A B : Type}.

Lemma outcome_bind (m : M E A) (k : A -> M E B) :
  outcome (bind m k) =
  match outcome m with
  | Ok a => outcome (k a)
  | Raise e => Raise e
  end.
Proof.
  destruct m as [t [a|e]]; simpl; [|reflexivity].
  destruct (k a); reflexivity.
Qed.

Lemma events_bind (m : M E A) (k : A -> M E B) :
  events (bind m k) =
  match outcome m with
  | Ok a => events m ++ events (k a)
  | Raise e => events m
  end.
Proof.
  destruct m as [t [a|e]]; simpl; [|reflexivity].
  destruct (k a); reflexivity.
Qed.

End MonadFacts.

(* ================================================================== *)
(** * The coordinator *)
(* ================================================================== *)

Section CoordinatorFacts.
Import PyStr Py Orchestrator.

Variable run : agent_id -> str -> result RunResponse.
Variable sched : schedule.
Variables context examples : str.
Variable requested : Z.

Let linkedin_call := linkedin_prompt context examples requested.
Let x_call := x_prompt context examples requested.

Lemma agent_run_events (a : agent_id) (prompt : str) :
  events (agent_run run a prompt) = [RunCall a prompt; RunReturn a (run a prompt)].
Proof. unfold agent_run, bind, emit, lift, events. simpl. destruct (run a prompt); reflexivity. Qed.

Lemma agent_run_outcome (a : agent_id) (prompt : str) :
  outcome (agent_run run a prompt) = run a prompt.
Proof. unfold agent_run, bind, emit, lift, outcome. simpl. destruct (run a prompt); reflexivity. Qed.

Lemma linkedin_task_events :
  events (linkedin_generate_posts run context examples requested)
  = [RunCall LinkedInAgent linkedin_call;
     RunReturn LinkedInAgent (run LinkedInAgent linkedin_call)].
Proof.
  unfold linkedin_generate_posts. rewrite events_bind, agent_run_events, agent_run_outcome.
  fold linkedin_call. destruct (run LinkedInAgent linkedin_call); reflexivity.
Qed.

Lemma x_task_events :
  events (x_generate_posts run context examples requested)
  = [RunCall XAgent x_call; RunReturn XAgent (run XAgent x_call)].
Proof.
  unfold x_generate_posts. rewrite events_bind, agent_run_events, agent_run_outcome.
  fold x_call. destruct (run XAgent x_call); reflexivity.
Qed.

Lemma linkedin_task_outcome :
  outcome (linkedin_generate_posts run context examples requested)
  = match run LinkedInAgent linkedin_call with
    | Ok response =>
        Ok {| platform := lit "LinkedIn"; num_posts := requested;
              posts := content_of response; agent := name LinkedInAgent |}
    | Raise e => Raise e
    end.
Proof.
  unfold linkedin_generate_posts. rewrite outcome_bind, agent_run_outcome.
  reflexivity.
Qed.

Lemma x_task_outcome :
  outcome (x_generate_posts run context examples requested)
  = match run XAgent x_call with
    | Ok response =>
        Ok {| platform := lit "X (Twitter)"; num_posts := requested;
              posts := content_of response; agent := name XAgent |}
    | Raise e => Raise e
    end.
Proof.
  unfold x_generate_posts. rewrite outcome_bind, agent_run_outcome.
  reflexivity.
Qed.

(** The join succeeds exactly when both generator calls returned. *)
Lemma parallel_outcome_ok (outputs : GenOutput * GenOutput) :
  outcome (_execute_agents_parallel run sched context examples requested)
  = Ok outputs ->
  exists rl rx,
    run LinkedInAgent linkedin_call = Ok rl /\
    run XAgent x_call = Ok rx /\
    outputs =
      ({| platform := lit "LinkedIn"; num_posts := requested;
          posts := content_of rl; agent := name LinkedInAgent |},
       {| platform := lit "X (Twitter)"; num_posts := requested;
          posts := content_of rx; agent := name XAgent |}).
Proof.
  unfold _execute_agents_parallel, outcome at 1. cbn [snd].
  rewrite linkedin_task_outcome, x_task_outcome.
  destruct (run LinkedInAgent linkedin_call) as [rl|el],
           (run XAgent x_call) as [rx|ex], (linkedin_first sched);
    simpl; intros H; try discriminate H.
  all: injection H as <-; exists rl, rx; auto.
Qed.

Lemma parallel_outcome_of_returns (rl rx : RunResponse) :
  run LinkedInAgent linkedin_call = Ok rl ->
  run XAgent x_call = Ok rx ->
  outcome (_execute_agents_parallel run sched context examples requested)
  = Ok ({| platform := lit "LinkedIn"; num_posts := requested;
           posts := content_of rl; agent := name LinkedInAgent |},
        {| platform := lit "X (Twitter)"; num_posts := requested;
           posts := content_of rx; agent := name XAgent |}).
Proof.
  intros Hl Hx.
  unfold _execute_agents_parallel, outcome at 1. cbn [snd].
  rewrite linkedin_task_outcome, x_task_outcome, Hl, Hx.
  destruct (linkedin_first sched); reflexivity.
Qed.

Lemma parallel_outcome_raise :
  (exists e, run LinkedInAgent linkedin_call = Raise e) \/
  (exists e, run XAgent x_call = Raise e) ->
  exists e,
    outcome (_execute_agents_parallel run sched context examples requested)
    = Raise e /\
    (run LinkedInAgent linkedin_call = Raise e \/ run XAgent x_call = Raise e).
Proof.
  unfold _execute_agents_parallel, outcome at 1. cbn [snd].
  rewrite linkedin_task_outcome, x_task_outcome.
  intros [[e H]|[e H]]; rewrite H;
    destruct (run LinkedInAgent linkedin_call) as [rl|el] eqn:El,
             (run XAgent x_call) as [rx|ex] eqn:Ex, (linkedin_first sched);
    simpl; try discriminate H; eauto.
Qed.

Lemma parallel_events :
  events (_execute_agents_parallel run sched context examples requested)
  = interleave (steps sched)
      [RunCall LinkedInAgent linkedin_call;
       RunReturn LinkedInAgent (run LinkedInAgent linkedin_call)]
      [RunCall XAgent x_call; RunReturn XAgent (run XAgent x_call)].
Proof.
  unfold _execute_agents_parallel, events at 1. cbn [fst].
  now rewrite linkedin_task_events, x_task_events.
Qed.

Lemma compile_outcome (linkedin_output x_output : GenOutput) :
  outcome (_validate_and_compile run context examples linkedin_output x_output)
  = match run OrchestratorAgent
            (validation_prompt context examples (posts linkedin_output)
                               (posts x_output)) with
    | Ok rv =>
        outcome (_validate_and_compile (fun _ _ => Ok rv) context examples
                                       linkedin_output x_output)
    | Raise e => Raise e
    end.
Proof.
  unfold _validate_and_compile. rewrite !outcome_bind, !agent_run_outcome.
  destruct (run OrchestratorAgent _); reflexivity.
Qed.

Lemma compile_events (linkedin_output x_output : GenOutput) :
  events (_validate_and_compile run context examples linkedin_output x_output)
  = let prompt := validation_prompt context examples (posts linkedin_output)
                                    (posts x_output) in
    [RunCall OrchestratorAgent prompt;
     RunReturn OrchestratorAgent (run OrchestratorAgent prompt)].
Proof.
  unfold _validate_and_compile. rewrite events_bind, agent_run_events, agent_run_outcome.
  cbv zeta. destruct (run OrchestratorAgent _); reflexivity.
Qed.

End CoordinatorFacts.

Section TraceFacts.
Import Py Orchestrator.

Lemma in_interleave (e : event) (steps : list bool) (l x : list event) :
  In e (interleave steps l x) <-> In e l \/ In e x.
Proof.
  revert l x; induction steps as [|b steps IH]; intros l x; simpl.
  - apply in_app_iff.
  - destruct l as [|e1 l]; [simpl; tauto|].
    destruct x as [|e2 x]; [simpl; tauto|].
    destruct b; simpl; rewrite IH; simpl; tauto.
Qed.

(** A trace that starts with [a] and is cut at an event foreign to [a]
    is cut after [a]. *)
Lemma cut_after_prefix (a rest pre post : list event) (e : event) :
  a ++ rest = pre ++ e :: post -> ~ In e a -> exists pre', pre = a ++ pre'.
Proof.
  revert pre; induction a as [|h a IH]; intros pre H Hn.
  - now exists pre.
  - destruct pre as [|h' pre]; simpl in H.
    + injection H as -> _. exfalso; apply Hn; now left.
    + injection H as <- H.
      destruct (IH pre H) as [pre' ->]; [intros H'; apply Hn; now right|].
      now exists pre'.
Qed.

End TraceFacts.

(** C1. For a count of at least 1, whenever the three remote calls
    return, [execute_workflow] returns a report; and every report it
    returns has one LinkedIn section and one X section, both with the
    requested count, and the status "completed". *)
Theorem execute_workflow_report
  (run : Orchestrator.agent_id -> PyStr.str -> Py.result Orchestrator.RunResponse)
  (sched : Orchestrator.schedule) (context examples : PyStr.str) (num_posts : Z) :
  (1 <= num_posts)%Z ->
  (forall rl rx rv,
      run Orchestrator.LinkedInAgent
          (Orchestrator.linkedin_prompt context examples num_posts) = Py.Ok rl ->
      run Orchestrator.XAgent
          (Orchestrator.x_prompt context examples num_posts) = Py.Ok rx ->
      run Orchestrator.OrchestratorAgent
          (Orchestrator.validation_prompt context examples
             (Orchestrator.content_of rl) (Orchestrator.content_of rx)) = Py.Ok rv ->
      exists final_output,
        Py.outcome (Orchestrator.execute_workflow run sched context examples num_posts)
        = Py.Ok final_output)
  /\
  (forall final_output,
      Py.outcome (Orchestrator.execute_workflow run sched context examples num_posts)
      = Py.Ok final_output ->
      Orchestrator.posts_platform (Orchestrator.linkedin_posts final_output)
      = PyStr.lit "LinkedIn" /\
      Orchestrator.posts_platform (Orchestrator.x_posts final_output)
      = PyStr.lit "X (Twitter)" /\
      Orchestrator.count (Orchestrator.linkedin_posts final_output) = num_posts /\
      Orchestrator.count (Orchestrator.x_posts final_output) = num_posts /\
      Orchestrator.workflow_status final_output = PyStr.lit "completed").
Proof.
  intros _. unfold Orchestrator.execute_workflow. split.
  - intros rl rx rv Hl Hx Hv.
    rewrite outcome_bind, (parallel_outcome_of_returns _ sched _ _ _ Hl Hx).
    cbn [fst snd]. rewrite compile_outcome. cbn [Orchestrator.posts].
    rewrite Hv. eexists. reflexivity.
  - intros final_output. rewrite outcome_bind.
    destruct (Py.outcome (Orchestrator._execute_agents_parallel _ _ _ _ _))
      as [outputs|e] eqn:P; [|discriminate].
    apply parallel_outcome_ok in P. destruct P as (rl & rx & _ & _ & ->).
    cbn [fst snd]. rewrite compile_outcome.
    destruct (run Orchestrator.OrchestratorAgent _) as [rv|e]; [|discriminate].
    intros [= <-]. repeat split.
Qed.

Lemma execute_workflow_report_witness :
  (1 <= 2)%Z /\
  exists final_output,
    Py.outcome (Orchestrator.execute_workflow Samples.sample_run
                  Samples.sample_schedule Samples.sample_context
                  Samples.sample_examples 2)
    = Py.Ok final_output /\
    Orchestrator.count (Orchestrator.linkedin_posts final_output) = 2%Z /\
    Orchestrator.count (Orchestrator.x_posts final_output) = 2%Z /\
    Orchestrator.workflow_status final_output = PyStr.lit "completed".
Proof.
  split; [lia|].
  destruct (execute_workflow_report Samples.sample_run Samples.sample_schedule
              Samples.sample_context Samples.sample_examples (num_posts := 2)
              ltac:(lia)) as [Hret Hrep].
  destruct (Hret _ _ _ eq_refl eq_refl eq_refl) as [final_output Hout].
  exists final_output. split; [exact Hout|].
  destruct (Hrep _ Hout) as (_ & _ & Hl & Hx & Hs). auto.
Defined.

(** C2. If either generator call raises, [execute_workflow] raises one
    of the generators' exceptions, returns no report at all, and never
    issues the validation call. *)
Theorem generator_failure_propagates
  (run : Orchestrator.agent_id -> PyStr.str -> Py.result Orchestrator.RunResponse)
  (sched : Orchestrator.schedule) (context examples : PyStr.str) (num_posts : Z) :
  (exists e, run Orchestrator.LinkedInAgent
               (Orchestrator.linkedin_prompt context examples num_posts) = Py.Raise e)
  \/ (exists e, run Orchestrator.XAgent
                  (Orchestrator.x_prompt context examples num_posts) = Py.Raise e) ->
  (exists e,
      Py.outcome (Orchestrator.execute_workflow run sched context examples num_posts)
      = Py.Raise e /\
      (run Orchestrator.LinkedInAgent
           (Orchestrator.linkedin_prompt context examples num_posts) = Py.Raise e \/
       run Orchestrator.XAgent
           (Orchestrator.x_prompt context examples num_posts) = Py.Raise e))
  /\ (forall final_output,
         Py.outcome (Orchestrator.execute_workflow run sched context examples num_posts)
         <> Py.Ok final_output)
  /\ (forall prompt,
         ~ In (Orchestrator.RunCall Orchestrator.OrchestratorAgent prompt)
              (Py.events (Orchestrator.execute_workflow run sched context examples
                            num_posts))).
Proof.
  intros H.
  destruct (parallel_outcome_raise run sched context examples num_posts H)
    as (e & He & Hsrc).
  unfold Orchestrator.execute_workflow.
  rewrite outcome_bind, events_bind, He.
  split; [exists e; auto|]. split; [discriminate|].
  intros prompt. rewrite parallel_events, in_interleave.
  simpl. intros [[H'|[H'|[]]]|[H'|[H'|[]]]]; discriminate H'.
Qed.

Lemma generator_failure_propagates_witness :
  Py.outcome (Orchestrator.execute_workflow Samples.failing_run
                Samples.sample_schedule Samples.sample_context
                Samples.sample_examples 2)
  = Py.Raise (Py.RemoteError (PyStr.lit "timeout")).
Proof.
  destruct (generator_failure_propagates Samples.failing_run
              Samples.sample_schedule Samples.sample_context
              Samples.sample_examples 2
              (or_introl (ex_intro _ (Py.RemoteError (PyStr.lit "timeout")) eq_refl)))
    as [_ _].
  reflexivity.
Defined.

(** C3. In every execution the validation call is issued only after both
    generator calls have returned successfully, whatever the schedule;
    between the two generator tasks themselves every order occurs under
    some schedule: LinkedIn's call may return before X's is issued, X's
    may return before LinkedIn's is issued, and the two may overlap. *)
Theorem validation_after_both_generators
  (run : Orchestrator.agent_id -> PyStr.str -> Py.result Orchestrator.RunResponse)
  (context examples : PyStr.str) (num_posts : Z) :
  let linkedin_call :=
    Orchestrator.RunCall Orchestrator.LinkedInAgent
      (Orchestrator.linkedin_prompt context examples num_posts) in
  let linkedin_return :=
    Orchestrator.RunReturn Orchestrator.LinkedInAgent
      (run Orchestrator.LinkedInAgent
           (Orchestrator.linkedin_prompt context examples num_posts)) in
  let x_call :=
    Orchestrator.RunCall Orchestrator.XAgent
      (Orchestrator.x_prompt context examples num_posts) in
  let x_return :=
    Orchestrator.RunReturn Orchestrator.XAgent
      (run Orchestrator.XAgent (Orchestrator.x_prompt context examples num_posts)) in
  let trace sched :=
    Py.events (Orchestrator.execute_workflow run sched context examples num_posts) in
  (forall sched pre post prompt,
      trace sched
      = pre ++ Orchestrator.RunCall Orchestrator.OrchestratorAgent prompt :: post ->
      (exists rl, In (Orchestrator.RunReturn Orchestrator.LinkedInAgent (Py.Ok rl)) pre)
      /\ (exists rx, In (Orchestrator.RunReturn Orchestrator.XAgent (Py.Ok rx)) pre))
  /\ (exists sched, Orchestrator.precedes linkedin_return x_call (trace sched))
  /\ (exists sched, Orchestrator.precedes x_return linkedin_call (trace sched))
  /\ (exists sched, Orchestrator.precedes linkedin_call x_call (trace sched)
                    /\ Orchestrator.precedes x_call linkedin_return (trace sched)).
Proof.
  intros linkedin_call linkedin_return x_call x_return trace.
  assert (Htrace : forall sched, exists tail,
             trace sched =
             Orchestrator.interleave (Orchestrator.steps sched)
               [linkedin_call; linkedin_return] [x_call; x_return] ++ tail).
  { intros sched. unfold trace, Orchestrator.execute_workflow.
    rewrite events_bind, parallel_events.
    destruct (Py.outcome _); eexists; [reflexivity|].
    now rewrite app_nil_r. }
  split; [|split; [|split]].
  - intros sched pre post prompt. unfold trace, Orchestrator.execute_workflow.
    rewrite events_bind.
    destruct (Py.outcome (Orchestrator._execute_agents_parallel _ _ _ _ _))
      as [outputs|e] eqn:P.
    + apply parallel_outcome_ok in P. destruct P as (rl & rx & Hl & Hx & _).
      rewrite parallel_events, Hl, Hx. intros H.
      apply cut_after_prefix in H.
      * destruct H as [pre' ->].
        split; [exists rl | exists rx]; apply in_or_app; left;
          apply in_interleave; simpl; auto.
      * rewrite in_interleave. simpl.
        intros [[H'|[H'|[]]]|[H'|[H'|[]]]]; discriminate H'.
    + rewrite parallel_events. intros H.
      assert (Hin : In (Orchestrator.RunCall Orchestrator.OrchestratorAgent prompt)
                       (pre ++ Orchestrator.RunCall Orchestrator.OrchestratorAgent prompt
                            :: post))
        by (apply in_or_app; right; now left).
      rewrite <- H, in_interleave in Hin. simpl in Hin.
      destruct Hin as [[H'|[H'|[]]]|[H'|[H'|[]]]]; discriminate H'.
  - exists {| Orchestrator.steps := []; Orchestrator.linkedin_first := true |}.
    destruct (Htrace {| Orchestrator.steps := [];
                        Orchestrator.linkedin_first := true |}) as [tail ->].
    now exists [linkedin_call], [], (x_return :: tail).
  - exists {| Orchestrator.steps := [false; false];
              Orchestrator.linkedin_first := true |}.
    destruct (Htrace {| Orchestrator.steps := [false; false];
                        Orchestrator.linkedin_first := true |}) as [tail ->].
    now exists [x_call], [], (linkedin_return :: tail).
  - exists {| Orchestrator.steps := [true; false; true];
              Orchestrator.linkedin_first := true |}.
    destruct (Htrace {| Orchestrator.steps := [true; false; true];
                        Orchestrator.linkedin_first := true |}) as [tail ->].
    split.
    + now exists [], [], (linkedin_return :: x_return :: tail).
    + now exists [linkedin_call], [], (x_return :: tail).
Qed.

Lemma validation_after_both_generators_witness :
  exists rl,
    In (Orchestrator.RunReturn Orchestrator.LinkedInAgent (Py.Ok rl))
       [Orchestrator.RunCall Orchestrator.XAgent
          (Orchestrator.x_prompt Samples.sample_context Samples.sample_examples 2);
        Orchestrator.RunCall Orchestrator.LinkedInAgent
          (Orchestrator.linkedin_prompt Samples.sample_context
             Samples.sample_examples 2);
        Orchestrator.RunReturn Orchestrator.XAgent
          (Py.Ok (Orchestrator.WithContent (PyStr.lit "Post 1")));
        Orchestrator.RunReturn Orchestrator.LinkedInAgent
          (Py.Ok (Orchestrator.WithContent (PyStr.lit "Post 1")))].
Proof.
  destruct (validation_after_both_generators Samples.sample_run
              Samples.sample_context Samples.sample_examples 2) as [Hseq _].
  refine (proj1 (Hseq Samples.sample_schedule _
                   [Orchestrator.RunReturn Orchestrator.OrchestratorAgent
                      (Py.Ok (Orchestrator.WithContent (PyStr.lit "Post 1")))]
                   (Orchestrator.validation_prompt Samples.sample_context
                      Samples.sample_examples (PyStr.lit "Post 1")
                      (PyStr.lit "Post 1")) _)).
  reflexivity.
Defined.

Section ExcerptFacts.
Import PyStr Py Orchestrator.

Lemma compile_excerpt
  (run : agent_id -> str -> result RunResponse) (context examples : str)
  (linkedin_output x_output : GenOutput) (final_output : FinalOutput) :
  outcome (_validate_and_compile run context examples linkedin_output x_output)
  = Ok final_output ->
  context_provided (metadata final_output)
  = if (len context >? 100)%Z then prefix 100 context ++ lit "..." else context.
Proof.
  unfold _validate_and_compile. rewrite outcome_bind, agent_run_outcome.
  destruct (run OrchestratorAgent _); [|discriminate].
  unfold ret, outcome. cbn [snd]. intros H.
  apply (f_equal (fun r => match r with
                           | Ok f => context_provided (metadata f)
                           | Raise _ => []
                           end)) in H.
  symmetry. exact H.
Qed.

End ExcerptFacts.

(** C10. In every report returned by [execute_workflow] the context
    excerpt is the whole context when that has at most 100 characters,
    and otherwise its first 100 characters followed by "..."; it never
    has more than 103 characters. *)
Theorem context_excerpt_bounded
  (run : Orchestrator.agent_id -> PyStr.str -> Py.result Orchestrator.RunResponse)
  (sched : Orchestrator.schedule) (context examples : PyStr.str) (num_posts : Z)
  (final_output : Orchestrator.FinalOutput) :
  Py.outcome (Orchestrator.execute_workflow run sched context examples num_posts)
  = Py.Ok final_output ->
  let excerpt := Orchestrator.context_provided (Orchestrator.metadata final_output) in
  ((PyStr.len context <= 100)%Z -> excerpt = context)
  /\ ((100 < PyStr.len context)%Z ->
      excerpt = PyStr.prefix 100 context ++ PyStr.lit "..." /\
      PyStr.len (PyStr.prefix 100 context) = 100%Z)
  /\ (PyStr.len excerpt <= 103)%Z.
Proof.
  unfold Orchestrator.execute_workflow. rewrite outcome_bind.
  destruct (Py.outcome (Orchestrator._execute_agents_parallel _ _ _ _ _))
    as [outputs|e]; [|discriminate].
  intros H. apply compile_excerpt in H. cbv zeta. rewrite H. clear H.
  unfold PyStr.len, PyStr.prefix.
  destruct (Z.of_nat (List.length context) >? 100)%Z eqn:E.
  - apply Z.gtb_lt in E.
    assert (L : List.length (firstn 100 context) = 100%nat)
      by (rewrite length_firstn; lia).
    split; [intros; lia|]. split.
    + intros _. split; [reflexivity | now rewrite L].
    + rewrite length_app, L.
      change (List.length (PyStr.lit "...")) with 3%nat. lia.
  - assert (Z.of_nat (List.length context) <= 100)%Z
      by (destruct (Z.gtb_spec (Z.of_nat (List.length context)) 100); [discriminate | lia]).
    split; [reflexivity|]. split; [intros; lia | lia].
Qed.

Lemma context_excerpt_bounded_witness :
  exists final_output,
    Py.outcome (Orchestrator.execute_workflow Samples.sample_run
                  Samples.sample_schedule
                  (PyStr.times 97%N 120) Samples.sample_examples 2)
    = Py.Ok final_output /\
    Orchestrator.context_provided (Orchestrator.metadata final_output)
    = PyStr.times 97%N 100 ++ PyStr.lit "...".
Proof.
  eexists. split; [reflexivity|].
  refine (proj1 (proj1 (proj2 (context_excerpt_bounded Samples.sample_run
            Samples.sample_schedule (PyStr.times 97%N 120)
            Samples.sample_examples 2 eq_refl)) _)).
  vm_compute. reflexivity.
Defined.

(* ================================================================== *)
(** * The report formatter and the web handlers *)
(* ================================================================== *)

Section FormatterFacts.
Import PyStr Orchestrator.

Lemma header_in_itself : contains VALIDATION_HEADER VALIDATION_HEADER = true.
Proof. reflexivity. Qed.

Lemma validation_header_is_a_line (upper : str -> str) (final_output : FinalOutput) :
  Exists (fun l => contains VALIDATION_HEADER l = true)
         (output_lines upper final_output).
Proof.
  unfold output_lines.
  do 11 apply Exists_cons_tl. apply Exists_cons_hd. exact header_in_itself.
Qed.

End FormatterFacts.

(** C7. For every report with a non-empty validation summary, the full
    rendering contains the validation section header and the UI-stripped
    rendering does not. *)
Theorem validation_header_full_not_ui
  (upper : PyStr.str -> PyStr.str) (final_output : Orchestrator.FinalOutput) :
  Orchestrator.validation_summary final_output <> [] ->
  PyStr.contains Orchestrator.VALIDATION_HEADER
    (Orchestrator.format_output upper final_output) = true
  /\ PyStr.contains Orchestrator.VALIDATION_HEADER
       (App.filter_summary_from_output
          (Orchestrator.format_output upper final_output)) = false.
Proof.
  intros _. split.
  - apply join_contains, validation_header_is_a_line.
  - rewrite <- markers_agree. apply filtered_has_no_marker.
Qed.

Lemma validation_header_full_not_ui_witness :
  PyStr.contains Orchestrator.VALIDATION_HEADER
    (Orchestrator.format_output Samples.ascii_upper Samples.sample_report) = true
  /\ PyStr.contains Orchestrator.VALIDATION_HEADER
       (App.filter_summary_from_output
          (Orchestrator.format_output Samples.ascii_upper Samples.sample_report))
     = false.
Proof.
  apply (validation_header_full_not_ui Samples.ascii_upper Samples.sample_report).
  discriminate.
Defined.

(** C8. While [running] is set, [start_workflow] answers with an error
    response, starts no background thread and leaves the status record
    as it was, field by field. *)
Theorem start_workflow_rejected_while_running
  (workflow_status : App.WorkflowStatus) (request_json : Py.result Py.value) :
  App.running workflow_status = true ->
  let '(response, status_after, thread) :=
    App.start_workflow workflow_status request_json in
  response = {| App.json := App.ErrorBody (PyStr.lit "Workflow is already running");
                App.status_code := 400 |}
  /\ thread = None
  /\ status_after = workflow_status
  /\ App.running status_after = App.running workflow_status
  /\ App.progress status_after = App.progress workflow_status
  /\ App.output status_after = App.output workflow_status
  /\ App.full_output status_after = App.full_output workflow_status
  /\ App.error status_after = App.error workflow_status.
Proof.
  intros H. unfold App.start_workflow, App.start_workflow_try. rewrite H.
  cbv beta iota. repeat split; congruence.
Qed.

Lemma start_workflow_rejected_while_running_witness :
  App.start_workflow Samples.running_status Samples.sample_request
  = ({| App.json := App.ErrorBody (PyStr.lit "Workflow is already running");
        App.status_code := 400 |},
     Samples.running_status, None).
Proof.
  pose proof (start_workflow_rejected_while_running Samples.running_status
                Samples.sample_request eq_refl) as H.
  destruct (App.start_workflow Samples.running_status Samples.sample_request)
    as [[response status_after] thread].
  destruct H as (-> & -> & -> & _). reflexivity.
Defined.

(* ================================================================== *)
(** * The formatting step of the two scrapers *)
(* ================================================================== *)

Section LinkedInFormatting.
Import PyStr Py FetcherSpec.

Variable repr_dict : dict -> str.

Let expected (idx : Z) (item : dict) : option str :=
  if li_passes item then Some (li_rendered repr_dict (idx, item)) else None.

Lemma li_example_rendered (idx : Z) (item : dict) :
  LinkedInScraper.example repr_dict idx (li_text item) (li_author_name item)
  = li_rendered repr_dict (idx, item).
Proof.
  unfold LinkedInScraper.example, li_rendered, quoted. cbn [fst snd].
  now rewrite <- !app_assoc.
Qed.

(** Whatever an iteration produces is what the filter says. *)
Lemma li_format_item_sound (idx : Z) (item : dict) (r : option str) :
  LinkedInScraper.format_item repr_dict idx item = Ok r -> r = expected idx item.
Proof.
  unfold LinkedInScraper.format_item, expected, li_passes.
  rewrite <- li_example_rendered. unfold li_author_name, li_author, li_text.
  destruct (dict_get item (lit "author") (PyDict [])) as [a|d|t b rp];
    simpl; try discriminate.
  destruct (dict_get item (lit "text") (PyStr [])) as [[|c s]|[|p dt]|t [|] rp];
    simpl; try discriminate; try (intros [= <-]; reflexivity).
  rewrite Z.leb_antisym.
  destruct (len (PyStr.strip (c :: s)) <? 20)%Z; intros [= <-]; reflexivity.
Qed.

(** On a well-shaped record an iteration does not raise. *)
Lemma li_format_item_total (idx : Z) (item : dict) :
  li_well_shaped item = true ->
  LinkedInScraper.format_item repr_dict idx item = Ok (expected idx item).
Proof.
  unfold li_well_shaped. rewrite andb_true_iff. intros [Ht Ha].
  destruct (LinkedInScraper.format_item repr_dict idx item) as [r|e] eqn:E.
  - now rewrite (li_format_item_sound _ _ E).
  - exfalso. revert E Ht Ha.
    unfold LinkedInScraper.format_item, li_author, li_text, text_like.
    destruct (dict_get item (lit "author") (PyDict [])) as [a|d|t b rp];
      simpl; try discriminate.
    destruct (dict_get item (lit "text") (PyStr [])) as [[|c s]|[|p dt]|t [|] rp];
      simpl; try discriminate.
    destruct (len (PyStr.strip (c :: s)) <? 20)%Z; discriminate.
Qed.

Lemma li_format_loop_sound (items : list dict) :
  forall (idx : Z) (examples result : list str),
    LinkedInScraper.format_loop repr_dict idx items examples = Ok result ->
    result = examples ++
             map (li_rendered repr_dict)
                 (filter (fun entry => li_passes (snd entry)) (enumerate idx items)).
Proof.
  induction items as [|item rest IH]; intros idx examples result; simpl.
  - intros [= <-]. now rewrite app_nil_r.
  - destruct (LinkedInScraper.format_item repr_dict idx item) as [r|e] eqn:E;
      simpl; [|discriminate].
    apply li_format_item_sound in E. subst r. unfold expected.
    destruct (li_passes item); intros H; apply IH in H; subst result.
    + simpl. now rewrite <- app_assoc.
    + reflexivity.
Qed.

Lemma li_format_loop_total (items : list dict) :
  forallb li_well_shaped items = true ->
  forall (idx : Z) (examples : list str),
  exists result,
    LinkedInScraper.format_loop repr_dict idx items examples = Ok result.
Proof.
  induction items as [|item rest IH]; simpl; intros H idx examples.
  - eauto.
  - apply andb_true_iff in H. destruct H as [Hi Hr].
    rewrite (li_format_item_total idx item Hi). simpl.
    destruct (expected idx item); apply IH; assumption.
Qed.

Lemma li_format_sound (items : list dict) (out : str) :
  LinkedInScraper._format_as_examples repr_dict items = Ok out ->
  out = formatted li_passes (li_rendered repr_dict) items.
Proof.
  unfold LinkedInScraper._format_as_examples, formatted, survivors.
  destruct (LinkedInScraper.format_loop repr_dict 1 items []) as [result|e] eqn:E;
    simpl; [|discriminate].
  apply li_format_loop_sound in E. simpl in E. subst result.
  destruct (filter _ (enumerate 1 items)) as [|entry entries]; simpl;
    intros [= <-]; reflexivity.
Qed.

Lemma li_format_total (items : list dict) :
  forallb li_well_shaped items = true ->
  LinkedInScraper._format_as_examples repr_dict items
  = Ok (formatted li_passes (li_rendered repr_dict) items).
Proof.
  intros H.
  destruct (li_format_loop_total items H 1 []) as [result E].
  destruct (LinkedInScraper._format_as_examples repr_dict items) as [out|e] eqn:F.
  - now rewrite (li_format_sound _ F).
  - unfold LinkedInScraper._format_as_examples in F. rewrite E in F.
    simpl in F. destruct result; discriminate.
Qed.

End LinkedInFormatting.

Section XFormatting.
Import PyStr Py FetcherSpec.

Variable repr_dict : dict -> str.

#[local] Arguments startswith : simpl never.
#[local] Arguments PyStr.strip : simpl never.
#[local] Arguments len : simpl never.

Let expected (idx : Z) (item : dict) : option str :=
  if x_passes item then Some (x_rendered repr_dict (idx, item)) else None.

Lemma x_example_rendered (idx : Z) (item : dict) :
  XScraper.example repr_dict idx (x_text item)
                   (XScraper.author_name_of repr_dict (x_author item))
  = x_rendered repr_dict (idx, item).
Proof.
  unfold XScraper.example, x_rendered, quoted. cbn [fst snd].
  now rewrite <- !app_assoc.
Qed.

Lemma x_format_item_sound (idx : Z) (item : dict) (r : option str) :
  XScraper.format_item repr_dict idx item = Ok r -> r = expected idx item.
Proof.
  unfold XScraper.format_item, expected, x_passes.
  rewrite <- x_example_rendered. unfold x_author, x_text.
  destruct (dict_get item (lit "text") _) as [[|c s]|[|p dt]|t [|] rp];
    simpl; try discriminate; try (intros [= <-]; reflexivity).
  rewrite !Z.leb_antisym, Z.gtb_ltb.
  destruct (len (PyStr.strip (c :: s)) <? 10)%Z; simpl;
    [intros [= <-]; reflexivity|].
  destruct (startswith (lit "RT @") (c :: s)); simpl;
    [intros [= <-]; reflexivity|].
  destruct (400 <? len (c :: s))%Z; intros [= <-]; reflexivity.
Qed.

Lemma x_format_item_total (idx : Z) (item : dict) :
  x_well_shaped item = true ->
  XScraper.format_item repr_dict idx item = Ok (expected idx item).
Proof.
  intros Ht.
  destruct (XScraper.format_item repr_dict idx item) as [r|e] eqn:E.
  - now rewrite (x_format_item_sound _ _ E).
  - exfalso. revert E Ht.
    unfold XScraper.format_item, x_well_shaped, x_text, text_like.
    destruct (dict_get item (lit "text") _) as [[|c s]|[|p dt]|t [|] rp];
      simpl; try discriminate.
    destruct (len (PyStr.strip (c :: s)) <? 10)%Z; [discriminate|].
    destruct (startswith (lit "RT @") (c :: s)); [discriminate|].
    destruct (len (c :: s) >? 400)%Z; discriminate.
Qed.

Lemma x_format_loop_sound (items : list dict) :
  forall (idx : Z) (examples result : list str),
    XScraper.format_loop repr_dict idx items examples = Ok result ->
    result = examples ++
             map (x_rendered repr_dict)
                 (filter (fun entry => x_passes (snd entry)) (enumerate idx items)).
Proof.
  induction items as [|item rest IH]; intros idx examples result; simpl.
  - intros [= <-]. now rewrite app_nil_r.
  - destruct (XScraper.format_item repr_dict idx item) as [r|e] eqn:E;
      simpl; [|discriminate].
    apply x_format_item_sound in E. subst r. unfold expected.
    destruct (x_passes item); intros H; apply IH in H; subst result.
    + simpl. now rewrite <- app_assoc.
    + reflexivity.
Qed.

Lemma x_format_loop_total (items : list dict) :
  forallb x_well_shaped items = true ->
  forall (idx : Z) (examples : list str),
  exists result, XScraper.format_loop repr_dict idx items examples = Ok result.
Proof.
  induction items as [|item rest IH]; simpl; intros H idx examples.
  - eauto.
  - apply andb_true_iff in H. destruct H as [Hi Hr].
    rewrite (x_format_item_total idx item Hi). simpl.
    destruct (expected idx item); apply IH; assumption.
Qed.

Lemma x_format_sound (items : list dict) (out : str) :
  XScraper._format_as_examples repr_dict items = Ok out ->
  out = formatted x_passes (x_rendered repr_dict) items.
Proof.
  unfold XScraper._format_as_examples, formatted, survivors.
  destruct (XScraper.format_loop repr_dict 1 items []) as [result|e] eqn:E;
    simpl; [|discriminate].
  apply x_format_loop_sound in E. simpl in E. subst result.
  destruct (filter _ (enumerate 1 items)) as [|entry entries]; simpl;
    intros [= <-]; reflexivity.
Qed.

Lemma x_format_total (items : list dict) :
  forallb x_well_shaped items = true ->
  XScraper._format_as_examples repr_dict items
  = Ok (formatted x_passes (x_rendered repr_dict) items).
Proof.
  intros H.
  destruct (x_format_loop_total items H 1 []) as [result E].
  destruct (XScraper._format_as_examples repr_dict items) as [out|e] eqn:F.
  - now rewrite (x_format_sound _ F).
  - unfold XScraper._format_as_examples in F. rewrite E in F.
    simpl in F. destruct result; discriminate.
Qed.

End XFormatting.

Section SurvivorFacts.
Import PyStr Py FetcherSpec.

(** With no passing record the formatted text is the placeholder. *)
Lemma formatted_none_pass (passes : dict -> bool) (rendered : Z * dict -> str)
  (items : list dict) :
  forallb (fun item => negb (passes item)) items = true ->
  formatted passes rendered items = placeholder.
Proof.
  unfold formatted, survivors. generalize 1%Z.
  intros start H.
  replace (filter (fun entry => passes (snd entry)) (enumerate start items))
    with (@nil (Z * dict)); [reflexivity|].
  revert start; induction items as [|item rest IH]; intros start; simpl;
    [reflexivity|].
  simpl in H. apply andb_true_iff in H. destruct H as [Hi Hr].
  apply negb_true_iff in Hi. rewrite Hi. now apply IH.
Qed.

(** A text shorter than the threshold never passes. *)
Lemma li_short_text_filtered (item : dict) (s : str) :
  li_text item = PyStr s -> (len s < 20)%Z -> li_passes item = false.
Proof.
  unfold li_passes. intros -> H. destruct s as [|c s]; [reflexivity|].
  apply Z.leb_gt. pose proof (strip_no_longer (c :: s)). lia.
Qed.

Lemma x_short_text_filtered (item : dict) (s : str) :
  x_text item = PyStr s -> (len s < 10)%Z -> x_passes item = false.
Proof.
  unfold x_passes. intros -> H. destruct s as [|c s]; [reflexivity|].
  replace (10 <=? len (PyStr.strip (c :: s)))%Z with false; [reflexivity|].
  symmetry. apply Z.leb_gt. pose proof (strip_no_longer (c :: s)). lia.
Qed.

End SurvivorFacts.

Section AuthorFacts.
Import PyStr Py FetcherSpec.

Variable repr_dict : dict -> str.

(** The LinkedIn loop asks the author for its name before it looks at
    the text: an author that is no object ends the iteration with the
    exception of the missing [get]. *)
Lemma li_format_item_bad_author (idx : Z) (item : dict) :
  is_dict (li_author item) = false ->
  LinkedInScraper.format_item repr_dict idx item
  = Raise (no_attribute (li_author item) (lit "get")).
Proof.
  unfold LinkedInScraper.format_item, li_author.
  destruct (dict_get item (lit "author") (PyDict [])) as [s|d|t b r];
    intros H; try discriminate H; reflexivity.
Qed.

(** The loop stops at the first such record. *)
Lemma li_format_loop_first_bad_author (before after : list dict) (item : dict) :
  forallb li_well_shaped before = true ->
  is_dict (li_author item) = false ->
  forall (idx : Z) (examples : list str),
    LinkedInScraper.format_loop repr_dict idx (before ++ item :: after) examples
    = Raise (no_attribute (li_author item) (lit "get")).
Proof.
  intros W H. induction before as [|first rest IH]; intros idx examples.
  - cbn [app LinkedInScraper.format_loop].
    now rewrite li_format_item_bad_author.
  - simpl in W. apply andb_true_iff in W. destruct W as [Wf Wr].
    cbn [app LinkedInScraper.format_loop].
    rewrite (li_format_item_total repr_dict idx first Wf). cbn [rbind].
    destruct (li_passes first); now apply IH.
Qed.

(** With such a record anywhere in the list the loop raises. *)
Lemma li_format_loop_bad_author (items : list dict) (item : dict) :
  In item items ->
  is_dict (li_author item) = false ->
  forall (idx : Z) (examples : list str),
  exists e, LinkedInScraper.format_loop repr_dict idx items examples = Raise e.
Proof.
  intros I H. induction items as [|first rest IH]; [destruct I|].
  intros idx examples. cbn [LinkedInScraper.format_loop].
  destruct (LinkedInScraper.format_item repr_dict idx first) as [r|e] eqn:E;
    cbn [rbind]; [|now exists e].
  destruct I as [->|I].
  - rewrite li_format_item_bad_author in E by exact H. discriminate E.
  - destruct r; now apply IH.
Qed.

End AuthorFacts.

(** C5. The LinkedIn formatting step does not return the placeholder on
    every list in which no record survives. At the first record whose
    author is present and is not an object (a null author, say), the
    records before it being well shaped, it raises the [AttributeError]
    of the missing [get], whatever the texts are: line 109 defaults a
    missing author and calls [get] on whatever is there. The X step
    tests the author with [isinstance]: on a list of records with
    text-like texts of which none passes, it returns the placeholder
    whatever the authors are. *)
Theorem linkedin_bad_author_gives_no_placeholder
  (repr_dict : Py.dict -> PyStr.str) (before after : list Py.dict)
  (item : Py.dict) :
  forallb FetcherSpec.li_well_shaped before = true ->
  Py.is_dict (FetcherSpec.li_author item) = false ->
  LinkedInScraper._format_as_examples repr_dict (before ++ item :: after)
  = Py.Raise (Py.no_attribute (FetcherSpec.li_author item) (PyStr.lit "get"))
  /\ (forallb FetcherSpec.x_well_shaped (before ++ item :: after) = true ->
      forallb (fun item => negb (FetcherSpec.x_passes item))
              (before ++ item :: after) = true ->
      XScraper._format_as_examples repr_dict (before ++ item :: after)
      = Py.Ok (PyStr.lit "No valid examples found from scraped content.")).
Proof.
  intros W H. split.
  - unfold LinkedInScraper._format_as_examples.
    now rewrite (li_format_loop_first_bad_author repr_dict before after item W H).
  - intros Hs Hn. rewrite (x_format_total repr_dict _ Hs).
    now rewrite formatted_none_pass.
Qed.

Lemma linkedin_bad_author_gives_no_placeholder_witness :
  forallb (fun item => negb (FetcherSpec.li_passes item))
          [Samples.short_post_null_author] = true
  /\ LinkedInScraper._format_as_examples Samples.no_repr
       [Samples.short_post_null_author]
     = Py.Raise (Py.AttributeError
                   (PyStr.lit "'NoneType' object has no attribute 'get'"))
  /\ XScraper._format_as_examples Samples.no_repr
       [Samples.short_post_null_author]
     = Py.Ok (PyStr.lit "No valid examples found from scraped content.").
Proof.
  split; [reflexivity|]. split.
  - apply (proj1 (linkedin_bad_author_gives_no_placeholder Samples.no_repr
                    [] [] Samples.short_post_null_author eq_refl eq_refl)).
  - apply (proj2 (linkedin_bad_author_gives_no_placeholder Samples.no_repr
                    [] [] Samples.short_post_null_author eq_refl eq_refl));
      reflexivity.
Defined.

(** C6. The LinkedIn formatting step does not include every record
    whose text passes the filter. When any record of the list has an
    author that is present and is not an object, the step raises and
    returns no text at all, so the passing records of the list are in no
    output. The X step returns the passing records, rendered and joined,
    on every list of records with text-like texts, whatever the authors
    are. *)
Theorem linkedin_bad_author_loses_passing_records
  (repr_dict : Py.dict -> PyStr.str) (items : list Py.dict) (item : Py.dict) :
  In item items ->
  Py.is_dict (FetcherSpec.li_author item) = false ->
  (exists e, LinkedInScraper._format_as_examples repr_dict items = Py.Raise e)
  /\ (forallb FetcherSpec.x_well_shaped items = true ->
      XScraper._format_as_examples repr_dict items
      = Py.Ok (FetcherSpec.formatted FetcherSpec.x_passes
                 (FetcherSpec.x_rendered repr_dict) items)).
Proof.
  intros I H. split.
  - destruct (li_format_loop_bad_author repr_dict items item I H 1%Z [])
      as [e E].
    exists e. unfold LinkedInScraper._format_as_examples.
    now rewrite E.
  - apply x_format_total.
Qed.

Lemma linkedin_bad_author_loses_passing_records_witness :
  FetcherSpec.li_passes Samples.long_post_null_author = true
  /\ LinkedInScraper._format_as_examples Samples.no_repr
       [Samples.long_post_null_author]
     = Py.Raise (Py.AttributeError
                   (PyStr.lit "'NoneType' object has no attribute 'get'"))
  /\ (exists e,
        LinkedInScraper._format_as_examples Samples.no_repr
          [Samples.long_post_null_author] = Py.Raise e)
  /\ XScraper._format_as_examples Samples.no_repr
       [Samples.long_post_null_author]
     = Py.Ok (FetcherSpec.x_rendered Samples.no_repr
                (1%Z, Samples.long_post_null_author)).
Proof.
  split; [reflexivity|]. split; [reflexivity|]. split.
  - apply (proj1 (linkedin_bad_author_loses_passing_records Samples.no_repr
                    [Samples.long_post_null_author]
                    Samples.long_post_null_author
                    (or_introl eq_refl) eq_refl)).
  - apply (proj2 (linkedin_bad_author_loses_passing_records Samples.no_repr
                    [Samples.long_post_null_author]
                    Samples.long_post_null_author
                    (or_introl eq_refl) eq_refl)).
    reflexivity.
Defined.

(* ================================================================== *)
(** * The guards of the two fetchers *)
(* ================================================================== *)

(** C4, as the code has it. With a configured credential, the X fetcher
    given no non-empty selector list fails with the input error without
    any event; with the credential missing, both fetchers fail with the
    configuration error without any event. No remote call is issued in
    either case. *)
Theorem fetch_guards_precede_remote_calls
  (token : option PyStr.str)
  (x_actor_call : PyStr.str -> XScraper.run_input -> Py.result PyStr.str)
  (li_actor_call : PyStr.str -> LinkedInScraper.run_input -> Py.result PyStr.str)
  (dataset_items : PyStr.str -> Py.result (list Py.dict))
  (json_dumps : Py.dict -> PyStr.str)
  (json_dumps_all : list Py.dict -> PyStr.str)
  (repr_dict : Py.dict -> PyStr.str)
  (start_urls search_terms twitter_handles : option (list PyStr.str))
  (urls : list PyStr.str)
  (max_items limit_per_source : Z)
  (sort tweet_language output_file : PyStr.str) (format_as_examples : bool) :
  let x_fetch :=
    XScraper.scrape_x_posts token x_actor_call dataset_items json_dumps
      json_dumps_all repr_dict start_urls search_terms twitter_handles
      max_items sort tweet_language output_file format_as_examples in
  let li_fetch :=
    LinkedInScraper.scrape_linkedin_posts token li_actor_call dataset_items
      json_dumps json_dumps_all repr_dict urls limit_per_source output_file
      format_as_examples in
  (XScraper.token_missing token = false ->
   Py.some_nonempty start_urls = false ->
   Py.some_nonempty search_terms = false ->
   Py.some_nonempty twitter_handles = false ->
   x_fetch = ([], Py.Raise XScraper.NO_INPUT_ERROR))
  /\ (XScraper.token_missing token = true ->
      x_fetch = ([], Py.Raise XScraper.TOKEN_ERROR))
  /\ (LinkedInScraper.token_missing token = true ->
      li_fetch = ([], Py.Raise LinkedInScraper.TOKEN_ERROR)).
Proof.
  cbv zeta. unfold XScraper.scrape_x_posts, LinkedInScraper.scrape_linkedin_posts.
  repeat split.
  - intros -> -> -> ->. reflexivity.
  - intros ->. reflexivity.
  - intros ->. reflexivity.
Qed.

Lemma fetch_guards_precede_remote_calls_witness :
  XScraper.scrape_x_posts Samples.sample_token Samples.sample_actor
    Samples.empty_dataset Samples.sample_dumps Samples.sample_dumps_all
    Samples.no_repr (Some []) None None 20 (PyStr.lit "Latest") (PyStr.lit "en")
    (PyStr.lit "x_scraped.txt") true
  = ([], Py.Raise XScraper.NO_INPUT_ERROR)
  /\ XScraper.scrape_x_posts None Samples.sample_actor
       Samples.empty_dataset Samples.sample_dumps Samples.sample_dumps_all
       Samples.no_repr (Some []) None None 20 (PyStr.lit "Latest") (PyStr.lit "en")
       (PyStr.lit "x_scraped.txt") true
     = ([], Py.Raise XScraper.TOKEN_ERROR)
  /\ LinkedInScraper.scrape_linkedin_posts None Samples.sample_actor
       Samples.empty_dataset Samples.sample_dumps Samples.sample_dumps_all
       Samples.no_repr [] 5 (PyStr.lit "x_scraped.txt") true
     = ([], Py.Raise LinkedInScraper.TOKEN_ERROR).
Proof.
  split; [|split].
  - apply (proj1 (fetch_guards_precede_remote_calls Samples.sample_token
             Samples.sample_actor Samples.sample_actor Samples.empty_dataset
             Samples.sample_dumps Samples.sample_dumps_all Samples.no_repr
             (Some []) None None [] 20 5 (PyStr.lit "Latest") (PyStr.lit "en")
             (PyStr.lit "x_scraped.txt") true)); reflexivity.
  - apply (proj1 (proj2 (fetch_guards_precede_remote_calls None
             Samples.sample_actor Samples.sample_actor Samples.empty_dataset
             Samples.sample_dumps Samples.sample_dumps_all Samples.no_repr
             (Some []) None None [] 20 5 (PyStr.lit "Latest") (PyStr.lit "en")
             (PyStr.lit "x_scraped.txt") true))); reflexivity.
  - apply (proj2 (proj2 (fetch_guards_precede_remote_calls None
             Samples.sample_actor Samples.sample_actor Samples.empty_dataset
             Samples.sample_dumps Samples.sample_dumps_all Samples.no_repr
             (Some []) None None [] 20 5 (PyStr.lit "Latest") (PyStr.lit "en")
             (PyStr.lit "x_scraped.txt") true))); reflexivity.
Defined.

(** C4 as stated fails: with a configured credential the LinkedIn
    fetcher given an empty URL list raises nothing and issues the actor
    call and the dataset read; and the X fetcher given no selector and
    no credential fails with the configuration error, not the input
    error. *)
Lemma empty_selectors_not_always_input_error :
  (let fetch :=
     LinkedInScraper.scrape_linkedin_posts Samples.sample_token
       Samples.sample_actor Samples.empty_dataset Samples.sample_dumps
       Samples.sample_dumps_all Samples.no_repr [] 5
       (PyStr.lit "linkedin_scraped.txt") true in
   Py.events fetch
   = [Py.ActorCall (PyStr.lit "supreme_coder/linkedin-post")
        {| LinkedInScraper.urls := []; LinkedInScraper.limitPerSource := 5 |};
      Py.DatasetRead (PyStr.lit "dataset-1");
      Py.FileWrite (PyStr.lit "linkedin_scraped.txt") [];
      Py.FileWrite (PyStr.lit "linkedin_scraped_examples.txt")
        LinkedInScraper.NO_EXAMPLES]
   /\ existsb Py.is_remote_call (Py.events fetch) = true
   /\ Py.outcome fetch = Py.Ok LinkedInScraper.NO_EXAMPLES)
  /\ (Py.outcome
        (XScraper.scrape_x_posts None Samples.sample_actor
           Samples.empty_dataset Samples.sample_dumps Samples.sample_dumps_all
           Samples.no_repr None None None 20 (PyStr.lit "Latest")
           (PyStr.lit "en") (PyStr.lit "x_scraped.txt") true)
      = Py.Raise XScraper.TOKEN_ERROR
      /\ XScraper.TOKEN_ERROR <> XScraper.NO_INPUT_ERROR).
Proof.
  repeat split. discriminate.
Qed.

(* ================================================================== *)
(** * More about the coordinator *)
(* ================================================================== *)

Section CallFacts.
Import PyStr Py Orchestrator OrchestratorTrace.

Lemma calls_of_app (a : agent_id) (t u : list event) :
  calls_of a (t ++ u) = calls_of a t ++ calls_of a u.
Proof. apply flat_map_app. Qed.

(** Events that are no call to [a] do not show among its calls,
    wherever the interleaving puts them. *)
Lemma calls_of_interleave_l (a : agent_id) (steps : list bool) (l x : list event) :
  calls_of a x = [] -> calls_of a (interleave steps l x) = calls_of a l.
Proof.
  revert l x; induction steps as [|b steps IH]; intros l x Hx; simpl.
  - now rewrite calls_of_app, Hx, app_nil_r.
  - destruct l as [|e l]; [exact Hx|].
    destruct x as [|f x]; [reflexivity|].
    destruct b; simpl.
    + unfold calls_of in *. simpl. f_equal. now apply IH.
    + unfold calls_of in *. simpl in Hx. apply app_eq_nil in Hx.
      destruct Hx as [Hf Hx]. rewrite Hf. simpl. now apply IH.
Qed.

Lemma calls_of_interleave_r (a : agent_id) (steps : list bool) (l x : list event) :
  calls_of a l = [] -> calls_of a (interleave steps l x) = calls_of a x.
Proof.
  revert l x; induction steps as [|b steps IH]; intros l x Hl; simpl.
  - now rewrite calls_of_app, Hl.
  - destruct l as [|e l]; [reflexivity|].
    destruct x as [|f x]; [now rewrite Hl|].
    destruct b; simpl.
    + unfold calls_of in *. simpl in Hl. apply app_eq_nil in Hl.
      destruct Hl as [He Hl]. rewrite He. simpl. now apply IH.
    + unfold calls_of in *. simpl. f_equal. now apply IH.
Qed.

(** The join, case by case. *)
Lemma parallel_outcome_cases
  (run : agent_id -> str -> result RunResponse) (sched : schedule)
  (context examples : str) (requested : Z) :
  outcome (_execute_agents_parallel run sched context examples requested)
  = match run LinkedInAgent (linkedin_prompt context examples requested),
          run XAgent (x_prompt context examples requested) with
    | Ok rl, Ok rx =>
        Ok ({| platform := lit "LinkedIn"; num_posts := requested;
               posts := content_of rl; agent := name LinkedInAgent |},
            {| platform := lit "X (Twitter)"; num_posts := requested;
               posts := content_of rx; agent := name XAgent |})
    | Raise el, Ok _ => Raise el
    | Ok _, Raise ex => Raise ex
    | Raise el, Raise ex => Raise (if linkedin_first sched then el else ex)
    end.
Proof.
  unfold _execute_agents_parallel, outcome at 1. cbn [snd].
  rewrite linkedin_task_outcome, x_task_outcome.
  destruct (run LinkedInAgent _), (run XAgent _), (linkedin_first sched);
    reflexivity.
Qed.

End CallFacts.

(** X1. Whatever the schedule and whatever the remote service answers,
    each generator is run exactly once, with its own prompt, also when
    the other one fails; the validator is run at most once, and only
    with the prompt built from both generators' texts. *)
Theorem each_generator_runs_once
  (run : Orchestrator.agent_id -> PyStr.str -> Py.result Orchestrator.RunResponse)
  (sched : Orchestrator.schedule) (context examples : PyStr.str) (num_posts : Z) :
  let trace :=
    Py.events (Orchestrator.execute_workflow run sched context examples num_posts) in
  OrchestratorTrace.calls_of Orchestrator.LinkedInAgent trace
  = [Orchestrator.linkedin_prompt context examples num_posts]
  /\ OrchestratorTrace.calls_of Orchestrator.XAgent trace
     = [Orchestrator.x_prompt context examples num_posts]
  /\ (OrchestratorTrace.calls_of Orchestrator.OrchestratorAgent trace = []
      \/ exists rl rx,
           run Orchestrator.LinkedInAgent
               (Orchestrator.linkedin_prompt context examples num_posts) = Py.Ok rl
           /\ run Orchestrator.XAgent
                  (Orchestrator.x_prompt context examples num_posts) = Py.Ok rx
           /\ OrchestratorTrace.calls_of Orchestrator.OrchestratorAgent trace
              = [Orchestrator.validation_prompt context examples
                   (Orchestrator.content_of rl) (Orchestrator.content_of rx)]).
Proof.
  cbv zeta. unfold Orchestrator.execute_workflow.
  rewrite events_bind, parallel_events.
  destruct (Py.outcome (Orchestrator._execute_agents_parallel _ _ _ _ _))
    as [outputs|e] eqn:P.
  - apply parallel_outcome_ok in P. destruct P as (rl & rx & Hl & Hx & ->).
    rewrite !calls_of_app, compile_events. cbn [fst snd Orchestrator.posts].
    rewrite calls_of_interleave_l, calls_of_interleave_r by reflexivity.
    rewrite (calls_of_interleave_l Orchestrator.OrchestratorAgent) by reflexivity.
    repeat split. right. exists rl, rx. auto.
  - rewrite calls_of_interleave_l, calls_of_interleave_r by reflexivity.
    rewrite (calls_of_interleave_l Orchestrator.OrchestratorAgent) by reflexivity.
    repeat split. now left.
Qed.

(** X2. When both generators return and the validation call raises,
    [execute_workflow] raises that exception and returns no report:
    the generated posts are lost with it. *)
Theorem validation_failure_propagates
  (run : Orchestrator.agent_id -> PyStr.str -> Py.result Orchestrator.RunResponse)
  (sched : Orchestrator.schedule) (context examples : PyStr.str) (num_posts : Z)
  (rl rx : Orchestrator.RunResponse) (e : Py.exn) :
  run Orchestrator.LinkedInAgent
      (Orchestrator.linkedin_prompt context examples num_posts) = Py.Ok rl ->
  run Orchestrator.XAgent
      (Orchestrator.x_prompt context examples num_posts) = Py.Ok rx ->
  run Orchestrator.OrchestratorAgent
      (Orchestrator.validation_prompt context examples
         (Orchestrator.content_of rl) (Orchestrator.content_of rx)) = Py.Raise e ->
  Py.outcome (Orchestrator.execute_workflow run sched context examples num_posts)
  = Py.Raise e.
Proof.
  intros Hl Hx Hv. unfold Orchestrator.execute_workflow.
  rewrite outcome_bind, (parallel_outcome_of_returns _ sched _ _ _ Hl Hx).
  cbn [fst snd]. rewrite compile_outcome. cbn [Orchestrator.posts].
  now rewrite Hv.
Qed.

Lemma validation_failure_propagates_witness :
  Py.outcome (Orchestrator.execute_workflow MoreSamples.validation_failing_run
                Samples.sample_schedule Samples.sample_context
                Samples.sample_examples 2)
  = Py.Raise (Py.RemoteError (PyStr.lit "rate limit")).
Proof.
  apply (@validation_failure_propagates MoreSamples.validation_failing_run
           Samples.sample_schedule Samples.sample_context Samples.sample_examples
           2 (Orchestrator.WithContent (PyStr.lit "Post 1"))
           (Orchestrator.WithContent (PyStr.lit "Post 1"))
           (Py.RemoteError (PyStr.lit "rate limit")));
    reflexivity.
Defined.

(** X3. A returned report means that all three remote calls returned,
    and it carries their texts verbatim: the two generated bodies, the
    validator's answer as the summary (which is not used to reject or
    change anything), the requested count as both totals, and the three
    agent names in a fixed order. *)
Theorem report_is_assembled_from_the_three_answers
  (run : Orchestrator.agent_id -> PyStr.str -> Py.result Orchestrator.RunResponse)
  (sched : Orchestrator.schedule) (context examples : PyStr.str) (num_posts : Z)
  (final_output : Orchestrator.FinalOutput) :
  Py.outcome (Orchestrator.execute_workflow run sched context examples num_posts)
  = Py.Ok final_output ->
  exists rl rx rv,
    run Orchestrator.LinkedInAgent
        (Orchestrator.linkedin_prompt context examples num_posts) = Py.Ok rl
    /\ run Orchestrator.XAgent
           (Orchestrator.x_prompt context examples num_posts) = Py.Ok rx
    /\ run Orchestrator.OrchestratorAgent
           (Orchestrator.validation_prompt context examples
              (Orchestrator.content_of rl) (Orchestrator.content_of rx)) = Py.Ok rv
    /\ Orchestrator.content (Orchestrator.linkedin_posts final_output)
       = Orchestrator.content_of rl
    /\ Orchestrator.content (Orchestrator.x_posts final_output)
       = Orchestrator.content_of rx
    /\ Orchestrator.validation_summary final_output = Orchestrator.content_of rv
    /\ Orchestrator.total_linkedin_posts (Orchestrator.metadata final_output)
       = num_posts
    /\ Orchestrator.total_x_posts (Orchestrator.metadata final_output) = num_posts
    /\ Orchestrator.agents_used (Orchestrator.metadata final_output)
       = [PyStr.lit "LinkedIn Content Creator"; PyStr.lit "X Content Creator";
          PyStr.lit "Master Orchestrator"].
Proof.
  unfold Orchestrator.execute_workflow. rewrite outcome_bind.
  destruct (Py.outcome (Orchestrator._execute_agents_parallel _ _ _ _ _))
    as [outputs|e] eqn:P; [|discriminate].
  apply parallel_outcome_ok in P. destruct P as (rl & rx & Hl & Hx & ->).
  cbn [fst snd]. rewrite compile_outcome. cbn [Orchestrator.posts].
  destruct (run Orchestrator.OrchestratorAgent _) as [rv|e] eqn:Hv; [|discriminate].
  intros [= <-]. exists rl, rx, rv. repeat split; assumption.
Qed.

Lemma report_is_assembled_from_the_three_answers_witness :
  exists final_output,
    Py.outcome (Orchestrator.execute_workflow Samples.sample_run
                  Samples.sample_schedule Samples.sample_context
                  Samples.sample_examples 2) = Py.Ok final_output
    /\ Orchestrator.validation_summary final_output = PyStr.lit "Post 1".
Proof.
  eexists. split; [reflexivity|].
  destruct (report_is_assembled_from_the_three_answers Samples.sample_run
              Samples.sample_schedule Samples.sample_context
              Samples.sample_examples 2 eq_refl)
    as (rl & rx & rv & _ & _ & Hv & _ & _ & Hs & _).
  rewrite Hs. injection Hv as <-. reflexivity.
Defined.

(** X4. The outcome does not depend on how the two tasks interleave.
    It depends on the order in which the futures are yielded only when
    both generators fail: then the exception of the one yielded first is
    raised; when exactly one fails, it is that one's exception. *)
Theorem outcome_and_schedule
  (run : Orchestrator.agent_id -> PyStr.str -> Py.result Orchestrator.RunResponse)
  (context examples : PyStr.str) (num_posts : Z) :
  let outcome_under sched :=
    Py.outcome (Orchestrator.execute_workflow run sched context examples num_posts) in
  let linkedin :=
    run Orchestrator.LinkedInAgent
        (Orchestrator.linkedin_prompt context examples num_posts) in
  let x :=
    run Orchestrator.XAgent (Orchestrator.x_prompt context examples num_posts) in
  (forall steps1 steps2 first,
      outcome_under {| Orchestrator.steps := steps1;
                       Orchestrator.linkedin_first := first |}
      = outcome_under {| Orchestrator.steps := steps2;
                         Orchestrator.linkedin_first := first |})
  /\ (forall sched1 sched2 r,
         linkedin = Py.Ok r \/ x = Py.Ok r ->
         outcome_under sched1 = outcome_under sched2)
  /\ (forall sched el ex,
         linkedin = Py.Raise el -> x = Py.Raise ex ->
         outcome_under sched
         = Py.Raise (if Orchestrator.linkedin_first sched then el else ex)).
Proof.
  cbv zeta. unfold Orchestrator.execute_workflow.
  split; [|split].
  - intros steps1 steps2 first. rewrite !outcome_bind. reflexivity.
  - intros sched1 sched2 r H. rewrite !outcome_bind, !parallel_outcome_cases.
    destruct H as [H|H]; rewrite H;
      destruct (run Orchestrator.LinkedInAgent _), (run Orchestrator.XAgent _);
      try discriminate H; reflexivity.
  - intros sched el ex Hl Hx.
    rewrite outcome_bind, parallel_outcome_cases, Hl, Hx. reflexivity.
Qed.

Lemma outcome_and_schedule_witness :
  Py.outcome (Orchestrator.execute_workflow Samples.failing_run
                Samples.sample_schedule Samples.sample_context
                Samples.sample_examples 2)
  = Py.outcome (Orchestrator.execute_workflow Samples.failing_run
                  {| Orchestrator.steps := [];
                     Orchestrator.linkedin_first := false |}
                  Samples.sample_context Samples.sample_examples 2).
Proof.
  apply (proj1 (proj2 (outcome_and_schedule Samples.failing_run
                         Samples.sample_context Samples.sample_examples 2))
           Samples.sample_schedule
           {| Orchestrator.steps := []; Orchestrator.linkedin_first := false |}
           (Orchestrator.WithContent (PyStr.lit "Post 1"))).
  right. reflexivity.
Defined.

(* ================================================================== *)
(** * More about the UI filter *)
(* ================================================================== *)

Section LineFacts.
Import PyStr App Lines.

Lemma join_length_le (kept lines : list str) :
  remains kept lines ->
  (List.length (join [NL] kept) <= List.length (join [NL] lines))%nat.
Proof.
  induction 1 as [|l kept lines H IH|l kept lines H IH]; [simpl; lia| |].
  - destruct kept as [|k kept].
    + destruct lines as [|m lines]; [lia|].
      rewrite (@join_cons [NL] l (m :: lines)) by discriminate.
      change (join [NL] [l]) with l. rewrite length_app. lia.
    + destruct lines as [|m lines]; [inversion H|].
      rewrite (@join_cons [NL] l (k :: kept)), (@join_cons [NL] l (m :: lines))
        by discriminate.
      remember (join [NL] (k :: kept)) as j1.
      remember (join [NL] (m :: lines)) as j2.
      rewrite !length_app. lia.
  - destruct lines as [|m lines]; [inversion H; simpl; lia|].
    rewrite (@join_cons [NL] l (m :: lines)) by discriminate.
    remember (join [NL] (m :: lines)) as j2.
    rewrite !length_app. lia.
Qed.

Lemma filter_lines_remains (skip : bool) (lines : list str) :
  remains (filter_lines skip lines) lines.
Proof.
  revert skip; induction lines as [|line rest IH]; intros skip; simpl.
  - constructor.
  - destruct (contains VALIDATION_MARKER line); [constructor; apply IH|].
    destruct (negb _); constructor; apply IH.
Qed.

(** Up to the first header line nothing is dropped. *)
Lemma filter_lines_unmarked_prefix (before rest : list str) :
  Forall (fun l => contains VALIDATION_MARKER l = false) before ->
  filter_lines false (before ++ rest) = before ++ filter_lines false rest.
Proof.
  induction 1 as [|line before Hl _ IH]; simpl; [reflexivity|].
  rewrite Hl. simpl. now rewrite IH.
Qed.

(** While skipping, lines that name no post section are dropped. *)
Lemma filter_lines_skips (dropped rest : list str) :
  Forall (fun l => contains LINKEDIN_MARKER l = false
                   /\ contains X_MARKER l = false) dropped ->
  filter_lines true (dropped ++ rest) = filter_lines true rest.
Proof.
  induction 1 as [|line dropped [Hl Hx] _ IH]; simpl; [reflexivity|].
  rewrite Hl, Hx. simpl. destruct (contains VALIDATION_MARKER line); exact IH.
Qed.

(** A line that names a post section and not the validation header is
    kept, whatever came before it. *)
Lemma filter_lines_keeps_section (skip : bool) (before rest : list str) (h : str) :
  contains VALIDATION_MARKER h = false ->
  contains LINKEDIN_MARKER h || contains X_MARKER h = true ->
  In h (filter_lines skip (before ++ h :: rest)).
Proof.
  intros Hv Hs. revert skip; induction before as [|line before IH]; intros skip.
  - simpl. rewrite Hv, Hs. destruct skip; simpl; now left.
  - simpl. destruct (contains VALIDATION_MARKER line); [apply IH|].
    destruct (negb _); [right|]; apply IH.
Qed.

Lemma split_app_any (sep : char) (l r : str) :
  split sep (l ++ sep :: r)
  = match split sep l with
    | [] => split sep r
    | _ :: _ => split sep l ++ split sep r
    end.
Proof.
  induction l as [|c l IH]; simpl.
  - now rewrite N.eqb_refl.
  - destruct (N.eqb c sep); [rewrite IH|].
    + pose proof (split_not_nil sep l). destruct (split sep l); [congruence|reflexivity].
    + rewrite IH. pose proof (split_not_nil sep l).
      destruct (split sep l); [congruence|reflexivity].
Qed.

(** The lines of joined elements are the lines of the elements. *)
Lemma split_join_elements (elements : list str) :
  elements <> [] ->
  split NL (join [NL] elements) = List.concat (map (split NL) elements).
Proof.
  induction elements as [|e elements IH]; [congruence|]. intros _.
  destruct elements as [|e' elements].
  - simpl. now rewrite app_nil_r.
  - rewrite join_cons by discriminate. cbn [app].
    rewrite split_app_any. pose proof (split_not_nil NL e).
    destruct (split NL e) eqn:E; [congruence|].
    rewrite IH by discriminate. cbn [map List.concat]. now rewrite E.
Qed.

Lemma join_lines_of_elements (elements : list str) :
  elements <> [] ->
  join [NL] (List.concat (map (split NL) elements)) = join [NL] elements.
Proof.
  intros H. rewrite <- split_join_elements by assumption. apply join_split.
Qed.

(** A text without the marker has no line with the marker. *)
Lemma lines_without (p s : str) :
  contains p s = false ->
  Forall (fun l => contains p l = false) (split NL s).
Proof.
  intros H. apply Forall_forall. intros l Hl.
  destruct (contains p l) eqn:E; [|reflexivity].
  rewrite <- (join_split NL s), (@join_contains p [NL] (split NL s)) in H;
    [discriminate|].
  apply Exists_exists. eauto.
Qed.

(** A match starts with the pattern's first character. *)
Lemma contains_needs_head (c : char) (p s : str) :
  contains (c :: p) s = true -> In c s.
Proof.
  induction s as [|d s IH]; simpl; [discriminate|].
  rewrite !orb_true_iff, andb_true_iff, N.eqb_eq. intros [[-> _]|H]; auto.
Qed.

Lemma contains_after_prefix (c : char) (p a s : str) :
  ~ In c a -> contains (c :: p) s = false -> contains (c :: p) (a ++ s) = false.
Proof.
  intros Ha Hs. induction a as [|d a IH]; [exact Hs|].
  change ((d :: a) ++ s) with (d :: (a ++ s)). cbn [contains startswith].
  rewrite IH by (intros H; apply Ha; now right).
  destruct (N.eqb c d) eqn:E; [|reflexivity].
  apply N.eqb_eq in E. exfalso; apply Ha; now left.
Qed.

Lemma lit_is_ascii (c : char) (s : string) : (256 <= c)%N -> ~ In c (lit s).
Proof.
  intros Hc. unfold lit. rewrite in_map_iff. intros [a [<- _]].
  pose proof (N_ascii_bounded a). lia.
Qed.

End LineFacts.

(** X5. [filter_summary_from_output] only deletes lines: its result is
    the join of lines of the input, in their order, none of which
    mentions the validation header, and it is never longer than the
    input. *)
Theorem filter_only_deletes_lines (output_text : PyStr.str) :
  exists kept,
    App.filter_summary_from_output output_text = PyStr.join [PyStr.NL] kept
    /\ Lines.remains kept (PyStr.split PyStr.NL output_text)
    /\ Forall (fun l => PyStr.contains App.VALIDATION_MARKER l = false) kept
    /\ (PyStr.len (App.filter_summary_from_output output_text)
        <= PyStr.len output_text)%Z.
Proof.
  exists (App.filter_lines false (PyStr.split PyStr.NL output_text)).
  split; [reflexivity|]. split; [apply filter_lines_remains|].
  split; [apply filter_lines_drop_marker|].
  unfold PyStr.len, App.filter_summary_from_output.
  rewrite <- (join_split PyStr.NL output_text) at 2.
  apply inj_le, join_length_le, filter_lines_remains.
Qed.

(** X6. When a line mentions the validation header and no later line
    names a post section, the filter removes everything from that line
    to the end of the text. *)
Theorem filter_drops_to_the_end_without_section
  (output_text : PyStr.str) (before after : list PyStr.str) (header : PyStr.str) :
  PyStr.split PyStr.NL output_text = before ++ header :: after ->
  PyStr.contains App.VALIDATION_MARKER header = true ->
  forallb (fun l => negb (PyStr.contains App.LINKEDIN_MARKER l)
                    && negb (PyStr.contains App.X_MARKER l)) after = true ->
  App.filter_summary_from_output output_text
  = App.filter_summary_from_output (PyStr.join [PyStr.NL] before).
Proof.
  intros Hs Hh Ha.
  assert (Hd : forall skip, App.filter_lines skip (header :: after) = []).
  { intros skip. simpl. rewrite Hh.
    rewrite <- (app_nil_r after), filter_lines_skips by
      (apply Forall_forall; intros l Hl; rewrite forallb_forall in Ha;
       apply Ha in Hl; apply andb_true_iff in Hl; destruct Hl as [H1 H2];
       apply negb_true_iff in H1, H2; auto).
    reflexivity. }
  assert (Hb : forall skip lines,
             App.filter_lines skip (lines ++ header :: after)
             = App.filter_lines skip lines).
  { intros skip lines; revert skip. induction lines as [|l lines IH]; intros skip.
    - apply Hd.
    - simpl. destruct (PyStr.contains App.VALIDATION_MARKER l); [apply IH|].
      destruct (negb _); [f_equal|]; apply IH. }
  unfold App.filter_summary_from_output. rewrite Hs, Hb.
  destruct before as [|b before].
  - reflexivity.
  - rewrite split_join; [reflexivity | discriminate |].
    pose proof (split_lines_no_sep PyStr.NL output_text) as F.
    rewrite Hs in F. apply Forall_app in F. tauto.
Qed.

Lemma filter_drops_to_the_end_without_section_witness :
  App.filter_summary_from_output
    (PyStr.lit "Posts
" ++ App.VALIDATION_MARKER ++ PyStr.lit "
All good")
  = App.filter_summary_from_output (PyStr.join [PyStr.NL] [PyStr.lit "Posts"]).
Proof.
  apply (filter_drops_to_the_end_without_section
           (PyStr.lit "Posts
" ++ App.VALIDATION_MARKER ++ PyStr.lit "
All good")
           [PyStr.lit "Posts"] [PyStr.lit "All good"] App.VALIDATION_MARKER);
    reflexivity.
Defined.

(* ================================================================== *)
(** * The filter applied to a rendered report *)
(* ================================================================== *)

Section ReportFilterFacts.
Import PyStr App Lines Orchestrator.

#[local] Arguments split : simpl never.
#[local] Arguments contains : simpl never.
#[local] Arguments join : simpl never.
#[local] Arguments times : simpl never.
#[local] Arguments lit : simpl never.
#[local] Arguments of_int : simpl never.

Lemma filter_lines_header (skip : bool) (h : str) (rest : list str) :
  contains VALIDATION_MARKER h = true ->
  filter_lines skip (h :: rest) = filter_lines true rest.
Proof. intros H. cbn [filter_lines]. now rewrite H. Qed.

Lemma filter_lines_section (skip : bool) (h : str) (rest : list str) :
  contains VALIDATION_MARKER h = false ->
  contains LINKEDIN_MARKER h || contains X_MARKER h = true ->
  filter_lines skip (h :: rest) = h :: filter_lines false rest.
Proof.
  intros Hv Hs. cbn [filter_lines]. rewrite Hv, Hs.
  destruct skip; reflexivity.
Qed.

Lemma element_lines_without (p : str) (elements : list str) :
  Forall (fun e => contains p e = false) elements ->
  Forall (fun l => contains p l = false) (List.concat (map (split NL) elements)).
Proof.
  induction 1 as [|e elements He _ IH]; cbn [map List.concat]; [constructor|].
  apply Forall_app. split; [now apply lines_without | exact IH].
Qed.

(** A text free of the magnifying-glass character is free of the
    validation header. *)
Lemma no_glass_no_marker (s : str) :
  ~ In 128269%N s -> contains VALIDATION_MARKER s = false.
Proof.
  intros H. destruct (contains VALIDATION_MARKER s) eqn:E; [|reflexivity].
  apply contains_needs_head in E. contradiction.
Qed.

Lemma labelled_without_marker (label : string) (s : str) :
  contains VALIDATION_MARKER s = false ->
  contains VALIDATION_MARKER (lit label ++ s) = false.
Proof.
  intros H. apply contains_after_prefix; [|exact H].
  apply lit_is_ascii. lia.
Qed.

Lemma counted_without_marker (label : string) (n : Z) :
  contains VALIDATION_MARKER (lit label ++ of_int n) = false.
Proof.
  apply labelled_without_marker, no_glass_no_marker.
  unfold of_int. apply lit_is_ascii. lia.
Qed.

End ReportFilterFacts.

(** X7. When no field of the report mentions the validation header and
    the validation summary names neither post section, the UI text is
    the report without the four elements of its validation block
    (header, rule, summary, blank), everything else unchanged. *)
Theorem ui_output_is_report_without_validation_block
  (upper : PyStr.str -> PyStr.str) (final_output : Orchestrator.FinalOutput) :
  let clean s := PyStr.contains App.VALIDATION_MARKER s = false in
  clean (upper (Orchestrator.workflow_status final_output)) ->
  clean (Orchestrator.context_provided (Orchestrator.metadata final_output)) ->
  clean (PyStr.join (PyStr.lit ", ")
           (Orchestrator.agents_used (Orchestrator.metadata final_output))) ->
  clean (Orchestrator.posts_platform (Orchestrator.linkedin_posts final_output)) ->
  clean (Orchestrator.content (Orchestrator.linkedin_posts final_output)) ->
  clean (Orchestrator.posts_platform (Orchestrator.x_posts final_output)) ->
  clean (Orchestrator.content (Orchestrator.x_posts final_output)) ->
  PyStr.contains App.LINKEDIN_MARKER
    (Orchestrator.validation_summary final_output) = false ->
  PyStr.contains App.X_MARKER
    (Orchestrator.validation_summary final_output) = false ->
  App.filter_summary_from_output (Orchestrator.format_output upper final_output)
  = PyStr.join [PyStr.NL]
      (Lines.without_validation_block
         (Orchestrator.output_lines upper final_output)).
Proof.
  cbv beta zeta. intros Hst Hctx Hag Hlp Hlc Hxp Hxc Hsl Hsx.
  unfold App.filter_summary_from_output, Orchestrator.format_output.
  rewrite split_join_elements by discriminate.
  rewrite <- (@join_lines_of_elements
                (Lines.without_validation_block
                   (Orchestrator.output_lines upper final_output)))
    by (unfold Lines.without_validation_block, Orchestrator.output_lines;
        cbn [firstn app]; discriminate).
  f_equal. unfold Lines.without_validation_block.
  set (ol := Orchestrator.output_lines upper final_output).
  assert (Hhead : Forall (fun e => PyStr.contains App.VALIDATION_MARKER e = false)
                         (firstn 11 ol)).
  { unfold ol, Orchestrator.output_lines. cbn [firstn].
    repeat apply Forall_cons; try apply Forall_nil;
      try reflexivity; try (now apply labelled_without_marker);
      try apply counted_without_marker. }
  assert (Htail : Forall (fun e => PyStr.contains App.VALIDATION_MARKER e = false)
                         (skipn 16 ol)).
  { unfold ol, Orchestrator.output_lines. cbn [skipn].
    repeat apply Forall_cons; try apply Forall_nil;
      try reflexivity; try (now apply labelled_without_marker);
      try apply counted_without_marker; assumption. }
  assert (Hblock : Forall (fun l => PyStr.contains App.LINKEDIN_MARKER l = false
                                    /\ PyStr.contains App.X_MARKER l = false)
                          (List.concat (map (PyStr.split PyStr.NL)
                                            (firstn 3 (skipn 12 ol))))).
  { apply Forall_forall. intros l Hl. split.
    - assert (F : Forall (fun e => PyStr.contains App.LINKEDIN_MARKER e = false)
                         (firstn 3 (skipn 12 ol)))
        by (unfold ol, Orchestrator.output_lines; cbn [firstn skipn];
            repeat apply Forall_cons; try apply Forall_nil;
            (reflexivity || assumption)).
      apply element_lines_without in F. rewrite Forall_forall in F. now apply F.
    - assert (F : Forall (fun e => PyStr.contains App.X_MARKER e = false)
                         (firstn 3 (skipn 12 ol)))
        by (unfold ol, Orchestrator.output_lines; cbn [firstn skipn];
            repeat apply Forall_cons; try apply Forall_nil;
            (reflexivity || assumption)).
      apply element_lines_without in F. rewrite Forall_forall in F. now apply F. }
  replace ol with (firstn 11 ol ++ Orchestrator.VALIDATION_HEADER
                     :: firstn 3 (skipn 12 ol)
                     ++ Orchestrator.LINKEDIN_HEADER :: skipn 16 ol) at 1
    by reflexivity.
  replace (skipn 15 ol) with (Orchestrator.LINKEDIN_HEADER :: skipn 16 ol)
    by reflexivity.
  rewrite !map_app, !concat_app. cbn [map List.concat].
  rewrite !map_app, !concat_app. cbn [map List.concat].
  change (PyStr.split PyStr.NL Orchestrator.VALIDATION_HEADER)
    with [Orchestrator.VALIDATION_HEADER].
  change (PyStr.split PyStr.NL Orchestrator.LINKEDIN_HEADER)
    with [Orchestrator.LINKEDIN_HEADER].
  cbn [app].
  rewrite filter_lines_unmarked_prefix by (now apply element_lines_without).
  f_equal.
  rewrite filter_lines_header by reflexivity.
  rewrite filter_lines_skips by exact Hblock.
  rewrite filter_lines_section by reflexivity.
  f_equal. apply filter_lines_unmarked. now apply element_lines_without.
Qed.

Lemma ui_output_is_report_without_validation_block_witness :
  App.filter_summary_from_output
    (Orchestrator.format_output Samples.ascii_upper Samples.sample_report)
  = PyStr.join [PyStr.NL]
      (Lines.without_validation_block
         (Orchestrator.output_lines Samples.ascii_upper Samples.sample_report)).
Proof.
  apply (ui_output_is_report_without_validation_block Samples.ascii_upper
           Samples.sample_report); reflexivity.
Defined.

(** X8. Whatever the report holds, the two post-section headers are
    kept in the UI text: a validation header inside a field can drop
    lines only up to the next section header. *)
Theorem ui_output_keeps_both_section_headers
  (upper : PyStr.str -> PyStr.str) (final_output : Orchestrator.FinalOutput) :
  PyStr.contains Orchestrator.LINKEDIN_HEADER
    (App.filter_summary_from_output
       (Orchestrator.format_output upper final_output)) = true
  /\ PyStr.contains Orchestrator.X_HEADER
       (App.filter_summary_from_output
          (Orchestrator.format_output upper final_output)) = true.
Proof.
  unfold App.filter_summary_from_output, Orchestrator.format_output.
  rewrite split_join_elements by discriminate.
  set (ol := Orchestrator.output_lines upper final_output).
  split; apply join_contains, Exists_exists.
  - exists Orchestrator.LINKEDIN_HEADER. split; [|reflexivity].
    replace ol with (firstn 15 ol ++ Orchestrator.LINKEDIN_HEADER :: skipn 16 ol)
      by reflexivity.
    rewrite map_app, concat_app. cbn [map List.concat].
    change (PyStr.split PyStr.NL Orchestrator.LINKEDIN_HEADER)
      with [Orchestrator.LINKEDIN_HEADER].
    cbn [app]. apply filter_lines_keeps_section; reflexivity.
  - exists Orchestrator.X_HEADER. split; [|reflexivity].
    replace ol with (firstn 22 ol ++ Orchestrator.X_HEADER :: skipn 23 ol)
      by reflexivity.
    rewrite map_app, concat_app. cbn [map List.concat].
    change (PyStr.split PyStr.NL Orchestrator.X_HEADER)
      with [Orchestrator.X_HEADER].
    cbn [app]. apply filter_lines_keeps_section; reflexivity.
Qed.

(* ================================================================== *)
(** * More about the scrapers *)
(* ================================================================== *)

Section StripFacts.
Import PyStr.

Lemma lstrip_idempotent (s : str) : lstrip (lstrip s) = lstrip s.
Proof.
  induction s as [|c s IH]; [reflexivity|].
  simpl. destruct (isspace c) eqn:E; [exact IH|].
  simpl. now rewrite E.
Qed.

Lemma lstrip_keeps_last (u : str) (c : char) :
  isspace c = false -> lstrip (u ++ [c]) = lstrip u ++ [c].
Proof.
  intros Hc. induction u as [|d u IH]; simpl.
  - now rewrite Hc.
  - destruct (isspace d); [exact IH | reflexivity].
Qed.

Lemma rstrip_keeps_first (c : char) (t : str) :
  isspace c = false -> rstrip (c :: t) = c :: rstrip t.
Proof.
  intros Hc. unfold rstrip. simpl rev.
  rewrite lstrip_keeps_last by assumption.
  now rewrite rev_app_distr.
Qed.

Lemma lstrip_head (s : str) :
  lstrip s = [] \/ exists c t, lstrip s = c :: t /\ isspace c = false.
Proof.
  induction s as [|c s IH]; [now left|].
  simpl. destruct (isspace c) eqn:E; [exact IH|].
  right. now exists c, s.
Qed.

Lemma rstrip_idempotent (s : str) : rstrip (rstrip s) = rstrip s.
Proof.
  unfold rstrip. now rewrite rev_involutive, lstrip_idempotent.
Qed.

(** Stripping twice is stripping once. *)
Lemma strip_idempotent (s : str) : strip (strip s) = strip s.
Proof.
  unfold strip.
  destruct (lstrip_head s) as [H|(c & t & H & Hc)]; rewrite H.
  - reflexivity.
  - rewrite rstrip_keeps_first by assumption.
    simpl lstrip. rewrite Hc.
    rewrite <- rstrip_keeps_first by assumption.
    apply rstrip_idempotent.
Qed.

Lemma replace_without_occurrence (old new s : str) :
  contains old s = false -> replace old new s = s.
Proof.
  unfold replace. induction s as [|c s IH]; [reflexivity|].
  cbn [contains replace_from]. intros H.
  apply orb_false_iff in H. destruct H as [H1 H2].
  rewrite H1. f_equal. now apply IH.
Qed.

Lemma join_not_empty (d e : str) (es : list str) :
  e <> [] -> join d (e :: es) <> [].
Proof.
  intros He. destruct es; cbn [join]; [exact He|].
  destruct e; [congruence | discriminate].
Qed.

End StripFacts.

Section ExtractFacts.
Import PyStr Py PostsSpec FetcherSpec.

#[local] Arguments PyStr.strip : simpl never.
#[local] Arguments len : simpl never.
#[local] Arguments startswith : simpl never.


Lemma x_extract_loop_strings (items : list dict) :
  forallb (fun item => is_str (x_text item)) items = true ->
  forall posts,
    XPosts.extract_loop items posts
    = Ok (posts ++ filter XPosts.keeps
                     (map (fun item => stripped (x_text item)) items)).
Proof.
  induction items as [|item rest IH]; simpl; intros H posts.
  - now rewrite app_nil_r.
  - apply andb_true_iff in H. destruct H as [Hi Hr].
    unfold x_text in *.
    destruct (dict_get item (lit "text") _) as [s| |]; try discriminate.
    simpl. destruct (XPosts.keeps (PyStr.strip s)).
    + rewrite IH by assumption. now rewrite <- app_assoc.
    + now apply IH.
Qed.


End ExtractFacts.



(** X10. On records whose text is a string (or absent), X's
    [extract_post_text_only] returns, in order, the stripped texts that
    are non-empty, have at least 10 characters and do not start with
    "RT @"; each returned text is already stripped. *)
Theorem x_extract_keeps_stripped_texts (items : list Py.dict) :
  forallb (fun item => PostsSpec.is_str (FetcherSpec.x_text item)) items = true ->
  exists posts,
    XPosts.extract_post_text_only items = Py.Ok posts
    /\ posts = filter XPosts.keeps
                 (map (fun item => PostsSpec.stripped (FetcherSpec.x_text item))
                      items)
    /\ Forall (fun text =>
                 PyStr.strip text = text /\ (10 <= PyStr.len text)%Z
                 /\ PyStr.startswith (PyStr.lit "RT @") text = false) posts.
Proof.
  intros H. unfold XPosts.extract_post_text_only.
  rewrite x_extract_loop_strings by assumption. cbn [app].
  eexists. split; [reflexivity|]. split; [reflexivity|].
  apply Forall_forall. intros text Ht.
  apply filter_In in Ht. destruct Ht as [Hin Hk].
  apply in_map_iff in Hin. destruct Hin as [item [<- Hitem]].
  rewrite forallb_forall in H. specialize (H item Hitem).
  unfold PostsSpec.stripped in *.
  destruct (FetcherSpec.x_text item) as [s| |]; try discriminate.
  split; [apply strip_idempotent|].
  unfold XPosts.keeps in Hk.
  destruct (PyStr.strip s) eqn:E; [discriminate|].
  apply andb_true_iff in Hk. destruct Hk as [H1 H2].
  apply Z.geb_le in H1. apply negb_true_iff in H2. auto.
Qed.

Lemma x_extract_keeps_stripped_texts_witness :
  exists posts,
    XPosts.extract_post_text_only [Samples.long_post; Samples.short_post]
    = Py.Ok posts /\ List.length posts = 1%nat.
Proof.
  destruct (x_extract_keeps_stripped_texts
              [Samples.long_post; Samples.short_post] eq_refl)
    as (posts & H & Hp & _).
  exists posts. split; [exact H|]. rewrite Hp. reflexivity.
Defined.

(** X11. Both [extract_post_text_only] functions raise [AttributeError]
    at the first record whose text is not a string, even a [null] that
    [_format_as_examples] would skip. *)
Theorem extract_raises_on_non_string_text
  (before after : list Py.dict) (item : Py.dict) :
  (forallb (fun i => PostsSpec.is_str (FetcherSpec.li_text i)) before = true ->
   PostsSpec.is_str (FetcherSpec.li_text item) = false ->
   LinkedInPosts.extract_post_text_only (before ++ item :: after)
   = Py.Raise (Py.no_attribute (FetcherSpec.li_text item) (PyStr.lit "strip")))
  /\ (forallb (fun i => PostsSpec.is_str (FetcherSpec.x_text i)) before = true ->
      PostsSpec.is_str (FetcherSpec.x_text item) = false ->
      XPosts.extract_post_text_only (before ++ item :: after)
      = Py.Raise (Py.no_attribute (FetcherSpec.x_text item) (PyStr.lit "strip"))).
Proof.
  unfold LinkedInPosts.extract_post_text_only, XPosts.extract_post_text_only.
  split; intros Hb Hi; generalize (@nil PyStr.str).
  - induction before as [|b before IH]; intros posts.
    + cbn [app LinkedInPosts.extract_loop]. unfold FetcherSpec.li_text in Hi |- *.
      destruct (Py.dict_get item _ _); [discriminate| |]; reflexivity.
    + simpl in Hb. apply andb_true_iff in Hb. destruct Hb as [Hb1 Hb2].
      cbn [app LinkedInPosts.extract_loop]. unfold FetcherSpec.li_text in Hb1.
      destruct (Py.dict_get b _ _) as [s| |]; try discriminate.
      cbn [Py.strip Py.rbind].
      destruct (LinkedInPosts.keeps _); now apply IH.
  - induction before as [|b before IH]; intros posts.
    + cbn [app XPosts.extract_loop]. unfold FetcherSpec.x_text in Hi |- *.
      destruct (Py.dict_get item _ _); [discriminate| |]; reflexivity.
    + simpl in Hb. apply andb_true_iff in Hb. destruct Hb as [Hb1 Hb2].
      cbn [app XPosts.extract_loop]. unfold FetcherSpec.x_text in Hb1.
      destruct (Py.dict_get b _ _) as [s| |]; try discriminate.
      cbn [Py.strip Py.rbind].
      destruct (XPosts.keeps _); now apply IH.
Qed.

Lemma extract_raises_on_non_string_text_witness :
  LinkedInPosts.extract_post_text_only
    [Samples.long_post; [(PyStr.lit "text", Py.PyNone)]; Samples.long_post]
  = Py.Raise (Py.AttributeError
                (PyStr.lit "'NoneType' object has no attribute 'strip'"))
  /\ LinkedInScraper._format_as_examples Samples.no_repr
       [Samples.long_post; [(PyStr.lit "text", Py.PyNone)]]
     = Py.Ok (FetcherSpec.li_rendered Samples.no_repr (1%Z, Samples.long_post)).
Proof.
  split; [|reflexivity].
  apply (proj1 (extract_raises_on_non_string_text [Samples.long_post]
                  [Samples.long_post] [(PyStr.lit "text", Py.PyNone)]));
    reflexivity.
Defined.

(** X12. Whenever either [_format_as_examples] returns, the text is not
    empty: it is the placeholder or starts with an example heading. *)
Theorem formatted_examples_never_empty
  (repr_dict : Py.dict -> PyStr.str) (items : list Py.dict) (out : PyStr.str) :
  LinkedInScraper._format_as_examples repr_dict items = Py.Ok out
  \/ XScraper._format_as_examples repr_dict items = Py.Ok out ->
  out <> [].
Proof.
  intros [H|H]; [apply li_format_sound in H | apply x_format_sound in H];
    subst out; unfold FetcherSpec.formatted;
    destruct (FetcherSpec.survivors _ items) as [|entry entries];
    try discriminate; cbn [map]; apply join_not_empty; discriminate.
Qed.

Lemma formatted_examples_never_empty_witness :
  exists out,
    LinkedInScraper._format_as_examples Samples.no_repr [Samples.short_post]
    = Py.Ok out
    /\ match out with [] => False | _ :: _ => True end.
Proof.
  exists LinkedInScraper.NO_EXAMPLES. split; [reflexivity|].
  generalize (@formatted_examples_never_empty Samples.no_repr
                [Samples.short_post] LinkedInScraper.NO_EXAMPLES
                (or_introl eq_refl)).
  destruct LinkedInScraper.NO_EXAMPLES; [intros H; now apply H | intros _; exact I].
Defined.

Section FetchFacts.
Import PyStr Py.

Variable token : option str.
Variable dataset_items : str -> result (list dict).
Variable json_dumps : dict -> str.
Variable json_dumps_all : list dict -> str.
Variable repr_dict : dict -> str.

(** The LinkedIn fetch, case by case. *)
Lemma linkedin_fetch_cases
  (actor_call : str -> LinkedInScraper.run_input -> result str)
  (urls : list str) (limit_per_source : Z) (output_file : str)
  (format_as_examples : bool) :
  let input := {| LinkedInScraper.urls := urls;
                  LinkedInScraper.limitPerSource := limit_per_source |} in
  let call := ActorCall (lit "supreme_coder/linkedin-post") input in
  LinkedInScraper.scrape_linkedin_posts token actor_call dataset_items json_dumps
    json_dumps_all repr_dict urls limit_per_source output_file format_as_examples
  = if LinkedInScraper.token_missing token
    then ([], Raise LinkedInScraper.TOKEN_ERROR)
    else
      match actor_call (lit "supreme_coder/linkedin-post") input with
      | Raise e => ([call], Raise e)
      | Ok id =>
          match dataset_items id with
          | Raise e => ([call; DatasetRead id], Raise e)
          | Ok items =>
              let raw := FileWrite output_file
                           (LinkedInScraper.raw_output json_dumps items) in
              if format_as_examples then
                match LinkedInScraper._format_as_examples repr_dict items with
                | Raise e => ([call; DatasetRead id; raw], Raise e)
                | Ok text =>
                    ([call; DatasetRead id; raw;
                      FileWrite (replace (lit ".txt") (lit "_examples.txt")
                                         output_file) text],
                     Ok text)
                end
              else ([call; DatasetRead id; raw], Ok (json_dumps_all items))
          end
      end.
Proof.
  cbv zeta. unfold LinkedInScraper.scrape_linkedin_posts.
  destruct (LinkedInScraper.token_missing token); [reflexivity|].
  unfold bind, emit, lift, ret.
  destruct (actor_call _ _) as [id|e]; [|reflexivity].
  destruct (dataset_items id) as [items|e]; [|reflexivity].
  destruct format_as_examples; [|reflexivity].
  destruct (LinkedInScraper._format_as_examples repr_dict items); reflexivity.
Qed.

(** The X fetch, case by case. *)
Lemma x_fetch_cases
  (actor_call : str -> XScraper.run_input -> result str)
  (start_urls search_terms twitter_handles : option (list str))
  (max_items : Z) (sort tweet_language output_file : str)
  (format_as_examples : bool) :
  let input :=
    {| XScraper.maxItems := max_items;
       XScraper.sort := sort;
       XScraper.tweetLanguage := tweet_language;
       XScraper.customMapFunction := lit "(object) => { return {...object} }";
       XScraper.startUrls := XScraper.when_given start_urls;
       XScraper.searchTerms := XScraper.when_given search_terms;
       XScraper.twitterHandles := XScraper.when_given twitter_handles |} in
  let call := ActorCall (lit "apidojo/tweet-scraper") input in
  XScraper.scrape_x_posts token actor_call dataset_items json_dumps
    json_dumps_all repr_dict start_urls search_terms twitter_handles max_items
    sort tweet_language output_file format_as_examples
  = if XScraper.token_missing token
    then ([], Raise XScraper.TOKEN_ERROR)
    else if negb (some_nonempty start_urls || some_nonempty search_terms
                  || some_nonempty twitter_handles)
    then ([], Raise XScraper.NO_INPUT_ERROR)
    else
      match actor_call (lit "apidojo/tweet-scraper") input with
      | Raise e => ([call], Raise e)
      | Ok id =>
          match dataset_items id with
          | Raise e => ([call; DatasetRead id], Raise e)
          | Ok items =>
              let raw := FileWrite output_file (XScraper.raw_output json_dumps items) in
              if format_as_examples then
                match XScraper._format_as_examples repr_dict items with
                | Raise e => ([call; DatasetRead id; raw], Raise e)
                | Ok text =>
                    ([call; DatasetRead id; raw;
                      FileWrite (replace (lit ".txt") (lit "_examples.txt")
                                         output_file) text],
                     Ok text)
                end
              else ([call; DatasetRead id; raw], Ok (json_dumps_all items))
          end
      end.
Proof.
  cbv zeta. unfold XScraper.scrape_x_posts.
  destruct (XScraper.token_missing token); [reflexivity|].
  destruct (negb _); [reflexivity|].
  unfold bind, emit, lift, ret.
  destruct (actor_call _ _) as [id|e]; [|reflexivity].
  destruct (dataset_items id) as [items|e]; [|reflexivity].
  destruct format_as_examples; [|reflexivity].
  destruct (XScraper._format_as_examples repr_dict items); reflexivity.
Qed.

End FetchFacts.



(** X14. The X fetcher never sends an empty selector list to the
    scraping actor: in every actor call it issues, each selector key
    that is present holds a non-empty list, and at least one is
    present. *)
Theorem x_actor_input_has_no_empty_selector
  (token : option PyStr.str)
  (actor_call : PyStr.str -> XScraper.run_input -> Py.result PyStr.str)
  (dataset_items : PyStr.str -> Py.result (list Py.dict))
  (json_dumps : Py.dict -> PyStr.str)
  (json_dumps_all : list Py.dict -> PyStr.str)
  (repr_dict : Py.dict -> PyStr.str)
  (start_urls search_terms twitter_handles : option (list PyStr.str))
  (max_items : Z) (sort tweet_language output_file : PyStr.str)
  (format_as_examples : bool)
  (actor : PyStr.str) (input : XScraper.run_input) :
  In (Py.ActorCall actor input)
     (Py.events
        (XScraper.scrape_x_posts token actor_call dataset_items json_dumps
           json_dumps_all repr_dict start_urls search_terms twitter_handles
           max_items sort tweet_language output_file format_as_examples)) ->
  XScraper.startUrls input <> Some []
  /\ XScraper.searchTerms input <> Some []
  /\ XScraper.twitterHandles input <> Some []
  /\ (Py.some_nonempty (XScraper.startUrls input)
      || Py.some_nonempty (XScraper.searchTerms input)
      || Py.some_nonempty (XScraper.twitterHandles input) = true).
Proof.
  rewrite x_fetch_cases. cbv zeta.
  destruct (XScraper.token_missing token); [intros []|].
  destruct (negb _) eqn:G; [intros []|]. apply negb_false_iff in G.
  assert (Hw : forall l, XScraper.when_given l <> Some []
                         /\ Py.some_nonempty (XScraper.when_given l)
                            = Py.some_nonempty l).
  { intros [[|u l]|]; split; (discriminate || reflexivity). }
  assert (Hin : Py.ActorCall actor input
                = Py.ActorCall (PyStr.lit "apidojo/tweet-scraper")
                    {| XScraper.maxItems := max_items;
                       XScraper.sort := sort;
                       XScraper.tweetLanguage := tweet_language;
                       XScraper.customMapFunction :=
                         PyStr.lit "(object) => { return {...object} }";
                       XScraper.startUrls := XScraper.when_given start_urls;
                       XScraper.searchTerms := XScraper.when_given search_terms;
                       XScraper.twitterHandles :=
                         XScraper.when_given twitter_handles |} ->
                XScraper.startUrls input <> Some []
                /\ XScraper.searchTerms input <> Some []
                /\ XScraper.twitterHandles input <> Some []
                /\ (Py.some_nonempty (XScraper.startUrls input)
                    || Py.some_nonempty (XScraper.searchTerms input)
                    || Py.some_nonempty (XScraper.twitterHandles input) = true)).
  { intros [= _ ->]. cbn [XScraper.startUrls XScraper.searchTerms
                          XScraper.twitterHandles].
    repeat split; try apply Hw.
    now rewrite !(fun l => proj2 (Hw l)). }
  destruct (actor_call _ _) as [id|e].
  - destruct (dataset_items id) as [items|e].
    + destruct format_as_examples;
        [destruct (XScraper._format_as_examples repr_dict items)|];
        simpl; intros H; repeat (destruct H as [H|H]; try discriminate H);
        try contradiction; apply Hin; now symmetry.
    + simpl; intros H; repeat (destruct H as [H|H]; try discriminate H);
        try contradiction; apply Hin; now symmetry.
  - simpl; intros H; repeat (destruct H as [H|H]; try discriminate H);
      try contradiction; apply Hin; now symmetry.
Qed.

Lemma x_actor_input_has_no_empty_selector_witness :
  let input :=
    {| XScraper.maxItems := 20;
       XScraper.sort := PyStr.lit "Latest";
       XScraper.tweetLanguage := PyStr.lit "en";
       XScraper.customMapFunction := PyStr.lit "(object) => { return {...object} }";
       XScraper.startUrls := None;
       XScraper.searchTerms := Some [PyStr.lit "AI automation"];
       XScraper.twitterHandles := None |} in
  Py.some_nonempty (XScraper.startUrls input)
  || Py.some_nonempty (XScraper.searchTerms input)
  || Py.some_nonempty (XScraper.twitterHandles input) = true.
Proof.
  apply (@x_actor_input_has_no_empty_selector Samples.sample_token
           Samples.sample_actor Samples.empty_dataset Samples.sample_dumps
           Samples.sample_dumps_all Samples.no_repr
           (Some []) (Some [PyStr.lit "AI automation"]) None 20
           (PyStr.lit "Latest") (PyStr.lit "en") (PyStr.lit "x_scraped.txt") true
           (PyStr.lit "apidojo/tweet-scraper")).
  simpl. auto.
Defined.

(** X15. When the output file name holds no ".txt", the examples file
    gets the very same name: both fetchers then write the formatted
    examples over the raw output they just saved. *)
Theorem examples_file_overwrites_raw_output
  (token : option PyStr.str)
  (x_actor_call : PyStr.str -> XScraper.run_input -> Py.result PyStr.str)
  (li_actor_call : PyStr.str -> LinkedInScraper.run_input -> Py.result PyStr.str)
  (dataset_items : PyStr.str -> Py.result (list Py.dict))
  (json_dumps : Py.dict -> PyStr.str)
  (json_dumps_all : list Py.dict -> PyStr.str)
  (repr_dict : Py.dict -> PyStr.str)
  (start_urls search_terms twitter_handles : option (list PyStr.str))
  (urls : list PyStr.str) (max_items limit_per_source : Z)
  (sort tweet_language output_file text : PyStr.str) :
  PyStr.contains (PyStr.lit ".txt") output_file = false ->
  let li_fetch :=
    LinkedInScraper.scrape_linkedin_posts token li_actor_call dataset_items
      json_dumps json_dumps_all repr_dict urls limit_per_source output_file true in
  let x_fetch :=
    XScraper.scrape_x_posts token x_actor_call dataset_items json_dumps
      json_dumps_all repr_dict start_urls search_terms twitter_handles max_items
      sort tweet_language output_file true in
  (Py.outcome li_fetch = Py.Ok text ->
   exists before raw,
     Py.events li_fetch
     = before ++ [Py.FileWrite output_file raw; Py.FileWrite output_file text])
  /\ (Py.outcome x_fetch = Py.Ok text ->
      exists before raw,
        Py.events x_fetch
        = before ++ [Py.FileWrite output_file raw; Py.FileWrite output_file text]).
Proof.
  intros Hn. cbv zeta. rewrite linkedin_fetch_cases, x_fetch_cases. cbv zeta.
  rewrite (replace_without_occurrence _ _ _ Hn). split.
  - destruct (LinkedInScraper.token_missing token); [discriminate|].
    destruct (li_actor_call _ _) as [id|e]; [|discriminate].
    destruct (dataset_items id) as [items|e]; [|discriminate].
    destruct (LinkedInScraper._format_as_examples repr_dict items);
      [|discriminate].
    intros [= ->]. now eexists [_; _], _.
  - destruct (XScraper.token_missing token); [discriminate|].
    destruct (negb _); [discriminate|].
    destruct (x_actor_call _ _) as [id|e]; [|discriminate].
    destruct (dataset_items id) as [items|e]; [|discriminate].
    destruct (XScraper._format_as_examples repr_dict items); [|discriminate].
    intros [= ->]. now eexists [_; _], _.
Qed.

Lemma examples_file_overwrites_raw_output_witness :
  exists before raw,
    Py.events
      (LinkedInScraper.scrape_linkedin_posts Samples.sample_token
         Samples.sample_actor Samples.empty_dataset Samples.sample_dumps
         Samples.sample_dumps_all Samples.no_repr
         [PyStr.lit "https://www.linkedin.com/company/openai"] 5
         (PyStr.lit "scraped.log") true)
    = before ++ [Py.FileWrite (PyStr.lit "scraped.log") raw;
                 Py.FileWrite (PyStr.lit "scraped.log")
                   LinkedInScraper.NO_EXAMPLES].
Proof.
  apply (proj1 (@examples_file_overwrites_raw_output Samples.sample_token
           Samples.sample_actor Samples.sample_actor Samples.empty_dataset
           Samples.sample_dumps Samples.sample_dumps_all Samples.no_repr
           None None None [PyStr.lit "https://www.linkedin.com/company/openai"]
           20 5 (PyStr.lit "Latest") (PyStr.lit "en") (PyStr.lit "scraped.log")
           LinkedInScraper.NO_EXAMPLES eq_refl)).
  reflexivity.
Defined.

(* ================================================================== *)
(** * More about the web handlers *)
(* ================================================================== *)

(** X16. [start_workflow] never assigns to the status record, and it
    starts the background thread exactly when it answers 200, which is
    exactly when no workflow is running, the body is a JSON object and
    its [context] is a string that is not blank. *)
Theorem start_workflow_starts_thread_iff
  (workflow_status : App.WorkflowStatus) (request_json : Py.result Py.value) :
  let '(response, status_after, thread) :=
    App.start_workflow workflow_status request_json in
  status_after = workflow_status
  /\ (thread <> None <-> App.status_code response = 200%Z)
  /\ (thread <> None <->
      App.running workflow_status = false
      /\ exists d s,
           request_json = Py.Ok (Py.PyDict d)
           /\ Py.dict_get d (PyStr.lit "context") (Py.PyStr []) = Py.PyStr s
           /\ PyStr.strip s <> []).
Proof.
  unfold App.start_workflow, App.start_workflow_try.
  destruct (App.running workflow_status).
  { cbv beta iota. split; [reflexivity|]. split; split;
      try discriminate; try congruence. intros [H _]. discriminate H. }
  destruct request_json as [[s|d|t b r]|e]; cbn [Py.rbind Py.get];
    try (cbv beta iota; split; [reflexivity|]; split; split;
         try discriminate; try congruence;
         intros [_ (d' & s' & H & _)]; discriminate H).
  destruct (Py.dict_get d (PyStr.lit "context") (Py.PyStr [])) as [c|dc|t b r] eqn:C.
  - destruct c as [|ch c].
    + cbn [Py.truthy negb Py.strip Py.rbind]. cbv beta iota.
      split; [reflexivity|]. split; split;
        try discriminate; try congruence.
      intros [_ (d' & s' & H & Hc & Hs)]. injection H as <-.
      rewrite C in Hc. injection Hc as <-. exfalso. now apply Hs.
    + cbn [Py.truthy negb Py.strip Py.rbind].
      destruct (PyStr.strip (ch :: c)) eqn:S.
      * cbv beta iota. split; [reflexivity|]. split; split;
          try discriminate; try congruence.
        intros [_ (d' & s' & H & Hc & Hs)]. injection H as <-.
        rewrite C in Hc. injection Hc as <-. exfalso. now apply Hs.
      * cbv beta iota. split; [reflexivity|]. split; split;
          try discriminate; try reflexivity.
        intros _. split; [reflexivity|]. exists d, (ch :: c).
        split; [reflexivity|]. split; [exact C|]. rewrite S. discriminate.
  - destruct dc; cbn [Py.truthy negb Py.strip Py.rbind];
      cbv beta iota; (split; [reflexivity|]); split; split;
      try discriminate; try congruence;
      intros [_ (d' & s' & H & Hc & _)]; injection H as <-;
      rewrite C in Hc; discriminate Hc.
  - destruct b; cbn [Py.truthy negb Py.strip Py.rbind];
      cbv beta iota; (split; [reflexivity|]); split; split;
      try discriminate; try congruence;
      intros [_ (d' & s' & H & Hc & _)]; injection H as <-;
      rewrite C in Hc; discriminate Hc.
Qed.

(** X17. While no workflow runs, a well-formed request is answered as
    follows: a missing, empty or whitespace-only [context] gets 400
    "Context cannot be empty"; otherwise the thread receives the context
    as sent (not stripped), [num_posts] defaulting to 3 and the three
    selector lists defaulting to [None]. *)
Theorem start_workflow_on_object_body
  (workflow_status : App.WorkflowStatus) (d : Py.dict) :
  App.running workflow_status = false ->
  (forall s,
      Py.dict_get d (PyStr.lit "context") (Py.PyStr []) = Py.PyStr s ->
      PyStr.strip s = [] ->
      App.start_workflow workflow_status (Py.Ok (Py.PyDict d))
      = ({| App.json := App.ErrorBody (PyStr.lit "Context cannot be empty");
            App.status_code := 400 |}, workflow_status, None))
  /\ (forall s,
         Py.dict_get d (PyStr.lit "context") (Py.PyStr []) = Py.PyStr s ->
         PyStr.strip s <> [] ->
         App.start_workflow workflow_status (Py.Ok (Py.PyDict d))
         = ({| App.json := App.SuccessBody (PyStr.lit "Workflow started successfully");
               App.status_code := 200 |}, workflow_status,
            Some {| App.context := Py.PyStr s;
                    App.num_posts :=
                      Py.dict_get d (PyStr.lit "num_posts")
                        (Py.PyOther (PyStr.lit "int") true (PyStr.lit "3"));
                    App.linkedin_urls :=
                      Py.dict_get d (PyStr.lit "linkedin_urls") Py.PyNone;
                    App.x_urls := Py.dict_get d (PyStr.lit "x_urls") Py.PyNone;
                    App.x_search_terms :=
                      Py.dict_get d (PyStr.lit "x_search_terms") Py.PyNone |})).
Proof.
  intros Hr. unfold App.start_workflow, App.start_workflow_try. rewrite Hr.
  cbn [Py.rbind Py.get]. split; intros s Hc Hs; rewrite Hc.
  - destruct s as [|ch s]; [reflexivity|].
    cbn [Py.truthy negb Py.strip Py.rbind]. now rewrite Hs.
  - destruct s as [|ch s]; [now elim Hs|].
    cbn [Py.truthy negb Py.strip Py.rbind].
    destruct (PyStr.strip (ch :: s)); [now elim Hs | reflexivity].
Qed.

Lemma start_workflow_on_object_body_witness :
  App.start_workflow
    {| App.running := false; App.progress := []; App.output := [];
       App.full_output := []; App.error := None |}
    (Py.Ok (Py.PyDict [(PyStr.lit "context", Py.PyStr (PyStr.lit "   "))]))
  = ({| App.json := App.ErrorBody (PyStr.lit "Context cannot be empty");
        App.status_code := 400 |},
     {| App.running := false; App.progress := []; App.output := [];
        App.full_output := []; App.error := None |}, None).
Proof.
  apply (proj1 (@start_workflow_on_object_body
                  {| App.running := false; App.progress := []; App.output := [];
                     App.full_output := []; App.error := None |}
                  [(PyStr.lit "context", Py.PyStr (PyStr.lit "   "))] eq_refl)
           (PyStr.lit "   ")); reflexivity.
Defined.

(* ================================================================== *)
(** * The background run *)
(* ================================================================== *)

Section RunFacts.
Import PyStr Py App AppRun AppRunSpec.

Lemma andthen_cases {A B : Type} (m : T A) (k : A -> T B) :
  andthen m k
  = match snd m with
    | Done a => (fst m ++ fst (k a), snd (k a))
    | Failed message => (fst m, Failed message)
    end.
Proof.
  destruct m as [t [a|msg]]; simpl; [|reflexivity].
  destruct (k a); reflexivity.
Qed.

Lemma status_after_app (s : WorkflowStatus) (t u : list event) :
  status_after s (t ++ u) = status_after (status_after s t) u.
Proof. apply fold_left_app. Qed.

Lemma status_after_write (s : WorkflowStatus) (w : status_write) (t : list event) :
  status_after s (Write w :: t) = status_after (apply_write s w) t.
Proof. reflexivity. Qed.

Lemma status_after_no_write (s : WorkflowStatus) (t : list event) :
  forallb (fun e => negb (is_write e)) t = true -> status_after s t = s.
Proof.
  revert s; induction t as [|e t IH]; intros s H; [reflexivity|].
  simpl in H. apply andb_true_iff in H. destruct H as [He Ht].
  destruct e; try discriminate; simpl; now apply IH.
Qed.

Lemma injected_no_write {E : Type} (inject : E -> event) (l : list E) :
  (forall e, is_write (inject e) = false) ->
  forallb (fun e => negb (is_write e)) (map inject l) = true.
Proof.
  intros H. induction l as [|e l IH]; [reflexivity|].
  simpl. now rewrite H, IH.
Qed.

Variable env : Env.

Let openai_missing :=
  not_configured (OPENAI_API_KEY env) (lit "your_openai_api_key_here").
Let apify_missing :=
  not_configured (APIFY_API_TOKEN env) (lit "your_apify_api_token_here").

Let start : list event :=
  [Write (SetRunning true); Write (SetError None); Write (SetOutput []);
   Write (SetFullOutput []); Write (SetProgress (lit "Validating API keys..."))].

Lemma linkedin_step_cases (linkedin_urls : option (list str)) :
  match linkedin_urls with
  | Some ((_ :: _) as urls) =>
      or_else (scrape_linkedin env urls) LINKEDIN_FALLBACK_AFTER_FAILURE
  | _ => done LINKEDIN_FALLBACK_WITHOUT_URLS
  end
  = (linkedin_events env linkedin_urls, Done (linkedin_examples env linkedin_urls)).
Proof.
  destruct linkedin_urls as [[|u urls]|]; try reflexivity.
  unfold or_else, scrape_linkedin, call, linkedin_events, linkedin_examples,
    linkedin_fetch. cbn [fst snd].
  destruct (outcome _); reflexivity.
Qed.

Lemma x_step_cases (x_urls x_search_terms : option (list str)) :
  (if some_nonempty x_urls || some_nonempty x_search_terms
   then or_else (scrape_x env (XScraper.when_given x_urls)
                          (XScraper.when_given x_search_terms))
                X_FALLBACK_AFTER_FAILURE
   else done X_FALLBACK_WITHOUT_SELECTORS)
  = (x_events env x_urls x_search_terms, Done (x_examples env x_urls x_search_terms)).
Proof.
  unfold x_events, x_examples, x_fetch, or_else, scrape_x, call.
  destruct (some_nonempty x_urls || some_nonempty x_search_terms);
    [|reflexivity].
  cbn [fst snd]. destruct (outcome _); reflexivity.
Qed.

(** The [try] block, case by case. *)
Lemma workflow_try_cases (context : str) (num_posts : Z)
  (linkedin_urls x_urls x_search_terms : option (list str)) :
  workflow_try env context num_posts linkedin_urls x_urls x_search_terms
  = if openai_missing then (start, Failed (lit "OPENAI_API_KEY not configured!"))
    else if apify_missing
    then (start, Failed (lit "APIFY_API_TOKEN not configured!"))
    else
      let exec := coordinator env context num_posts linkedin_urls x_urls
                              x_search_terms in
      let before :=
        start ++ Write (SetProgress (lit "Scraping LinkedIn posts..."))
        :: linkedin_events env linkedin_urls
        ++ Write (SetProgress (lit "Scraping X posts..."))
        :: x_events env x_urls x_search_terms
        ++ Write (SetProgress (lit "Preparing content generation..."))
        :: Write (SetProgress (lit "Generating content with AI agents..."))
        :: map AgentIO (events exec) in
      match outcome exec with
      | Raise e => (before, Failed (exn_str e))
      | Ok final_output =>
          let formatted := Orchestrator.format_output (upper env) final_output in
          (before
           ++ [OutputFile (lit "output_" ++ timestamp env ++ lit ".txt") formatted;
               Write (SetProgress (lit "Complete!"));
               Write (SetOutput (filter_summary_from_output formatted));
               Write (SetFullOutput formatted);
               Write (SetRunning false)],
           Done tt)
      end.
Proof.
  unfold workflow_try. fold openai_missing apify_missing.
  destruct openai_missing; [reflexivity|].
  destruct apify_missing; [reflexivity|].
  cbv zeta.
  repeat (rewrite andthen_cases; cbn [set done log fst snd]).
  rewrite linkedin_step_cases. cbn [fst snd].
  repeat (rewrite andthen_cases; cbn [set done log fst snd]).
  rewrite x_step_cases. cbn [fst snd].
  repeat (rewrite andthen_cases; cbn [set done log fst snd]).
  unfold call. cbn [fst snd]. fold (coordinator env context num_posts
    linkedin_urls x_urls x_search_terms).
  destruct (outcome (coordinator env context num_posts linkedin_urls x_urls
                       x_search_terms)) as [final_output|e]; cbn [fst snd].
  - repeat (rewrite andthen_cases; cbn [set done log fst snd]).
    unfold start.
    repeat first [rewrite <- app_assoc | rewrite <- app_comm_cons].
    cbn [app]. reflexivity.
  - unfold start.
    repeat first [rewrite <- app_assoc | rewrite <- app_comm_cons].
    cbn [app]. reflexivity.
Qed.

Lemma linkedin_events_no_write (linkedin_urls : option (list str)) :
  forallb (fun e => negb (is_write e)) (linkedin_events env linkedin_urls) = true.
Proof.
  unfold linkedin_events. destruct linkedin_urls as [[|u urls]|]; try reflexivity.
  apply injected_no_write; intros; reflexivity.
Qed.

Lemma x_events_no_write (x_urls x_search_terms : option (list str)) :
  forallb (fun e => negb (is_write e)) (x_events env x_urls x_search_terms) = true.
Proof.
  unfold x_events. destruct (_ || _); [|reflexivity].
  apply injected_no_write; intros; reflexivity.
Qed.

Lemma status_after_skip (s : WorkflowStatus) (io rest : list event) :
  forallb (fun e => negb (is_write e)) io = true ->
  status_after s (io ++ rest) = status_after s rest.
Proof. intros H. now rewrite status_after_app, (status_after_no_write s io H). Qed.

(** The status record a run leaves behind, whatever it was before. *)
Lemma final_status (s : WorkflowStatus) (context : str) (num_posts : Z)
  (linkedin_urls x_urls x_search_terms : option (list str)) :
  status_after s (run_workflow_async env context num_posts linkedin_urls x_urls
                    x_search_terms)
  = if openai_missing then failed_status (lit "OPENAI_API_KEY not configured!")
    else if apify_missing
    then failed_status (lit "APIFY_API_TOKEN not configured!")
    else
      match outcome (coordinator env context num_posts linkedin_urls x_urls
                       x_search_terms) with
      | Raise e => failed_status (exn_str e)
      | Ok final_output =>
          let formatted := Orchestrator.format_output (upper env) final_output in
          {| running := false; progress := lit "Complete!";
             output := filter_summary_from_output formatted;
             full_output := formatted; error := None |}
      end.
Proof.
  unfold run_workflow_async. rewrite workflow_try_cases.
  destruct openai_missing; [reflexivity|].
  destruct apify_missing; [reflexivity|].
  cbv zeta.
  destruct (outcome (coordinator env context num_posts linkedin_urls x_urls
                       x_search_terms)) as [final_output|e].
  - unfold start.
    repeat first [rewrite <- app_assoc | rewrite <- app_comm_cons].
    cbn [app]. rewrite !status_after_write.
    rewrite (status_after_skip _ _ _ (linkedin_events_no_write _)).
    rewrite !status_after_write.
    rewrite (status_after_skip _ _ _ (x_events_no_write _ _)).
    rewrite !status_after_write.
    rewrite status_after_skip by (apply injected_no_write; intros; reflexivity).
    reflexivity.
  - unfold start.
    repeat first [rewrite <- app_assoc | rewrite <- app_comm_cons].
    cbn [app]. rewrite !status_after_write.
    rewrite (status_after_skip _ _ _ (linkedin_events_no_write _)).
    rewrite !status_after_write.
    rewrite (status_after_skip _ _ _ (x_events_no_write _ _)).
    rewrite !status_after_write.
    rewrite status_after_skip by (apply injected_no_write; intros; reflexivity).
    reflexivity.
Qed.

End RunFacts.
Section RunTraceFacts.
Import PyStr Py App AppRun AppRunSpec.

Lemma no_write_no_running (t : list event) :
  forallb (fun e => negb (is_write e)) t = true ->
  forallb (fun e => negb (sets_running e)) t = true.
Proof.
  induction t as [|e t IH]; [reflexivity|]. simpl.
  rewrite !andb_true_iff. intros [He Ht]. split; [|auto].
  destruct e; try discriminate; reflexivity.
Qed.

Lemma agent_events_no_write (l : list Orchestrator.event) :
  forallb (fun e => negb (is_write e)) (map AgentIO l) = true.
Proof. apply injected_no_write; intros; reflexivity. Qed.

(** An exception out of the coordinator was raised by a run call. *)
Lemma coordinator_raise_is_a_run_raise
  (run : Orchestrator.agent_id -> str -> result Orchestrator.RunResponse)
  (sched : Orchestrator.schedule) (context examples : str) (num_posts : Z)
  (e : exn) :
  outcome (Orchestrator.execute_workflow run sched context examples num_posts)
  = Raise e ->
  exists a prompt, run a prompt = Raise e.
Proof.
  unfold Orchestrator.execute_workflow.
  rewrite outcome_bind, parallel_outcome_cases.
  destruct (run Orchestrator.LinkedInAgent _) as [rl|el] eqn:L;
    destruct (run Orchestrator.XAgent _) as [rx|ex] eqn:X.
  - cbn [fst snd]. rewrite compile_outcome.
    destruct (run Orchestrator.OrchestratorAgent _) as [rv|ev] eqn:V;
      [discriminate|].
    intros [= <-]. eauto.
  - intros [= <-]. eauto.
  - intros [= <-]. eauto.
  - destruct (Orchestrator.linkedin_first sched); intros [= <-]; eauto.
Qed.

Lemma format_output_not_empty (upper : str -> str)
  (final_output : Orchestrator.FinalOutput) :
  Orchestrator.format_output upper final_output <> [].
Proof.
  unfold Orchestrator.format_output, Orchestrator.output_lines.
  rewrite join_cons by discriminate. discriminate.
Qed.

End RunTraceFacts.

(** X18. A background run always ends with [running] cleared, and it
    overwrites every field of the status record: either it completed
    (no error, progress "Complete!", the full report stored and its
    filtered form as the UI output), or it failed (the error text set,
    progress "Error occurred", and both outputs empty, whatever an
    earlier run had left there). *)
Theorem run_always_ends_not_running
  (env : AppRun.Env) (status_before : App.WorkflowStatus)
  (context : PyStr.str) (num_posts : Z)
  (linkedin_urls x_urls x_search_terms : option (list PyStr.str)) :
  let status :=
    AppRun.status_after status_before
      (AppRun.run_workflow_async env context num_posts linkedin_urls x_urls
         x_search_terms) in
  App.running status = false
  /\ ((exists final_output,
          Py.outcome (AppRunSpec.coordinator env context num_posts linkedin_urls
                        x_urls x_search_terms) = Py.Ok final_output
          /\ App.error status = None
          /\ App.progress status = PyStr.lit "Complete!"
          /\ App.full_output status
             = Orchestrator.format_output (AppRun.upper env) final_output
          /\ App.output status
             = App.filter_summary_from_output (App.full_output status))
      \/ (exists message,
             status = AppRunSpec.failed_status message)).
Proof.
  cbv zeta. rewrite final_status.
  destruct (AppRun.not_configured (AppRun.OPENAI_API_KEY env) _).
  { split; [reflexivity|]. right. eauto. }
  destruct (AppRun.not_configured (AppRun.APIFY_API_TOKEN env) _).
  { split; [reflexivity|]. right. eauto. }
  destruct (Py.outcome _) as [final_output|e].
  - split; [reflexivity|]. left. exists final_output. repeat split.
  - split; [reflexivity|]. right. eauto.
Qed.

Section RunAgentFacts.
Import PyStr Py App AppRun AppRunSpec.

(** The coordinator raises exactly when one of its calls raised, and
    then with the exception of such a call. *)
Lemma coordinator_raise_events
  (run : Orchestrator.agent_id -> str -> result Orchestrator.RunResponse)
  (sched : Orchestrator.schedule) (context examples : str) (num_posts : Z) :
  match outcome (Orchestrator.execute_workflow run sched context examples
                   num_posts) with
  | Raise e =>
      exists a,
        In (Orchestrator.RunReturn a (Raise e))
           (events (Orchestrator.execute_workflow run sched context examples
                      num_posts))
  | Ok _ =>
      forall a e,
        ~ In (Orchestrator.RunReturn a (Raise e))
             (events (Orchestrator.execute_workflow run sched context examples
                        num_posts))
  end.
Proof.
  unfold Orchestrator.execute_workflow.
  rewrite outcome_bind, events_bind, parallel_outcome_cases, parallel_events.
  destruct (run Orchestrator.LinkedInAgent _) as [rl|el] eqn:L;
    destruct (run Orchestrator.XAgent _) as [rx|ex] eqn:X.
  - cbn [fst snd]. rewrite compile_outcome, compile_events. cbv zeta.
    cbn [Orchestrator.posts].
    destruct (run Orchestrator.OrchestratorAgent _) as [rv|ev] eqn:V.
    + assert (R : exists final_output,
                 outcome (Orchestrator._validate_and_compile
                            (fun _ _ => Ok rv) context examples
                            {| Orchestrator.platform := lit "LinkedIn";
                               Orchestrator.num_posts := num_posts;
                               Orchestrator.posts := Orchestrator.content_of rl;
                               Orchestrator.agent :=
                                 Orchestrator.name Orchestrator.LinkedInAgent |}
                            {| Orchestrator.platform := lit "X (Twitter)";
                               Orchestrator.num_posts := num_posts;
                               Orchestrator.posts := Orchestrator.content_of rx;
                               Orchestrator.agent :=
                                 Orchestrator.name Orchestrator.XAgent |})
                 = Ok final_output) by (eexists; reflexivity).
      destruct R as [final_output ->].
      intros a e H. apply in_app_or in H. destruct H as [H|H].
      * apply in_interleave in H. simpl in H.
        destruct H as [[H|[H|[]]]|[H|[H|[]]]]; discriminate H.
      * simpl in H. destruct H as [H|[H|[]]]; discriminate H.
    + exists Orchestrator.OrchestratorAgent. apply in_or_app. right.
      simpl. auto.
  - exists Orchestrator.XAgent. apply in_interleave. right. simpl. auto.
  - exists Orchestrator.LinkedInAgent. apply in_interleave. left. simpl. auto.
  - destruct (Orchestrator.linkedin_first sched).
    + exists Orchestrator.LinkedInAgent. apply in_interleave. left. simpl. auto.
    + exists Orchestrator.XAgent. apply in_interleave. right. simpl. auto.
Qed.

Lemma in_agent_events (ev : Orchestrator.event) (t : list event) :
  In (AgentIO ev) t <-> In ev (agent_events t).
Proof.
  unfold agent_events. rewrite in_flat_map. split.
  - intros H. exists (AgentIO ev). split; [exact H|now left].
  - intros (x & H & I). destruct x; simpl in I; try contradiction.
    destruct I as [<-|[]]. exact H.
Qed.

Lemma agent_events_app (t u : list event) :
  agent_events (t ++ u) = agent_events t ++ agent_events u.
Proof. apply flat_map_app. Qed.

Lemma agent_events_injected {E : Type} (inject : E -> event) (l : list E) :
  (forall e, agent_events [inject e] = []) ->
  agent_events (map inject l) = [].
Proof.
  intros H. induction l as [|e l IH]; [reflexivity|].
  change (map inject (e :: l)) with ([inject e] ++ map inject l).
  now rewrite agent_events_app, H, IH.
Qed.

Lemma agent_events_of_agents (l : list Orchestrator.event) :
  agent_events (map AgentIO l) = l.
Proof.
  induction l as [|e l IH]; [reflexivity|].
  change (map AgentIO (e :: l)) with ([AgentIO e] ++ map AgentIO l).
  rewrite agent_events_app, IH. reflexivity.
Qed.

Lemma saves_nothing_injected {E : Type} (inject : E -> event) (l : list E) :
  (forall e, saves_report (inject e) = false) ->
  forallb (fun ev => negb (saves_report ev)) (map inject l) = true.
Proof.
  intros H. induction l as [|e l IH]; [reflexivity|].
  simpl. now rewrite H, IH.
Qed.

Variable env : Env.
Variable context : str.
Variable num_posts : Z.
Variables linkedin_urls x_urls x_search_terms : option (list str).

Lemma agent_events_of_linkedin_step :
  agent_events (linkedin_events env linkedin_urls) = [].
Proof.
  unfold linkedin_events. destruct linkedin_urls as [[|u urls]|]; try reflexivity.
  apply agent_events_injected; intros; reflexivity.
Qed.

Lemma agent_events_of_x_step :
  agent_events (x_events env x_urls x_search_terms) = [].
Proof.
  unfold x_events. destruct (_ || _); [|reflexivity].
  apply agent_events_injected; intros; reflexivity.
Qed.

Lemma saves_nothing_linkedin_step :
  forallb (fun ev => negb (saves_report ev)) (linkedin_events env linkedin_urls)
  = true.
Proof.
  unfold linkedin_events. destruct linkedin_urls as [[|u urls]|]; try reflexivity.
  apply saves_nothing_injected; intros; reflexivity.
Qed.

Lemma saves_nothing_x_step :
  forallb (fun ev => negb (saves_report ev)) (x_events env x_urls x_search_terms)
  = true.
Proof.
  unfold x_events. destruct (_ || _); [|reflexivity].
  apply saves_nothing_injected; intros; reflexivity.
Qed.

Lemma agent_events_write (w : status_write) (t : list event) :
  agent_events (Write w :: t) = agent_events t.
Proof. reflexivity. Qed.

Lemma agent_events_file (path text : str) (t : list event) :
  agent_events (OutputFile path text :: t) = agent_events t.
Proof. reflexivity. Qed.

Lemma agent_events_nil : agent_events [] = [].
Proof. reflexivity. Qed.

(** The agents' events of a run are those of its coordinator call. *)
Lemma agent_events_of_run :
  agent_events (run_workflow_async env context num_posts linkedin_urls x_urls
                  x_search_terms)
  = if not_configured (OPENAI_API_KEY env) (lit "your_openai_api_key_here")
    then []
    else if not_configured (APIFY_API_TOKEN env) (lit "your_apify_api_token_here")
    then []
    else events (coordinator env context num_posts linkedin_urls x_urls
                   x_search_terms).
Proof.
  unfold run_workflow_async. rewrite workflow_try_cases.
  destruct (not_configured (OPENAI_API_KEY env) _); [reflexivity|].
  destruct (not_configured (APIFY_API_TOKEN env) _); [reflexivity|].
  cbv zeta.
  destruct (outcome _);
    repeat first [ rewrite agent_events_app
                 | rewrite agent_events_write
                 | rewrite agent_events_file
                 | rewrite agent_events_of_linkedin_step
                 | rewrite agent_events_of_x_step
                 | rewrite agent_events_of_agents
                 | rewrite agent_events_nil ];
    cbn [app]; now rewrite ?app_nil_r.
Qed.

(** A run whose coordinator call raised saves no report. *)
Lemma no_report_saved_after_raise (e : exn) :
  outcome (coordinator env context num_posts linkedin_urls x_urls x_search_terms)
  = Raise e ->
  forallb (fun ev => negb (saves_report ev))
          (run_workflow_async env context num_posts linkedin_urls x_urls
             x_search_terms) = true.
Proof.
  unfold run_workflow_async. rewrite workflow_try_cases.
  destruct (not_configured (OPENAI_API_KEY env) _); [reflexivity|].
  destruct (not_configured (APIFY_API_TOKEN env) _); [reflexivity|].
  cbv zeta. intros ->.
  repeat (progress (rewrite ?forallb_app; cbn [forallb app])).
  rewrite saves_nothing_linkedin_step, saves_nothing_x_step.
  rewrite saves_nothing_injected by (intros; reflexivity).
  reflexivity.
Qed.

End RunAgentFacts.

(** X19. A text-generation call that raises always fails the run, and
    with the text of such an exception: when the trace of a run holds a
    call of one of the three agents that raised, the run ends with the
    status of a failure whose error is the text of an exception one of
    its calls raised, and it saves no report file. Whatever the
    scraping steps did before does not change this. *)
Theorem generation_failure_fails_the_run
  (env : AppRun.Env) (status_before : App.WorkflowStatus)
  (context : PyStr.str) (num_posts : Z)
  (linkedin_urls x_urls x_search_terms : option (list PyStr.str))
  (a : Orchestrator.agent_id) (e : Py.exn) :
  let trace :=
    AppRun.run_workflow_async env context num_posts linkedin_urls x_urls
      x_search_terms in
  In (AppRun.AgentIO (Orchestrator.RunReturn a (Py.Raise e))) trace ->
  (exists a' e',
      In (AppRun.AgentIO (Orchestrator.RunReturn a' (Py.Raise e'))) trace
      /\ AppRun.status_after status_before trace
         = AppRunSpec.failed_status (Py.exn_str e'))
  /\ forallb (fun ev => negb (AppRunSpec.saves_report ev)) trace = true.
Proof.
  cbv zeta. intros I.
  apply in_agent_events in I.
  pose proof (@agent_events_of_run env context num_posts linkedin_urls x_urls
                x_search_terms) as T.
  rewrite T in I. rewrite final_status.
  destruct (AppRun.not_configured (AppRun.OPENAI_API_KEY env) _) eqn:K1;
    [destruct I|].
  destruct (AppRun.not_configured (AppRun.APIFY_API_TOKEN env) _) eqn:K2;
    [destruct I|].
  pose proof (coordinator_raise_events (AppRun.run env) (AppRun.sched env)
                (PyStr.strip context)
                (PyStr.strip
                   (AppRunSpec.linkedin_examples env linkedin_urls
                    ++ [PyStr.NL; PyStr.NL] ++ PyStr.lit "---"
                    ++ [PyStr.NL; PyStr.NL]
                    ++ AppRunSpec.x_examples env x_urls x_search_terms))
                num_posts) as C.
  unfold AppRunSpec.coordinator in *.
  destruct (Py.outcome (Orchestrator.execute_workflow _ _ _ _ _))
    as [final_output|e0] eqn:O.
  - exfalso. exact (C a e I).
  - destruct C as [a0 C]. split.
    + exists a0, e0. split; [|reflexivity].
      apply in_agent_events. rewrite T. exact C.
    + apply (@no_report_saved_after_raise env context num_posts linkedin_urls
               x_urls x_search_terms e0).
      exact O.
Qed.

Lemma generation_failure_fails_the_run_witness :
  (exists a' e',
      In (AppRun.AgentIO (Orchestrator.RunReturn a' (Py.Raise e')))
         (AppRun.run_workflow_async MoreSamples.generation_failing_env
            Samples.sample_context 2 None None None)
      /\ AppRun.status_after RunSamples.earlier_status
           (AppRun.run_workflow_async MoreSamples.generation_failing_env
              Samples.sample_context 2 None None None)
         = AppRunSpec.failed_status (Py.exn_str e'))
  /\ forallb (fun ev => negb (AppRunSpec.saves_report ev))
             (AppRun.run_workflow_async MoreSamples.generation_failing_env
                Samples.sample_context 2 None None None)
     = true.
Proof.
  apply (generation_failure_fails_the_run MoreSamples.generation_failing_env
           RunSamples.earlier_status Samples.sample_context 2 None None None
           Orchestrator.LinkedInAgent (Py.RemoteError (PyStr.lit "timeout"))).
  cbv. repeat first [left; reflexivity | right].
Defined.

(** X20. A run scrapes only the sources it was given selectors for: no
    LinkedIn scraping event without a non-empty URL list, no X scraping
    event without a non-empty URL or search-term list; and with a
    credential missing it issues no event but status assignments. *)
Theorem run_scrapes_only_given_sources
  (env : AppRun.Env) (context : PyStr.str) (num_posts : Z)
  (linkedin_urls x_urls x_search_terms : option (list PyStr.str)) :
  let trace :=
    AppRun.run_workflow_async env context num_posts linkedin_urls x_urls
      x_search_terms in
  (Py.some_nonempty linkedin_urls = false ->
   forallb (fun e => negb (AppRunSpec.is_linkedin_io e)) trace = true)
  /\ (Py.some_nonempty x_urls || Py.some_nonempty x_search_terms = false ->
      forallb (fun e => negb (AppRunSpec.is_x_io e)) trace = true)
  /\ (AppRun.not_configured (AppRun.OPENAI_API_KEY env)
        (PyStr.lit "your_openai_api_key_here") = true
      \/ AppRun.not_configured (AppRun.APIFY_API_TOKEN env)
           (PyStr.lit "your_apify_api_token_here") = true ->
      forallb AppRunSpec.is_write trace = true).
Proof.
  cbv zeta. unfold AppRun.run_workflow_async. rewrite workflow_try_cases.
  assert (A : forall (f : AppRun.event -> bool) l,
             (forall e, f (AppRun.AgentIO e) = true) ->
             forallb f (map AppRun.AgentIO l) = true)
    by (intros f l H; induction l; simpl; [|rewrite H]; auto).
  assert (L : forall (f : AppRun.event -> bool) l,
             (forall e, f (AppRun.LinkedInIO e) = true) ->
             forallb f (map AppRun.LinkedInIO l) = true)
    by (intros f l H; induction l; simpl; [|rewrite H]; auto).
  assert (X : forall (f : AppRun.event -> bool) l,
             (forall e, f (AppRun.XIO e) = true) ->
             forallb f (map AppRun.XIO l) = true)
    by (intros f l H; induction l; simpl; [|rewrite H]; auto).
  destruct (AppRun.not_configured (AppRun.OPENAI_API_KEY env) _);
    [repeat split; reflexivity|].
  destruct (AppRun.not_configured (AppRun.APIFY_API_TOKEN env) _);
    [repeat split; reflexivity|].
  cbv zeta. split; [|split].
  - intros Hl.
    replace (AppRunSpec.linkedin_events env linkedin_urls) with (@nil AppRun.event)
      by (destruct linkedin_urls as [[|u urls]|]; (discriminate || reflexivity)).
    destruct (Py.outcome _); rewrite !forallb_app; cbn [forallb app];
      rewrite !forallb_app; cbn [forallb];
      unfold AppRunSpec.x_events; destruct (_ || _);
      rewrite ?A, ?X by reflexivity; reflexivity.
  - intros Hx. unfold AppRunSpec.x_events. rewrite Hx.
    destruct (Py.outcome _); rewrite !forallb_app; cbn [forallb app];
      rewrite !forallb_app; cbn [forallb];
      unfold AppRunSpec.linkedin_events;
      destruct linkedin_urls as [[|u urls]|];
      rewrite ?A, ?L by reflexivity; reflexivity.
  - intros [H|H]; discriminate H.
Qed.

Lemma run_scrapes_only_given_sources_witness :
  forallb (fun e => negb (AppRunSpec.is_linkedin_io e))
          (AppRun.run_workflow_async RunSamples.sample_env Samples.sample_context
             2 (Some []) (Some [PyStr.lit "https://twitter.com/OpenAI"]) None)
  = true.
Proof.
  apply (proj1 (run_scrapes_only_given_sources RunSamples.sample_env
                  Samples.sample_context 2 (Some [])
                  (Some [PyStr.lit "https://twitter.com/OpenAI"]) None)).
  reflexivity.
Defined.

(** X21. The run sets [running] first and clears it once, after its
    last remote call and file write: every scraping call, every
    text-generation call and the saving of the report happen while
    [running] is set, and after it is cleared only the status record is
    touched. *)
Theorem running_flag_brackets_all_io
  (env : AppRun.Env) (context : PyStr.str) (num_posts : Z)
  (linkedin_urls x_urls x_search_terms : option (list PyStr.str)) :
  exists body tail,
    AppRun.run_workflow_async env context num_posts linkedin_urls x_urls
      x_search_terms
    = AppRun.Write (AppRun.SetRunning true)
      :: body ++ AppRun.Write (AppRun.SetRunning false) :: tail
    /\ forallb (fun e => negb (AppRunSpec.sets_running e)) body = true
    /\ forallb (fun e => AppRunSpec.is_write e
                         && negb (AppRunSpec.sets_running e)) tail = true.
Proof.
  unfold AppRun.run_workflow_async. rewrite workflow_try_cases.
  destruct (AppRun.not_configured (AppRun.OPENAI_API_KEY env) _).
  { eexists [_; _; _; _; _], [_]. repeat split. }
  destruct (AppRun.not_configured (AppRun.APIFY_API_TOKEN env) _).
  { eexists [_; _; _; _; _], [_]. repeat split. }
  cbv zeta.
  pose proof (no_write_no_running _ (linkedin_events_no_write env linkedin_urls))
    as Hl.
  pose proof (no_write_no_running _ (x_events_no_write env x_urls x_search_terms))
    as Hx.
  set (li := AppRunSpec.linkedin_events env linkedin_urls) in *.
  set (xe := AppRunSpec.x_events env x_urls x_search_terms) in *.
  set (exec := AppRunSpec.coordinator env context num_posts linkedin_urls x_urls
                 x_search_terms).
  pose proof (no_write_no_running _ (agent_events_no_write (Py.events exec)))
    as Ha.
  set (ag := map AppRun.AgentIO (Py.events exec)) in *.
  set (first_writes :=
         [AppRun.Write (AppRun.SetError None);
          AppRun.Write (AppRun.SetOutput []);
          AppRun.Write (AppRun.SetFullOutput []);
          AppRun.Write (AppRun.SetProgress (PyStr.lit "Validating API keys..."));
          AppRun.Write (AppRun.SetProgress (PyStr.lit "Scraping LinkedIn posts..."))]).
  set (px := AppRun.Write (AppRun.SetProgress (PyStr.lit "Scraping X posts..."))).
  set (generation :=
         [AppRun.Write
            (AppRun.SetProgress (PyStr.lit "Preparing content generation..."));
          AppRun.Write
            (AppRun.SetProgress (PyStr.lit "Generating content with AI agents..."))]).
  destruct (Py.outcome exec) as [final_output|e].
  - set (formatted := Orchestrator.format_output (AppRun.upper env) final_output).
    exists (first_writes ++ li ++ px :: xe ++ generation ++ ag
            ++ [AppRun.OutputFile
                  (PyStr.lit "output_" ++ AppRun.timestamp env ++ PyStr.lit ".txt")
                  formatted;
                AppRun.Write (AppRun.SetProgress (PyStr.lit "Complete!"));
                AppRun.Write
                  (AppRun.SetOutput (App.filter_summary_from_output formatted));
                AppRun.Write (AppRun.SetFullOutput formatted)]), [].
    split.
    + unfold first_writes, generation.
      repeat first [rewrite <- app_assoc | rewrite <- app_comm_cons].
      cbn [app]. reflexivity.
    + split; [|reflexivity].
      rewrite !forallb_app. cbn [forallb]. rewrite !forallb_app.
      rewrite Hl, Hx, Ha. reflexivity.
  - exists (first_writes ++ li ++ px :: xe ++ generation ++ ag
            ++ [AppRun.Write (AppRun.SetError (Some (Py.exn_str e)))]),
           [AppRun.Write (AppRun.SetProgress (PyStr.lit "Error occurred"))].
    split.
    + unfold first_writes, generation.
      repeat first [rewrite <- app_assoc | rewrite <- app_comm_cons].
      cbn [app]. reflexivity.
    + split; [|reflexivity].
      rewrite !forallb_app. cbn [forallb]. rewrite !forallb_app.
      rewrite Hl, Hx, Ha. reflexivity.
Qed.

(** X22. After a run that failed, [download_pdf] is refused with 400
    "No output available to download", also when an earlier run had
    succeeded: the run cleared that report when it started. After a run
    that completed, it is not refused. *)
Theorem download_follows_the_last_run
  (env : AppRun.Env) (status_before : App.WorkflowStatus)
  (context : PyStr.str) (num_posts : Z)
  (linkedin_urls x_urls x_search_terms : option (list PyStr.str)) :
  let status :=
    AppRun.status_after status_before
      (AppRun.run_workflow_async env context num_posts linkedin_urls x_urls
         x_search_terms) in
  match App.error status with
  | Some _ =>
      AppRun.download_refused status
      = Some {| App.json := App.ErrorBody
                              (PyStr.lit "No output available to download");
                App.status_code := 400 |}
  | None => AppRun.download_refused status = None
  end.
Proof.
  cbv zeta. rewrite final_status.
  destruct (AppRun.not_configured (AppRun.OPENAI_API_KEY env) _); [reflexivity|].
  destruct (AppRun.not_configured (AppRun.APIFY_API_TOKEN env) _); [reflexivity|].
  destruct (Py.outcome _) as [final_output|e]; [|reflexivity].
  cbn [App.error App.full_output AppRun.download_refused].
  unfold AppRun.download_refused. cbn [App.full_output].
  pose proof (@format_output_not_empty (AppRun.upper env) final_output) as H.
  destruct (Orchestrator.format_output _ _); [congruence | reflexivity].
Qed.

(* ================================================================== *)
(** * The PDF upload *)
(* ================================================================== *)

Section UploadFacts.
Import PyStr Py App AppRun AppUpload.

(** A text of whitespace only has no words. *)
Lemma no_words_in_whitespace (s : str) :
  forallb isspace s = true -> split_whitespace s = [].
Proof.
  unfold split_whitespace. induction s as [|c s IH]; [reflexivity|].
  simpl. intros H. apply andb_true_iff in H. destruct H as [Hc Hs].
  rewrite Hc. now apply IH.
Qed.

Lemma replace_char_whitespace (s : str) :
  forallb isspace s = true ->
  forallb isspace (replace [NL] (lit " ") s) = true.
Proof.
  unfold replace. induction s as [|c s IH]; [reflexivity|].
  intros H. simpl in H. apply andb_true_iff in H. destruct H as [Hc Hs].
  cbn [replace_from startswith List.length Nat.pred].
  destruct (N.eqb NL c); cbn [andb].
  - change (lit " ") with [32%N]. cbn [app forallb]. now apply IH.
  - cbn [forallb]. rewrite Hc. now apply IH.
Qed.

Lemma cleaned_whitespace (s : str) : forallb isspace s = true -> cleaned s = [].
Proof.
  intros H. unfold cleaned.
  now rewrite no_words_in_whitespace by now apply replace_char_whitespace.
Qed.

Lemma pages_loop_blank (pages : list page) :
  forallb blank pages = true -> pages_loop pages [] = Done [].
Proof.
  induction pages as [|p pages IH]; [reflexivity|].
  simpl. intros H. apply andb_true_iff in H. destruct H as [Hp Hs].
  destruct p as [[[|c t]|]|m]; try discriminate; try now apply IH.
  cbn [blank] in Hp. rewrite (cleaned_whitespace _ Hp). now apply IH.
Qed.


End UploadFacts.

(** X23. A text returned by [extract_text_from_pdf] is never blank: it
    is non-empty and has no leading or trailing whitespace. *)
Theorem extracted_text_is_never_blank (pdf : AppUpload.reader) (text : PyStr.str) :
  AppUpload.extract_text_from_pdf pdf = AppRun.Done text ->
  text <> [] /\ PyStr.strip text = text.
Proof.
  unfold AppUpload.extract_text_from_pdf, AppUpload.extract_try.
  destruct pdf as [pages|m]; [|discriminate].
  destruct (AppUpload.pages_loop pages []) as [t|m]; [|discriminate].
  destruct (PyStr.strip t) as [|c s] eqn:S; [discriminate|].
  intros [= <-]. split; [discriminate|].
  rewrite <- S. apply strip_idempotent.
Qed.

Lemma extracted_text_is_never_blank_witness :
  AppUpload.extract_text_from_pdf UploadSamples.two_pages
  = AppRun.Done (PyStr.lit "Hello world again

Page two")
  /\ PyStr.strip (PyStr.lit "Hello world again

Page two") = PyStr.lit "Hello world again

Page two".
Proof.
  split; [reflexivity|].
  apply (extracted_text_is_never_blank UploadSamples.two_pages). reflexivity.
Defined.

(** X24. Every failure of [extract_text_from_pdf] is an exception whose
    text starts with "Failed to extract text from PDF: "; when the
    library reads the file and no page holds anything but whitespace,
    the text ends with "No text could be extracted from the PDF". *)
Theorem extraction_failures_are_wrapped (pdf : AppUpload.reader) :
  (forall message,
      AppUpload.extract_text_from_pdf pdf = AppRun.Failed message ->
      exists cause,
        message = PyStr.lit "Failed to extract text from PDF: " ++ cause)
  /\ (forall pages,
         pdf = AppRun.Done pages ->
         forallb AppUpload.blank pages = true ->
         AppUpload.extract_text_from_pdf pdf
         = AppRun.Failed
             (PyStr.lit "Failed to extract text from PDF: " ++
              PyStr.lit "No text could be extracted from the PDF")).
Proof.
  unfold AppUpload.extract_text_from_pdf. split.
  - intros message. destruct (AppUpload.extract_try pdf) as [t|cause];
      [discriminate|].
    intros [= <-]. now exists cause.
  - intros pages -> H. unfold AppUpload.extract_try.
    now rewrite pages_loop_blank.
Qed.

Lemma extraction_failures_are_wrapped_witness :
  AppUpload.extract_text_from_pdf UploadSamples.scanned
  = AppRun.Failed
      (PyStr.lit "Failed to extract text from PDF: No text could be extracted from the PDF").
Proof.
  apply (proj2 (extraction_failures_are_wrapped UploadSamples.scanned)
           [AppRun.Done (Some (PyStr.lit " ")); AppRun.Done None]);
    reflexivity.
Defined.


(* ================================================================== *)
(** * The setup verification script *)
(* ================================================================== *)

Section SetupFacts.

Import VerifySetup.

Lemma all_checked_loop (A : Type) (f : A -> bool) (l : list A) (acc : bool) :
  fold_left (fun all_ok x => if f x then all_ok else false) l acc
  = acc && forallb f l.
Proof.
  revert acc. induction l as [|x l IH]; intros acc; simpl.
  - now rewrite andb_true_r.
  - rewrite IH. destruct (f x), acc; simpl; auto.
Qed.

Lemma check_dependencies_true (m : Machine) :
  check_dependencies m = true
  <-> forall module, In module required_modules -> importable m module = true.
Proof.
  unfold check_dependencies. rewrite all_checked_loop, andb_true_l.
  apply forallb_forall.
Qed.

Lemma check_project_structure_true (m : Machine) :
  check_project_structure m = true
  <-> forall file, In file required_files -> path_exists m file = true.
Proof.
  unfold check_project_structure. rewrite all_checked_loop, andb_true_l.
  apply forallb_forall.
Qed.

Lemma secret_key_is_configured (api_key : PyStr.str) :
  PyStr.startswith (PyStr.lit "sk-") api_key = true ->
  api_key <> [] /\ PyStr.eqb api_key (PyStr.lit "your_openai_api_key_here") = false.
Proof.
  intros H. split.
  - intros ->. discriminate.
  - destruct (PyStr.eqb api_key _) eqn:E; [|reflexivity].
    apply eqb_eq in E. subst api_key. discriminate.
Qed.

Lemma check_env_file_true (m : Machine) :
  check_env_file m = AppRun.Done true
  <-> path_exists m (PyStr.lit ".env") = true
      /\ importable m (PyStr.lit "dotenv") = true
      /\ exists api_key,
           OPENAI_API_KEY m = Some api_key
           /\ PyStr.startswith (PyStr.lit "sk-") api_key = true.
Proof.
  unfold check_env_file, import_dotenv.
  destruct (path_exists m _); simpl negb; cbv iota.
  2:{ split; [discriminate|]. intros [H _]; discriminate. }
  destruct (importable m _).
  2:{ split; [discriminate|]. intros (_ & H & _); discriminate. }
  destruct (OPENAI_API_KEY m) as [[|c k]|].
  - split; [discriminate|]. intros (_ & _ & k & [= <-] & H). discriminate.
  - destruct (PyStr.eqb (c :: k) _) eqn:E.
    + split; [discriminate|]. intros (_ & _ & k' & [= <-] & H).
      apply secret_key_is_configured in H. destruct H as [_ H]. congruence.
    + split.
      * intros [= H]. repeat split. exists (c :: k). split; auto.
      * intros (_ & _ & k' & [= <-] & H). now rewrite H.
  - split; [discriminate|]. intros (_ & _ & k & H & _). discriminate.
Qed.

Lemma check_env_file_raises (m : Machine) (message : PyStr.str) :
  check_env_file m = AppRun.Failed message
  <-> path_exists m (PyStr.lit ".env") = true
      /\ importable m (PyStr.lit "dotenv") = false
      /\ message = PyStr.lit "No module named 'dotenv'".
Proof.
  unfold check_env_file, import_dotenv.
  destruct (path_exists m _); simpl negb; cbv iota.
  2:{ split; [discriminate|]. intros [H _]; discriminate. }
  destruct (importable m _).
  - split; [discriminate|]. intros (_ & H & _); discriminate.
  - split.
    + intros [= <-]. auto.
    + intros (_ & _ & ->). reflexivity.
Qed.

(** The connection test on a machine that passed the dependency and the
    environment check. *)
Lemma connection_test_after_checks (m : Machine) (api_key : PyStr.str) :
  (forall module, In module required_modules -> importable m module = true) ->
  OPENAI_API_KEY m = Some api_key ->
  PyStr.startswith (PyStr.lit "sk-") api_key = true ->
  test_openai_connection m
  = ([api_key],
     match completion m api_key with
     | AppRun.Done _ => Some true
     | AppRun.Failed _ => Some false
     end).
Proof.
  intros D K S. unfold test_openai_connection.
  rewrite (D (PyStr.lit "dotenv")) by (simpl; auto).
  rewrite (D (PyStr.lit "openai")) by (simpl; auto).
  simpl negb. cbv iota. rewrite K.
  destruct (secret_key_is_configured _ S) as [N E].
  destruct api_key as [|c k]; [congruence|].
  now rewrite E.
Qed.

(** [main], by cases on the four checks. *)
Lemma main_cases (m : Machine) :
  main m =
  match check_env_file m with
  | AppRun.Failed message => ([], AppRun.Failed message)
  | AppRun.Done false =>
      ([], AppRun.Done 1%Z)
  | AppRun.Done true =>
      if check_dependencies m then
        let (requests, api_test) := test_openai_connection m in
        (requests,
         AppRun.Done
           (if check_python_version m && check_project_structure m
               && match api_test with Some passed => passed | None => true end
            then 0 else 1)%Z)
      else ([], AppRun.Done 1%Z)
  end.
Proof.
  unfold main.
  destruct (check_env_file m) as [[|]|message]; [| |reflexivity].
  - destruct (check_dependencies m).
    + simpl andb. destruct (test_openai_connection m) as [requests [[|]|]];
        destruct (check_python_version m), (check_project_structure m);
        reflexivity.
    + rewrite !andb_false_r. reflexivity.
  - rewrite !andb_false_r. simpl. reflexivity.
Qed.

(** A passing verdict needs a key that looks like an OpenAI key. *)
Lemma verification_passes_facts (m : Machine) (requests : list PyStr.str) :
  main m = (requests, AppRun.Done 0%Z) ->
  exists api_key,
    OPENAI_API_KEY m = Some api_key
    /\ PyStr.startswith (PyStr.lit "sk-") api_key = true.
Proof.
  rewrite main_cases.
  destruct (check_env_file m) as [[|]|message] eqn:E; try discriminate.
  intros _. apply check_env_file_true in E.
  destruct E as (_ & _ & H). exact H.
Qed.

End SetupFacts.

(** X26. The verification script reports success (exit status 0)
    exactly when the interpreter is recent enough, every required module
    can be imported, [.env] and every required file exist, the OpenAI
    key starts with [sk-], and the one completion request made with that
    key was answered. *)
Theorem verification_passes_iff
  (m : VerifySetup.Machine) (requests : list PyStr.str) :
  VerifySetup.main m = (requests, AppRun.Done 0%Z)
  <-> VerifySetup.check_python_version m = true
      /\ (forall module, In module VerifySetup.required_modules ->
                         VerifySetup.importable m module = true)
      /\ VerifySetup.path_exists m (PyStr.lit ".env") = true
      /\ (forall file, In file VerifySetup.required_files ->
                       VerifySetup.path_exists m file = true)
      /\ exists api_key,
           VerifySetup.OPENAI_API_KEY m = Some api_key
           /\ PyStr.startswith (PyStr.lit "sk-") api_key = true
           /\ VerifySetup.completion m api_key = AppRun.Done tt
           /\ requests = [api_key].
Proof.
  rewrite main_cases.
  rewrite <- check_dependencies_true, <- check_project_structure_true.
  destruct (VerifySetup.check_env_file m) as [[|]|message] eqn:E.
  - apply check_env_file_true in E. destruct E as (P & I & api_key & K & S).
    destruct (VerifySetup.check_dependencies m) eqn:D.
    + rewrite (@connection_test_after_checks m api_key)
        by (try apply check_dependencies_true; assumption).
      split.
      * intros [= <- H].
        destruct (VerifySetup.check_python_version m); [|discriminate].
        destruct (VerifySetup.check_project_structure m); [|discriminate].
        destruct (VerifySetup.completion m api_key) as [[]|message] eqn:C;
          [|discriminate].
        repeat split; auto. exists api_key. auto.
      * intros (-> & _ & _ & -> & api_key' & K' & _ & C & ->).
        assert (api_key' = api_key) by congruence. subst api_key'.
        rewrite C. reflexivity.
    + split; [discriminate|]. intros (_ & H & _). discriminate.
  - split; [discriminate|].
    intros (_ & D & P & _ & api_key & K & S & _).
    assert (H : VerifySetup.check_env_file m = AppRun.Done true).
    { apply check_env_file_true. repeat split; auto.
      - apply (proj1 (@check_dependencies_true m) D). simpl. auto.
      - exists api_key. auto. }
    congruence.
  - split; [discriminate|].
    intros (_ & D & P & _).
    apply check_env_file_raises in E. destruct E as (_ & I & _).
    rewrite (proj1 (@check_dependencies_true m) D (PyStr.lit "dotenv")) in I
      by (simpl; auto).
    discriminate.
Qed.

(** X27. The script makes at most one completion request, and none
    unless every required module can be imported, [.env] exists and the
    OpenAI key starts with [sk-]; the request is made with that key,
    whatever the version and project-structure checks said. *)
Theorem connection_test_needs_basic_checks (m : VerifySetup.Machine) :
  match fst (VerifySetup.main m) with
  | [] => True
  | [api_key] =>
      VerifySetup.OPENAI_API_KEY m = Some api_key
      /\ PyStr.startswith (PyStr.lit "sk-") api_key = true
      /\ VerifySetup.path_exists m (PyStr.lit ".env") = true
      /\ (forall module, In module VerifySetup.required_modules ->
                         VerifySetup.importable m module = true)
  | _ :: _ :: _ => False
  end.
Proof.
  rewrite main_cases.
  destruct (VerifySetup.check_env_file m) as [[|]|message] eqn:E;
    [|exact I|exact I].
  apply check_env_file_true in E. destruct E as (P & _ & api_key & K & S).
  destruct (VerifySetup.check_dependencies m) eqn:D; [|exact I].
  pose proof (proj1 (@check_dependencies_true m) D) as D'.
  rewrite (@connection_test_after_checks m api_key) by assumption.
  simpl. auto.
Qed.

(** X28. The script's verdict does not depend on the Apify token; so a
    machine can pass the verification and still be unable to run the
    workflow: with the same two variables and no Apify token configured,
    every run of the web application fails with
    [APIFY_API_TOKEN not configured!] before it scrapes or generates
    anything. *)
Theorem verified_setup_may_lack_apify_token
  (m : VerifySetup.Machine) (requests : list PyStr.str)
  (env : AppRun.Env) (status_before : App.WorkflowStatus)
  (context : PyStr.str) (num_posts : Z)
  (linkedin_urls x_urls x_search_terms : option (list PyStr.str)) :
  let trace :=
    AppRun.run_workflow_async env context num_posts linkedin_urls x_urls
      x_search_terms in
  (forall token,
      VerifySetup.main (VerifySetup.with_apify_token m token)
      = VerifySetup.main m)
  /\ (VerifySetup.main m = (requests, AppRun.Done 0%Z) ->
      AppRun.OPENAI_API_KEY env = VerifySetup.OPENAI_API_KEY m ->
      AppRun.APIFY_API_TOKEN env = VerifySetup.APIFY_API_TOKEN m ->
      AppRun.not_configured (VerifySetup.APIFY_API_TOKEN m)
        (PyStr.lit "your_apify_api_token_here") = true ->
      App.error (AppRun.status_after status_before trace)
      = Some (PyStr.lit "APIFY_API_TOKEN not configured!")
      /\ forallb AppRunSpec.is_write trace = true).
Proof.
  cbv zeta. split; [reflexivity|].
  intros V KO KA N.
  apply verification_passes_facts in V.
  destruct V as (api_key & K & S).
  destruct (secret_key_is_configured _ S) as [NE E].
  assert (O : AppRun.not_configured (AppRun.OPENAI_API_KEY env)
                (PyStr.lit "your_openai_api_key_here") = false).
  { rewrite KO, K. destruct api_key; [congruence|exact E]. }
  rewrite <- KA in N.
  split.
  - rewrite final_status, O, N. reflexivity.
  - unfold AppRun.run_workflow_async. rewrite workflow_try_cases, O, N.
    reflexivity.
Qed.

Lemma verified_setup_may_lack_apify_token_witness :
  App.error
    (AppRun.status_after RunSamples.earlier_status
       (AppRun.run_workflow_async SetupSamples.tokenless_env
          Samples.sample_context 2 None None None))
  = Some (PyStr.lit "APIFY_API_TOKEN not configured!").
Proof.
  apply (proj2 (verified_setup_may_lack_apify_token VerifySetup.ready_machine
                  [PyStr.lit "sk-test"] SetupSamples.tokenless_env
                  RunSamples.earlier_status Samples.sample_context 2
                  None None None)); reflexivity.
Defined.

(* ================================================================== *)
(** * The PDF download *)
(* ================================================================== *)

Section DownloadFacts.

Import PyStr AppRun AppDownload.

(** Replacing a character: what is left is the replacement's characters
    and the other characters of the text. *)
Lemma replace_char_in (a : char) (new s : str) (c : char) :
  In c (replace [a] new s) -> In c new \/ (In c s /\ c <> a).
Proof.
  unfold replace. induction s as [|d s IH]; [intros []|].
  cbn [replace_from startswith List.length Nat.pred].
  destruct (N.eqb a d) eqn:E; cbn [andb].
  - intros H. apply in_app_or in H. destruct H as [H|H]; [now left|].
    destruct (IH H) as [H'|[H' N]]; [now left|]. right. split; [now right|exact N].
  - intros [<-|H].
    + right. split; [now left|]. intros ->. now rewrite N.eqb_refl in E.
    + destruct (IH H) as [H'|[H' N]]; [now left|]. right. split; [now right|exact N].
Qed.

Lemma escape_no_angle_brackets (line : str) :
  forallb (fun c => negb (N.eqb c 60 || N.eqb c 62)) (escape line) = true.
Proof.
  apply forallb_forall. intros c H. unfold escape in H.
  apply (@replace_char_in 62%N) in H.
  destruct H as [H|[H N]].
  { cbv in H. now repeat destruct H as [<-|H]. }
  apply (@replace_char_in 60%N) in H.
  destruct H as [H|[H N']].
  { cbv in H. now repeat destruct H as [<-|H]. }
  apply N.eqb_neq in N. apply N.eqb_neq in N'. now rewrite N, N'.
Qed.

Variable paragraph : str -> style -> ending unit.

Lemma add_line_paragraph (elements : list flowable) (line : str)
  (markup : str) (s : style) :
  In (Paragraph markup s) (add_line paragraph elements line) ->
  In (Paragraph markup s) elements \/ made_from line (Paragraph markup s).
Proof.
  unfold add_line, made_from. cbv zeta.
  destruct (PyStr.strip line) as [|c l] eqn:L.
  { intros H. apply in_app_or in H. destruct H as [H|[H|[]]]; [now left|discriminate]. }
  destruct (is_heading (c :: l)) eqn:H1.
  { destruct (paragraph (c :: l) Heading2).
    - intros H. apply in_app_or in H. destruct H as [H|[H|[H|[]]]];
        [now left| |discriminate].
      right. split; [discriminate|]. left. split; [now symmetry|reflexivity].
    - intros H. apply in_app_or in H. destruct H as [H|[H|[]]];
        [now left|discriminate]. }
  destruct (startswith (lit "=") (c :: l)) eqn:H2.
  { cbn [orb]. intros H. apply in_app_or in H.
    destruct H as [H|[H|[]]]; [now left|discriminate]. }
  destruct (startswith (lit "-") (c :: l)) eqn:H3.
  { cbn [orb]. intros H. apply in_app_or in H.
    destruct H as [H|[H|[]]]; [now left|discriminate]. }
  cbn [orb]. destruct (paragraph (escape (c :: l)) CustomNormal).
  - intros H. apply in_app_or in H. destruct H as [H|[H|[H|[]]]];
      [now left| |discriminate].
    right. split; [discriminate|]. right. repeat split; auto.
  - now left.
Qed.

Lemma loop_paragraph (lines : list str) (elements : list flowable)
  (markup : str) (s : style) :
  In (Paragraph markup s) (fold_left (add_line paragraph) lines elements) ->
  In (Paragraph markup s) elements
  \/ exists line, In line lines /\ made_from line (Paragraph markup s).
Proof.
  revert elements. induction lines as [|line lines IH]; intros elements; simpl.
  - now left.
  - intros H. destruct (IH _ H) as [H'|(l & I & M)].
    + apply add_line_paragraph in H'. destruct H' as [H'|H']; [now left|].
      right. exists line. split; [now left|exact H'].
    + right. exists l. split; [now right|exact M].
Qed.

End DownloadFacts.

(** X30. Every paragraph of the downloaded PDF is the title, or a
    heading made of a stripped non-empty line of the report holding one
    of the six marker characters and passed to the markup parser as it
    is, or a regular paragraph made of a stripped line that holds no
    marker and starts with neither [=] nor [-]; a regular paragraph's
    markup has its [&], [<] and [>] replaced and so holds no angle
    bracket. *)
Theorem pdf_paragraphs_come_from_report_lines
  (paragraph : PyStr.str -> AppDownload.style -> AppRun.ending unit)
  (output_text markup : PyStr.str) (s : AppDownload.style) :
  In (AppDownload.Paragraph markup s)
     (AppDownload.pdf_elements paragraph output_text) ->
  (markup = AppDownload.TITLE /\ s = AppDownload.Heading1)
  \/ exists line,
       In line (PyStr.split PyStr.NL output_text)
       /\ PyStr.strip line <> []
       /\ ((s = AppDownload.Heading2
            /\ markup = PyStr.strip line
            /\ AppDownload.is_heading markup = true)
           \/ (s = AppDownload.CustomNormal
               /\ markup = AppDownload.escape (PyStr.strip line)
               /\ AppDownload.is_heading (PyStr.strip line) = false
               /\ PyStr.startswith (PyStr.lit "=") (PyStr.strip line) = false
               /\ PyStr.startswith (PyStr.lit "-") (PyStr.strip line) = false
               /\ forallb (fun c => negb (N.eqb c 60 || N.eqb c 62)) markup
                  = true)).
Proof.
  unfold AppDownload.pdf_elements. intros H.
  apply loop_paragraph in H. destruct H as [[H|[H|[]]]|(line & I & M)].
  - left. injection H as <- <-. split; reflexivity.
  - discriminate.
  - right. exists line. split; [exact I|].
    destruct M as [N [[E H1]|(E & H1 & H2 & H3)]]; (split; [exact N|]).
    + left. injection E as -> ->. auto.
    + right. injection E as -> ->. repeat split; auto.
      apply escape_no_angle_brackets.
Qed.

Lemma pdf_paragraphs_come_from_report_lines_witness :
  (PyStr.lit "a &lt; b &amp; c" = AppDownload.TITLE
   /\ AppDownload.CustomNormal = AppDownload.Heading1)
  \/ exists line,
       In line (PyStr.split PyStr.NL DownloadSamples.small_report)
       /\ PyStr.strip line <> []
       /\ ((AppDownload.CustomNormal = AppDownload.Heading2
            /\ PyStr.lit "a &lt; b &amp; c" = PyStr.strip line
            /\ AppDownload.is_heading (PyStr.lit "a &lt; b &amp; c") = true)
           \/ (AppDownload.CustomNormal = AppDownload.CustomNormal
               /\ PyStr.lit "a &lt; b &amp; c"
                  = AppDownload.escape (PyStr.strip line)
               /\ AppDownload.is_heading (PyStr.strip line) = false
               /\ PyStr.startswith (PyStr.lit "=") (PyStr.strip line) = false
               /\ PyStr.startswith (PyStr.lit "-") (PyStr.strip line) = false
               /\ forallb (fun c => negb (N.eqb c 60 || N.eqb c 62))
                    (PyStr.lit "a &lt; b &amp; c")
                  = true)).
Proof.
  apply (pdf_paragraphs_come_from_report_lines DownloadSamples.lenient
           DownloadSamples.small_report).
  vm_compute. auto 10.
Defined.
